(** * Keepalived: the keepalive liveness monitor of the sensu-go backend

    A shallow embedding of [backend/keepalived/keepalived.go].  The daemon
    talks to three collaborators that it only knows through Go interfaces
    (the store, the message bus, the deregistrar) and reads the wall clock.
    They are an interface here as well: a type class over the collaborators'
    own state.  Every call the daemon makes is appended to a trace, so that
    "publishes", "writes" and "does not publish" are statements about the
    calls a function adds to the trace.

    Go pointers to entities and monitors are locations in two heaps, so that
    the assignment [entity.LastSeen = e.Timestamp] and [mon.Stop()] are seen
    through every alias.  A nil dereference, closing a closed channel and a
    negative WaitGroup counter are Go panics: the [Panic] outcome. *)

From Stdlib Require Import ZArith String.
From stdpp Require Import base option list gmap strings.

Local Open Scope string_scope.
Local Open Scope list_scope.
Local Open Scope Z_scope.

(** ** Machine integers and durations *)

(** Two's complement wrap-around of Go's [int64] arithmetic. *)
Definition wrap64 (z : Z) : Z := (z + 2 ^ 63) `mod` 2 ^ 64 - 2 ^ 63.

Definition int64_range (z : Z) : Prop := - 2 ^ 63 <= z < 2 ^ 63.
Definition uint32_range (z : Z) : Prop := 0 <= z < 2 ^ 32.

(** [time.Duration] is an [int64] count of nanoseconds. *)
Definition Duration := Z.
Definition Nanosecond : Duration := 1.
Definition Second : Duration := 1000000000.

(** ** Constants of the package *)

Definition DefaultHandlerCount : Z := 10.
Definition DefaultKeepaliveTimeout : Z := 120.
Definition KeepaliveCheckName : string := "keepalive".
Definition KeepaliveHandlerName : string := "keepalive".
Definition RegistrationCheckName : string := "registration".
Definition RegistrationHandlerName : string := "registration".

(** Modelled from the spec: [types.EntityAgentClass], the class of agent
    entities; its declaration is not part of the sources. *)
Definition EntityAgentClass : string := "agent".

(** Modelled from the spec: the topics of package [messaging] the daemon
    uses (keepalive, event, event-raw); only their being distinct matters. *)
Inductive Topic : Set := TopicKeepalive | TopicEvent | TopicEventRaw.

#[global] Instance Topic_eq_dec : EqDecision Topic.
Proof. solve_decision. Defined.

(** ** Data model *)

Definition error := string.
Definition loc := nat.

(** The fields of [types.Entity] the daemon reads or writes.
    [KeepaliveTimeout] is a [uint32] number of seconds, [LastSeen] an
    [int64] Unix time. *)
Record Entity : Set := mkEntity {
  Entity_ID : string;
  Entity_Class : string;
  Entity_Organization : string;
  Entity_Environment : string;
  Entity_KeepaliveTimeout : Z;
  Entity_Deregister : bool;
  Entity_LastSeen : Z
}.

Definition Entity_set_LastSeen (t : Z) (e : Entity) : Entity :=
  mkEntity (Entity_ID e) (Entity_Class e) (Entity_Organization e)
    (Entity_Environment e) (Entity_KeepaliveTimeout e) (Entity_Deregister e) t.

Record Check : Set := mkCheck {
  Check_Name : string;
  Check_Interval : Z;
  Check_Handlers : list string;
  Check_Environment : string;
  Check_Organization : string;
  Check_Status : Z
}.

Definition Check_set_Status (s : Z) (c : Check) : Check :=
  mkCheck (Check_Name c) (Check_Interval c) (Check_Handlers c)
    (Check_Environment c) (Check_Organization c) s.

(** [types.Event]: a timestamp, a pointer to an entity and a pointer to a
    check, either of which may be nil.  In the daemon's memory the entity is
    a location ([Event]); what crosses the interface to the store or the bus
    is the event with the entity's contents at the time of the call
    ([EventV]). *)
Record EventOf (E : Type) : Type := mkEvent {
  Event_Timestamp : Z;
  Event_Entity : option E;
  Event_Check : option Check
}.
Arguments mkEvent {E} _ _ _.
Arguments Event_Timestamp {E} _.
Arguments Event_Entity {E} _.
Arguments Event_Check {E} _.

Definition Event := EventOf loc.
Definition EventV := EventOf Entity.

Definition Event_set_Check {E} (c : option Check) (e : EventOf E) : EventOf E :=
  mkEvent (Event_Timestamp e) (Event_Entity e) c.

(** [types.KeepaliveRecord], the persisted marker of a failing keepalive. *)
Record KeepaliveRecord : Set := mkKeepaliveRecord {
  Record_EntityID : string;
  Record_Organization : string;
  Record_Environment : string;
  Record_Time : Z
}.

(** The two values a [context.Context] carries to the store.
    [context.TODO()] carries neither. *)
Record Ctx : Set := mkCtx {
  Ctx_Organization : option string;
  Ctx_Environment : option string
}.

Definition ctxTODO : Ctx := mkCtx None None.

(** [types.SetContextFromResource]: the organization and environment of the
    resource, read through [GetOrg] and [GetEnv]. *)
Definition SetContextFromResource (e : Entity) : Ctx :=
  mkCtx (Some (Entity_Organization e)) (Some (Entity_Environment e)).

(** What arrives on the keepalive channel, a [chan interface{}]: an
    [*types.Event] (possibly a nil one) or a value of another type. *)
Inductive Msg : Type :=
| MsgEvent (e : option Event)
| MsgOther.

Definition Subscription := nat.

(** Modelled from the spec: a monitor of package [monitor], by its contract
    (section 6.3): [GetTimeout] returns the configured quiet period,
    [IsStopped] the stopped flag that [Stop] sets. *)
Record Monitor : Set := mkMonitor {
  Monitor_Entity : option loc;
  Monitor_Timeout : Duration;
  Monitor_Stopped : bool
}.

Definition Monitor_set_Stopped (m : Monitor) : Monitor :=
  mkMonitor (Monitor_Entity m) (Monitor_Timeout m) true.

Inductive ChanName : Set := KeepaliveChan | ErrChan.

(** Goroutines the daemon starts with [go]. *)
Inductive Task : Set :=
| TaskWorker
| TaskSweeper
| TaskMonitorStop (m : loc).

#[global] Instance Entity_eq_dec : EqDecision Entity.
Proof. solve_decision. Defined.
#[global] Instance Check_eq_dec : EqDecision Check.
Proof. solve_decision. Defined.
#[global] Instance EventOf_eq_dec {E} `{EqDecision E} : EqDecision (EventOf E).
Proof. solve_decision. Defined.
#[global] Instance KeepaliveRecord_eq_dec : EqDecision KeepaliveRecord.
Proof. solve_decision. Defined.
#[global] Instance Ctx_eq_dec : EqDecision Ctx.
Proof. solve_decision. Defined.
#[global] Instance Monitor_eq_dec : EqDecision Monitor.
Proof. solve_decision. Defined.
#[global] Instance ChanName_eq_dec : EqDecision ChanName.
Proof. solve_decision. Defined.
#[global] Instance Task_eq_dec : EqDecision Task.
Proof. solve_decision. Defined.

(** ** Calls and runtime actions, as they appear in the trace *)

Inductive Action : Type :=
| ASubscribe (topic : Topic) (name : string)
| ACancel (sub : Subscription)
| APublish (topic : Topic) (ev : EventV)
| AGetFailingKeepalives (ctx : Ctx)
| AGetEventByEntityCheck (ctx : Ctx) (id check : string)
| AGetEntityByID (ctx : Ctx) (id : string)
| AUpdateEntity (ctx : Ctx) (e : Entity)
| ADeleteFailingKeepalive (ctx : Ctx) (e : Entity)
| AUpdateFailingKeepalive (ctx : Ctx) (e : Entity) (deadline : Z)
| ADeregister (e : Entity)
| ANow (unix : Z)
| ALog (msg : string)
| AClose (c : ChanName)
| AWait
| AGo (t : Task).

#[global] Instance Action_eq_dec : EqDecision Action.
Proof. unfold EqDecision, Decision, EventV, Subscription. decide equality; solve_decision. Defined.

Definition is_publish (a : Action) : bool :=
  match a with APublish _ _ => true | _ => false end.

Definition is_go (a : Action) : bool :=
  match a with AGo _ => true | _ => false end.

(** A value or an error, for the Go functions that return both. *)
Inductive result (A : Type) : Type :=
| Ok (a : A)
| Err (e : error).
Arguments Ok {A} _.
Arguments Err {A} _.

(** ** The collaborators

    [store.Store], [messaging.MessageBus], [messaging.Subscription], the
    [Deregistration] adapter, [time.Now().Unix()] and [Entity.Validate] are
    not part of the sources.  Each is a transition on the collaborators'
    state [S] that also yields what the Go method returns. *)
Class Collaborators (S : Type) : Type := {
  bus_Subscribe : Topic -> string -> S -> result Subscription * S;
  bus_Publish : Topic -> EventV -> S -> option error * S;
  sub_Cancel : Subscription -> S -> option error * S;
  store_GetFailingKeepalives : Ctx -> S -> result (list KeepaliveRecord) * S;
  store_GetEventByEntityCheck : Ctx -> string -> string -> S -> result (option EventV) * S;
  store_GetEntityByID : Ctx -> string -> S -> result (option Entity) * S;
  store_UpdateEntity : Ctx -> Entity -> S -> option error * S;
  store_DeleteFailingKeepalive : Ctx -> Entity -> S -> option error * S;
  store_UpdateFailingKeepalive : Ctx -> Entity -> Z -> S -> option error * S;
  deregisterer_Deregister : Entity -> S -> option error * S;
  time_Now_Unix : S -> Z * S;
  Entity_Validate : Entity -> option error
}.

(** ** The daemon's own state *)

(** A channel, as far as the daemon itself is concerned: open or closed. *)
Record Chan : Set := mkChan { Chan_closed : bool }.

(** The [Keepalived] struct.  [bus] and [store] are the collaborators,
    [monitorFactory] is [monitor.New], and [mu] is held throughout
    [syncMonitor] below, which is one step here. *)
Record Keepalived : Type := mkKeepalived {
  handlerCount : Z;
  deregistrationHandler : string;
  monitors : gmap string loc;
  wg : option Z;
  keepaliveChan : Chan;
  subscription : option Subscription;
  errChan : Chan
}.

Definition set_monitors (m : gmap string loc) (k : Keepalived) : Keepalived :=
  mkKeepalived (handlerCount k) (deregistrationHandler k) m (wg k)
    (keepaliveChan k) (subscription k) (errChan k).
Definition set_wg (n : option Z) (k : Keepalived) : Keepalived :=
  mkKeepalived (handlerCount k) (deregistrationHandler k) (monitors k) n
    (keepaliveChan k) (subscription k) (errChan k).
Definition set_keepaliveChan (c : Chan) (k : Keepalived) : Keepalived :=
  mkKeepalived (handlerCount k) (deregistrationHandler k) (monitors k) (wg k)
    c (subscription k) (errChan k).
Definition set_subscription (s : option Subscription) (k : Keepalived) : Keepalived :=
  mkKeepalived (handlerCount k) (deregistrationHandler k) (monitors k) (wg k)
    (keepaliveChan k) s (errChan k).
Definition set_errChan (c : Chan) (k : Keepalived) : Keepalived :=
  mkKeepalived (handlerCount k) (deregistrationHandler k) (monitors k) (wg k)
    (keepaliveChan k) (subscription k) c.

(** [New], without functional options: the defaults of the constructor. *)
Definition New (DeregistrationHandler : string) : Keepalived :=
  mkKeepalived DefaultHandlerCount DeregistrationHandler ∅ None
    (mkChan false) None (mkChan false).

(** The world: collaborators, trace, the two heaps and the daemon. *)
Record World (S : Type) : Type := mkWorld {
  ext : S;
  trace : list Action;
  ents : list Entity;
  mons : list Monitor;
  kd : Keepalived
}.
Arguments mkWorld {S} _ _ _ _ _.
Arguments ext {S} _.
Arguments trace {S} _.
Arguments ents {S} _.
Arguments mons {S} _.
Arguments kd {S} _.

(** What a Go function call comes to: it returns, or it panics. *)
Inductive Res (S A : Type) : Type :=
| Done (a : A) (w : World S)
| Panic (msg : string) (w : World S).
Arguments Done {S A} _ _.
Arguments Panic {S A} _ _.

Section Daemon.
Context {S : Type} `{!Collaborators S}.

Definition M (A : Type) : Type := World S -> Res S A.

#[local] Instance M_ret : MRet M := λ A a w, Done a w.
#[local] Instance M_bind : MBind M := λ A B f c w,
  match c w with
  | Done a w' => f a w'
  | Panic msg w' => Panic msg w'
  end.

Definition panic {A} (msg : string) : M A := λ w, Panic msg w.

Definition emit (a : Action) : M unit := λ w,
  Done tt (mkWorld (ext w) (trace w ++ [a]) (ents w) (mons w) (kd w)).

(** A call to a collaborator: the request goes to the trace, the
    collaborator moves, its answer comes back. *)
Definition call {A} (a : Action) (f : S -> A * S) : M A := λ w,
  let r := f (ext w) in
  Done r.1 (mkWorld r.2 (trace w ++ [a]) (ents w) (mons w) (kd w)).

Definition getK : M Keepalived := λ w, Done (kd w) w.
Definition modifyK (f : Keepalived -> Keepalived) : M unit := λ w,
  Done tt (mkWorld (ext w) (trace w) (ents w) (mons w) (f (kd w))).

Definition log (msg : string) : M unit := emit (ALog msg).

(** [time.Now().Unix()]; the value read is kept in the trace. *)
Definition Now_Unix : M Z := λ w,
  let r := time_Now_Unix (ext w) in
  Done r.1 (mkWorld r.2 (trace w ++ [ANow r.1]) (ents w) (mons w) (kd w)).

(** *** Entities behind pointers *)

Definition load_entity (p : option loc) : M Entity := λ w,
  match p with
  | None => Panic "nil pointer dereference" w
  | Some l =>
      match ents w !! l with
      | Some e => Done e w
      | None => Panic "dangling entity pointer" w
      end
  end.

Definition store_entity (l : loc) (e : Entity) : M unit := λ w,
  Done tt (mkWorld (ext w) (trace w) (<[l := e]> (ents w)) (mons w) (kd w)).

Definition new_entity (e : Entity) : M loc := λ w,
  Done (length (ents w)) (mkWorld (ext w) (trace w) (ents w ++ [e]) (mons w) (kd w)).

(** The contents of an event at this moment, as a collaborator sees it. *)
Definition snapshot (ev : Event) : M EventV := λ w,
  match Event_Entity ev with
  | None => Done (mkEvent (Event_Timestamp ev) None (Event_Check ev)) w
  | Some l =>
      match ents w !! l with
      | Some e => Done (mkEvent (Event_Timestamp ev) (Some e) (Event_Check ev)) w
      | None => Panic "dangling entity pointer" w
      end
  end.

(** *** Store and bus, as the daemon calls them *)

Definition Publish (topic : Topic) (ev : Event) : M (option error) :=
  v ← snapshot ev;
  call (APublish topic v) (bus_Publish topic v).

Definition GetEntityByID (ctx : Ctx) (id : string) : M (result (option Entity)) :=
  call (AGetEntityByID ctx id) (store_GetEntityByID ctx id).

Definition UpdateEntity (ctx : Ctx) (p : option loc) : M (option error) :=
  e ← load_entity p;
  call (AUpdateEntity ctx e) (store_UpdateEntity ctx e).

Definition DeleteFailingKeepalive (ctx : Ctx) (p : option loc) : M (option error) :=
  e ← load_entity p;
  call (ADeleteFailingKeepalive ctx e) (store_DeleteFailingKeepalive ctx e).

Definition UpdateFailingKeepalive (ctx : Ctx) (p : option loc) (deadline : Z)
  : M (option error) :=
  e ← load_entity p;
  call (AUpdateFailingKeepalive ctx e deadline) (store_UpdateFailingKeepalive ctx e deadline).

Definition GetFailingKeepalives (ctx : Ctx) : M (result (list KeepaliveRecord)) :=
  call (AGetFailingKeepalives ctx) (store_GetFailingKeepalives ctx).

(** The store hands back a freshly decoded event: its entity, if it has
    one, is a new object in the daemon's memory. *)
Definition GetEventByEntityCheck (ctx : Ctx) (id check : string)
  : M (result (option Event)) :=
  r ← call (AGetEventByEntityCheck ctx id check) (store_GetEventByEntityCheck ctx id check);
  match r with
  | Err e => mret (Err e)
  | Ok None => mret (Ok None)
  | Ok (Some v) =>
      match Event_Entity v with
      | None => mret (Ok (Some (mkEvent (Event_Timestamp v) None (Event_Check v))))
      | Some e =>
          l ← new_entity e;
          mret (Ok (Some (mkEvent (Event_Timestamp v) (Some l) (Event_Check v))))
      end
  end.

(** [Deregistration{Store: k.store, MessageBus: k.bus}.Deregister(entity)]. *)
Definition Deregister (p : option loc) : M (option error) :=
  e ← load_entity p;
  call (ADeregister e) (deregisterer_Deregister e).

(** *** Event constructors *)

Definition createKeepaliveEvent (entity : option loc) : M Event :=
  e ← load_entity entity;
  let keepaliveCheck :=
    mkCheck KeepaliveCheckName (Entity_KeepaliveTimeout e) [KeepaliveHandlerName]
      (Entity_Environment e) (Entity_Organization e) 1 in
  now ← Now_Unix;
  mret (mkEvent now entity (Some keepaliveCheck)).

Definition createRegistrationEvent (entity : option loc) : M Event :=
  e ← load_entity entity;
  let registrationCheck :=
    mkCheck RegistrationCheckName (Entity_KeepaliveTimeout e) [RegistrationHandlerName]
      (Entity_Environment e) (Entity_Organization e) 1 in
  now ← Now_Unix;
  mret (mkEvent now entity (Some registrationCheck)).

(** [event.Check.Status = s], on an event whose check may be nil. *)
Definition set_Check_Status (s : Z) (ev : Event) : M Event :=
  match Event_Check ev with
  | None => panic "nil pointer dereference"
  | Some c => mret (Event_set_Check (Some (Check_set_Status s c)) ev)
  end.

(** *** Monitor callbacks *)

Definition HandleUpdate (e : Event) : M (option error) :=
  let entity := Event_Entity e in
  ent ← load_entity entity;
  let ctx := SetContextFromResource ent in
  err ← DeleteFailingKeepalive ctx entity;
  match err with
  | Some err => mret (Some err)
  | None =>
      match entity with
      | None => panic "nil pointer dereference"
      | Some l => store_entity l (Entity_set_LastSeen (Event_Timestamp e) ent)
      end;;
      err ← UpdateEntity ctx entity;
      match err with
      | Some err =>
          log "error updating entity in store";;
          mret (Some err)
      | None =>
          event ← createKeepaliveEvent entity;
          event ← set_Check_Status 0 event;
          Publish TopicEventRaw event
      end
  end.

Definition HandleFailure (entity : option loc) (_ : option Event) : M (option error) :=
  ent ← load_entity entity;
  let ctx := SetContextFromResource ent in
  if Entity_Deregister ent then Deregister entity
  else
    event ← createKeepaliveEvent entity;
    event ← set_Check_Status 1 event;
    err ← Publish TopicEventRaw event;
    match err with
    | Some err => mret (Some err)
    | None =>
        log "keepalive timed out, creating keepalive event for entity";;
        now ← Now_Unix;
        ent ← load_entity entity;
        let timeout := wrap64 (now + Entity_KeepaliveTimeout ent) in
        UpdateFailingKeepalive ctx entity timeout
    end.

(** *** Monitors behind pointers

    Modelled from the spec: the methods of a monitor, by the contract of
    section 6.3.  The factory is called with a nil event everywhere; the two
    handlers it is given are always the daemon itself. *)

Definition monitorFactory (entity : option loc) (t : Duration) : M loc := λ w,
  Done (length (mons w))
    (mkWorld (ext w) (trace w) (ents w) (mons w ++ [mkMonitor entity t false]) (kd w)).

Definition load_monitor (m : loc) : M Monitor := λ w,
  match mons w !! m with
  | Some mon => Done mon w
  | None => Panic "dangling monitor pointer" w
  end.

Definition Monitor_IsStopped (m : loc) : M bool :=
  mon ← load_monitor m; mret (Monitor_Stopped mon).

Definition Monitor_GetTimeout (m : loc) : M Duration :=
  mon ← load_monitor m; mret (Monitor_Timeout mon).

Definition store_monitor (m : loc) (mon : Monitor) : M unit := λ w,
  Done tt (mkWorld (ext w) (trace w) (ents w) (<[m := mon]> (mons w)) (kd w)).

Definition Monitor_Stop (m : loc) : M unit :=
  mon ← load_monitor m;
  store_monitor m (Monitor_set_Stopped mon).

(** [HandleUpdate] of a monitor resets its timer and notifies the update
    handler, which is the daemon. *)
Definition Monitor_HandleUpdate (m : loc) (event : Event) : M (option error) :=
  _ ← load_monitor m;
  HandleUpdate event.

(** *** The worker *)

Definition handleEntityRegistration (entity : option loc) : M (option error) :=
  ent ← load_entity entity;
  if negb (String.eqb (Entity_Class ent) EntityAgentClass) then mret None
  else
    let ctx := SetContextFromResource ent in
    r ← GetEntityByID ctx (Entity_ID ent);
    match r with
    | Err err => mret (Some err)
    | Ok (Some _) => mret None
    | Ok None =>
        event ← createRegistrationEvent entity;
        Publish TopicEvent event
    end.

Definition set_registry (id : string) (m : loc) : M unit :=
  modifyK (λ k, set_monitors (<[id := m]> (monitors k)) k).

(** The region of [processKeepalives] between [k.mu.Lock()] and
    [k.mu.Unlock()]; it returns the monitor that then receives the event. *)
Definition syncMonitor (entity : option loc) : M loc :=
  ent ← load_entity entity;
  k ← getK;
  let found : option loc := monitors k !! Entity_ID ent in
  let timeout : Duration := wrap64 (Entity_KeepaliveTimeout ent * Second) in
  mon ← match found return M loc with
        | None =>
            mon ← monitorFactory entity timeout;
            set_registry (Entity_ID ent) mon;;
            mret mon
        | Some mon =>
            stopped ← Monitor_IsStopped mon;
            if (stopped : bool) then
              mon ← monitorFactory entity timeout;
              set_registry (Entity_ID ent) mon;;
              mret mon
            else mret mon
        end;
  t ← Monitor_GetTimeout mon;
  if negb (t =? timeout) then
    Monitor_Stop mon;;
    mon ← monitorFactory entity timeout;
    set_registry (Entity_ID ent) mon;;
    mret mon
  else mret mon.

(** The body of the [for msg := range k.keepaliveChan] loop. *)
Definition processKeepalive (msg : Msg) : M unit :=
  match msg with
  | MsgOther => log "keepalived received non-Event on keepalive channel"
  | MsgEvent None => panic "nil pointer dereference"
  | MsgEvent (Some event) =>
      let entity := Event_Entity event in
      match entity with
      | None => log "received keepalive with nil entity"
      | Some _ =>
          ent ← load_entity entity;
          match Entity_Validate ent with
          | Some _ => log "invalid keepalive event"
          | None =>
              err ← handleEntityRegistration entity;
              (if err is Some _ then log "error handling entity registration"
               else mret tt);;
              mon ← syncMonitor entity;
              err ← Monitor_HandleUpdate mon event;
              if err is Some _ then log "error monitoring entity" else mret tt
          end
      end
  end.

Fixpoint forM_ {A} (f : A -> M unit) (l : list A) : M unit :=
  match l with
  | [] => mret tt
  | x :: l' => f x;; forM_ f l'
  end.

(** *** The WaitGroup and the channels *)

Definition wg_Add (n : Z) : M unit :=
  k ← getK;
  match wg k with
  | None => panic "nil pointer dereference"
  | Some c =>
      if c + n <? 0 then panic "sync: negative WaitGroup counter"
      else modifyK (set_wg (Some (c + n)))
  end.

Definition wg_Done : M unit := wg_Add (-1).

(** [k.wg.Wait()] returns once the counter is zero; the steps the workers
    take until then are those of [processKeepalives]. *)
Definition wg_Wait : M unit :=
  k ← getK;
  match wg k with
  | None => panic "nil pointer dereference"
  | Some _ => emit AWait
  end.

Definition close (c : ChanName) : M unit :=
  k ← getK;
  let ch := match c with KeepaliveChan => keepaliveChan k | ErrChan => errChan k end in
  if Chan_closed ch then panic "close of closed channel"
  else
    emit (AClose c);;
    modifyK (match c with
             | KeepaliveChan => set_keepaliveChan (mkChan true)
             | ErrChan => set_errChan (mkChan true)
             end).

Definition go (t : Task) : M unit := emit (AGo t).

(** One worker: the messages it receives until the channel is closed and
    drained, then the deferred [k.wg.Done()]. *)
Definition processKeepalives (msgs : list Msg) : M unit :=
  forM_ processKeepalive msgs;;
  wg_Done.

Definition startWorkers : M unit :=
  modifyK (set_wg (Some 0));;
  k ← getK;
  wg_Add (handlerCount k);;
  forM_ (λ _, go TaskWorker) (replicate (Z.to_nat (handlerCount k)) tt).

(** One tick of the sweeper's loop: stopped monitors leave the registry. *)
Definition sweep : M unit :=
  k ← getK;
  forM_ (λ '(key, m),
           stopped ← Monitor_IsStopped m;
           if (stopped : bool) then modifyK (λ k, set_monitors (delete key (monitors k)) k)
           else mret tt)
        (map_to_list (monitors k)).

Definition startMonitorSweeper : M unit := go TaskSweeper.

(** *** Recovery *)

Fixpoint initFromStore_loop (keepalives : list KeepaliveRecord) : M (option error) :=
  match keepalives with
  | [] => mret None
  | keepalive :: rest =>
      let entityCtx :=
        mkCtx (Some (Record_Organization keepalive)) (Some (Record_Environment keepalive)) in
      r ← GetEventByEntityCheck entityCtx (Record_EntityID keepalive) "keepalive";
      match r with
      | Err err => mret (Some err)
      | Ok None => initFromStore_loop rest
      | Ok (Some event) =>
          match Event_Check event with
          | None => panic "nil pointer dereference"
          | Some check =>
              if Check_Status check =? 0 then initFromStore_loop rest
              else
                now ← Now_Unix;
                let d : Duration := wrap64 (Record_Time keepalive - now) in
                let d : Duration := if d <? 0 then 0 else d in
                monitor ← monitorFactory (Event_Entity event) d;
                set_registry (Record_EntityID keepalive) monitor;;
                initFromStore_loop rest
          end
      end
  end.

Definition initFromStore : M (option error) :=
  r ← GetFailingKeepalives ctxTODO;
  match r with
  | Err err => mret (Some err)
  | Ok keepalives => initFromStore_loop keepalives
  end.

(** *** Life cycle *)

Definition Cancel : M (option error) :=
  k ← getK;
  match subscription k with
  | None => panic "nil pointer dereference"
  | Some sub => call (ACancel sub) (sub_Cancel sub)
  end.

Definition Start : M (option error) :=
  r ← call (ASubscribe TopicKeepalive "keepalived") (bus_Subscribe TopicKeepalive "keepalived");
  match r with
  | Err err => mret (Some err)
  | Ok sub =>
      modifyK (set_subscription (Some sub));;
      err ← initFromStore;
      match err with
      | Some err =>
          cerr ← Cancel;
          (if cerr is Some _ then log "unable to unsubscribe from message bus"
           else mret tt);;
          mret (Some err)
      | None =>
          startWorkers;;
          startMonitorSweeper;;
          mret None
      end
  end.

(** Go ranges over the registry in no particular order; here it is the
    order of [map_to_list]. *)
Definition Stop : M (option error) :=
  err ← Cancel;
  close KeepaliveChan;;
  wg_Wait;;
  k ← getK;
  forM_ (λ km, go (TaskMonitorStop km.2)) (map_to_list (monitors k));;
  close ErrChan;;
  mret err.

Definition Status : M (option error) := mret None.

End Daemon.

(** ** An in-memory store and bus

    A test double in the manner of the repository's mock store and bus: the
    store keeps entities, keepalive events and failing-keepalive records in
    lists, the bus keeps what was published, the clock advances by one
    second at each reading, and any operation can be made to fail. *)
Module Mock.

Inductive Op : Set :=
| OpSubscribe | OpPublish | OpCancel | OpGetFailingKeepalives
| OpGetEventByEntityCheck | OpGetEntityByID | OpUpdateEntity
| OpDeleteFailingKeepalive | OpUpdateFailingKeepalive | OpDeregister.

Record Mem : Type := mkMem {
  clock : Z;
  entities : list Entity;
  events : list (string * EventV);
  failing : list KeepaliveRecord;
  published : list (Topic * EventV);
  fault : Op -> option error
}.

Definition no_fault : Op -> option error := λ _, None.

Definition answer {A} (o : Op) (m : Mem) (ok : A * Mem) : result A * Mem :=
  match fault m o with
  | Some err => (Err err, m)
  | None => (Ok ok.1, ok.2)
  end.

Definition perform (o : Op) (m : Mem) (ok : Mem) : option error * Mem :=
  match fault m o with
  | Some err => (Some err, m)
  | None => (None, ok)
  end.

Definition other_entity (id : string) (e : Entity) : bool :=
  negb (String.eqb (Entity_ID e) id).
Definition other_record (id : string) (r : KeepaliveRecord) : bool :=
  negb (String.eqb (Record_EntityID r) id).

Definition with_entities (l : list Entity) (m : Mem) : Mem :=
  mkMem (clock m) l (events m) (failing m) (published m) (fault m).
Definition with_failing (l : list KeepaliveRecord) (m : Mem) : Mem :=
  mkMem (clock m) (entities m) (events m) l (published m) (fault m).
Definition with_published (l : list (Topic * EventV)) (m : Mem) : Mem :=
  mkMem (clock m) (entities m) (events m) (failing m) l (fault m).

(** Modelled from the spec: [Entity.Validate], the entity-level sanity
    check (section 3: non-empty ID, positive timeout). *)
Definition Validate (e : Entity) : option error :=
  if String.eqb (Entity_ID e) "" then Some "entity id must not be empty"
  else if Entity_KeepaliveTimeout e <=? 0 then Some "entity keepalive timeout must be positive"
  else None.

#[global] Instance collaborators : Collaborators Mem := {|
  bus_Subscribe _ _ m := answer OpSubscribe m (1%nat, m);
  bus_Publish topic ev m :=
    perform OpPublish m (with_published (published m ++ [(topic, ev)]) m);
  sub_Cancel _ m := perform OpCancel m m;
  store_GetFailingKeepalives _ m := answer OpGetFailingKeepalives m (failing m, m);
  store_GetEventByEntityCheck _ id check m :=
    answer OpGetEventByEntityCheck m
      (snd <$> List.find (λ p, String.eqb p.1 id) (events m), m);
  store_GetEntityByID _ id m :=
    answer OpGetEntityByID m
      (List.find (λ e, String.eqb (Entity_ID e) id) (entities m), m);
  store_UpdateEntity _ e m :=
    perform OpUpdateEntity m
      (with_entities (e :: List.filter (other_entity (Entity_ID e)) (entities m)) m);
  store_DeleteFailingKeepalive _ e m :=
    perform OpDeleteFailingKeepalive m
      (with_failing (List.filter (other_record (Entity_ID e)) (failing m)) m);
  store_UpdateFailingKeepalive _ e t m :=
    perform OpUpdateFailingKeepalive m
      (with_failing
         (mkKeepaliveRecord (Entity_ID e) (Entity_Organization e) (Entity_Environment e) t
            :: List.filter (other_record (Entity_ID e)) (failing m)) m);
  deregisterer_Deregister e m :=
    perform OpDeregister m
      (with_entities (List.filter (other_entity (Entity_ID e)) (entities m))
         (with_failing (List.filter (other_record (Entity_ID e)) (failing m)) m));
  time_Now_Unix m :=
    (clock m, mkMem (clock m + 1) (entities m) (events m) (failing m) (published m) (fault m));
  Entity_Validate := Validate
|}.

Definition a1 : Entity := mkEntity "a1" "agent" "o" "e" 30 false 0.
Definition a2 : Entity := mkEntity "a2" "agent" "o" "e" 30 true 0.
Definition proxy : Entity := mkEntity "p1" "proxy" "o" "e" 60 false 0.

Definition empty_mem (now : Z) : Mem := mkMem now [] [] [] [] no_fault.

Definition failing_on (o : Op) (err : error) (m : Mem) : Mem :=
  mkMem (clock m) (entities m) (events m) (failing m) (published m)
    (λ o', match o, o' with
           | OpSubscribe, OpSubscribe | OpPublish, OpPublish | OpCancel, OpCancel
           | OpGetFailingKeepalives, OpGetFailingKeepalives
           | OpGetEventByEntityCheck, OpGetEventByEntityCheck
           | OpGetEntityByID, OpGetEntityByID | OpUpdateEntity, OpUpdateEntity
           | OpDeleteFailingKeepalive, OpDeleteFailingKeepalive
           | OpUpdateFailingKeepalive, OpUpdateFailingKeepalive
           | OpDeregister, OpDeregister => Some err
           | _, _ => fault m o'
           end).

(** A freshly constructed daemon over the given collaborators' state, with
    the given entities already in memory. *)
Definition fresh (m : Mem) (es : list Entity) : World Mem :=
  mkWorld m [] es [] (New "deregistration").

(** An event as a worker receives it: timestamp, entity, no check. *)
Definition keepalive_of (t : Z) (l : loc) : Event := mkEvent t (Some l) None.

(** *** Scenarios *)

(** The agent [a1], or the deregistering agent [a2], in memory at location
    0, at time 1000, nothing in the store. *)
Definition w_a1 : World Mem := fresh (empty_mem 1000) [a1].
Definition w_a2 : World Mem := fresh (empty_mem 1000) [a2].

(** As [w_a1], with a store that refuses to delete failing-keepalive
    records, and with a bus that refuses to publish. *)
Definition w_delete_fails : World Mem :=
  fresh (failing_on OpDeleteFailingKeepalive "store unavailable" (empty_mem 1000)) [a1].
Definition w_publish_fails : World Mem :=
  fresh (failing_on OpPublish "bus unavailable" (empty_mem 1000)) [a1].

(** Timeout change: [a1] has a running monitor of 30 seconds and now
    announces 60 seconds. *)
Definition a1_60 : Entity := mkEntity "a1" "agent" "o" "e" 60 false 0.
Definition w_timeout_change : World Mem :=
  mkWorld (empty_mem 1000) [] [a1; a1_60] [mkMonitor (Some 0%nat) (30 * Second) false]
    (set_monitors {[ "a1" := 0%nat ]} (New "deregistration")).

(** Restart recovery: at time 1000 the store holds failing records with
    deadline 1005 for [a1], whose keepalive event has status 1, and for
    [a2], whose keepalive event has status 0. *)
Definition keepalive_event (e : Entity) (status : Z) : EventV :=
  mkEvent 990 (Some e)
    (Some (mkCheck "keepalive" (Entity_KeepaliveTimeout e) ["keepalive"]
             (Entity_Environment e) (Entity_Organization e) status)).
Definition record_a1 : KeepaliveRecord := mkKeepaliveRecord "a1" "o" "e" 1005.
Definition record_a2 : KeepaliveRecord := mkKeepaliveRecord "a2" "o" "e" 1005.
Definition recovery_mem : Mem :=
  mkMem 1000 [] [("a1", keepalive_event a1 1); ("a2", keepalive_event a2 0)]
    [record_a1; record_a2] [] no_fault.
Definition w_recovery : World Mem := fresh recovery_mem [].

(** As [w_recovery], with a store that fails to look events up. *)
Definition w_recovery_fails : World Mem :=
  fresh (failing_on OpGetEventByEntityCheck "store unavailable" recovery_mem) [].

(** [a1] in memory and known to the store. *)
Definition w_known : World Mem := fresh (mkMem 1000 [a1] [] [] [] no_fault) [a1].

(** Two objects for [a1] in memory, as two messages bring them. *)
Definition w_two_objects : World Mem := fresh (empty_mem 1000) [a1; a1].

(** [a1] with a monitor that is stopped and still in the registry. *)
Definition w_stopped : World Mem :=
  mkWorld (empty_mem 1000) [] [a1] [mkMonitor (Some 0%nat) (30 * Second) true]
    (set_monitors {[ "a1" := 0%nat ]} (New "deregistration")).

(** The store of [recovery_mem], and a daemon that already has a running
    monitor for [a1] in its registry. *)
Definition w_recovery_registered : World Mem :=
  mkWorld recovery_mem [] [a1] [mkMonitor (Some 0%nat) (30 * Second) false]
    (set_monitors {[ "a1" := 0%nat ]} (New "deregistration")).

(** A failing record for [a1] whose deadline, 990, has passed. *)
Definition record_a1_past : KeepaliveRecord := mkKeepaliveRecord "a1" "o" "e" 990.

(** The world a run leaves behind. *)
Definition world_of {A} (r : Res Mem A) : World Mem :=
  match r with Done _ w => w | Panic _ w => w end.

(** The daemon of [w_recovery], started. *)
Definition w_started : World Mem := world_of (Start w_recovery).

End Mock.

(** * Package types: environments

    [types/environment.go].  [ValidateName] is declared elsewhere in the
    package and is a parameter here. *)
Module Types.

Record Environment : Set := mkEnvironment {
  Environment_Name : string;
  Environment_Organization : string
}.

Section Validate.
Variable ValidateName : string -> option error.

(** [Validate] returns an error if the environment does not pass
    validation tests. *)
Definition Validate (e : Environment) : option error :=
  match ValidateName (Environment_Name e) with
  | Some err => Some ("environment name " +:+ err)
  | None =>
      if Nat.eqb (String.length (Environment_Organization e)) 0
      then Some "environment organization must be set"
      else None
  end.

End Validate.

(** [FixtureEnvironment] returns a mocked environment. *)
Definition FixtureEnvironment (name : string) : Environment :=
  mkEnvironment name "default".

Definition GetOrg (e : Environment) : string := Environment_Organization e.
Definition GetEnv (e : Environment) : string := Environment_Name e.

End Types.

(** * The command that lists silenced entries

    [cli/commands/silenced/list.go].  The flag set, the configuration and
    the API client are what the command is given; the calls it makes to the
    client and to the printer are its trace. *)
Module SilencedList.

(** The flags of the command, as [flg.GetBool] and [flg.GetString] read
    them; either can fail. *)
Record FlagSet : Type := mkFlagSet {
  GetBool : string -> result bool;
  GetString : string -> result string
}.

(** The fields of [types.Silenced] the table shows. *)
Record Silenced : Set := mkSilenced {
  Silenced_ID : string;
  Silenced_Expire : Z;
  Silenced_ExpireOnResolve : bool;
  Silenced_Creator : string;
  Silenced_Check : string;
  Silenced_Reason : string;
  Silenced_Subscription : string;
  Silenced_Organization : string;
  Silenced_Environment : string
}.

(** The zero value of [types.Silenced]. *)
Definition zero : Silenced := mkSilenced "" 0 false "" "" "" "" "" "".

(** A row handed to a cell transformer as [interface{}]: a
    [types.Silenced] or a value of another type. *)
Inductive Data : Type :=
| DataSilenced (s : Silenced)
| DataOther.

(** [silenced, _ := data.(types.Silenced)]: the value, or the zero value
    when the assertion fails. *)
Definition assert_Silenced (data : Data) : Silenced :=
  match data with
  | DataSilenced s => s
  | DataOther => zero
  end.

Inductive Call (R : Type) : Type :=
| CallListSilenceds (org sub check : string)
| CallPrint (format : string) (results : R).
Arguments CallListSilenceds {R} _ _ _.
Arguments CallPrint {R} _ _.

Section Command.
(** [flags.AllOrgs], the name of the flag; [time.Duration.String] and
    [globals.BooleanStyleP], declared elsewhere. *)
Variable AllOrgs : string.
Variable Duration_String : Duration -> string.
Variable BooleanStyleP : bool -> string.
(** The results of [cli.Client.ListSilenceds]. *)
Variable R : Type.

(** The [RunE] of [ListCommand]: the calls made, in order, and the error
    returned.  [Organization] and [Format] are [cli.Config.Organization()]
    and [cli.Config.Format()]. *)
Definition RunE (Organization Format : string) (flg : FlagSet)
    (ListSilenceds : string -> string -> string -> result R)
  : list (Call R) * option error :=
  let org := Organization in
  match GetBool flg AllOrgs with
  | Err err => ([], Some err)
  | Ok ok =>
      let org := if ok then "*" else org in
      match GetString flg "subscription" with
      | Err err => ([], Some err)
      | Ok sub =>
          match GetString flg "check" with
          | Err err => ([], Some err)
          | Ok check =>
              match ListSilenceds org sub check with
              | Err err => ([CallListSilenceds org sub check], Some err)
              | Ok results =>
                  ([CallListSilenceds org sub check; CallPrint Format results], None)
              end
          end
      end
  end.

(** The columns [printToTable] gives to [table.New]: title and cell
    transformer. *)
Definition columns : list (string * (Data -> string)) :=
  [ ("ID", λ data, Silenced_ID (assert_Silenced data));
    ("Expire", λ data,
       Duration_String (wrap64 (Silenced_Expire (assert_Silenced data) * Second)));
    ("ExpireOnResolve", λ data,
       BooleanStyleP (Silenced_ExpireOnResolve (assert_Silenced data)));
    ("Creator", λ data, Silenced_Creator (assert_Silenced data));
    ("Check", λ data, Silenced_Check (assert_Silenced data));
    ("Reason", λ data, Silenced_Reason (assert_Silenced data));
    ("Subscription", λ data, Silenced_Subscription (assert_Silenced data));
    ("Organization", λ data, Silenced_Organization (assert_Silenced data));
    ("Environment", λ data, Silenced_Environment (assert_Silenced data)) ].

End Command.

End SilencedList.

(** * Observations

    What the properties below are stated with: the calls a run has added to
    the trace, the worlds particular steps lead to, and the daemons on which
    [Start] has succeeded. *)

Section Observations.
Context {S : Type} `{!Collaborators S}.

(** [advance w s acts]: the world after calls [acts] that left the
    collaborators in state [s] and the daemon's memory as it was. *)
Definition advance (w : World S) (s : S) (acts : list Action) : World S :=
  mkWorld s (trace w ++ acts) (ents w) (mons w) (kd w).

(** The actions a run from [w] to [w'] added to the trace. *)
Definition added (w w' : World S) : list Action :=
  drop (length (trace w)) (trace w').

(** The world after a monitor for [entity] with timeout [t] was created and
    put into the registry under [id], the monitors' heap being [mons0]. *)
Definition installed (w : World S) (id : string) (entity : loc) (t : Duration)
    (mons0 : list Monitor) : World S :=
  mkWorld (ext w) (trace w) (ents w) (mons0 ++ [mkMonitor (Some entity) t false])
    (set_monitors (<[id := length mons0]> (monitors (kd w))) (kd w)).

(** The world after an error, if there was one, was logged. *)
Definition logged (err : option error) (msg : string) (w : World S) : World S :=
  match err with
  | Some _ => advance w (ext w) [ALog msg]
  | None => w
  end.

(** What synchronisation leaves behind, in the words of the specification:
    from the monitors' heap [mons0] and the registry [reg0] to [mons1] and
    [reg1], with [m] the monitor of the entity [id] afterwards. *)
Definition synchronised (id : string) (l : loc) (t : Duration)
    (mons0 : list Monitor) (reg0 : gmap string loc)
    (m : loc) (mons1 : list Monitor) (reg1 : gmap string loc) : Prop :=
  let fresh := mkMonitor (Some l) t false in
  reg1 !! id = Some m
  /\ (exists mon, mons1 !! m = Some mon
                  /\ Monitor_Timeout mon = t /\ Monitor_Stopped mon = false)
  /\ ((reg0 !! id = None
       \/ exists m0 mon0, reg0 !! id = Some m0 /\ mons0 !! m0 = Some mon0
                          /\ Monitor_Stopped mon0 = true) ->
      m = length mons0 /\ mons1 = mons0 ++ [fresh] /\ reg1 = <[id := m]> reg0)
  /\ (forall m0 mon0,
        reg0 !! id = Some m0 -> mons0 !! m0 = Some mon0 ->
        Monitor_Stopped mon0 = false -> Monitor_Timeout mon0 <> t ->
        m = length mons0
        /\ mons1 = <[m0 := Monitor_set_Stopped mon0]> mons0 ++ [fresh]
        /\ mons1 !! m0 = Some (Monitor_set_Stopped mon0)
        /\ reg1 = <[id := m]> reg0)
  /\ (forall m0 mon0,
        reg0 !! id = Some m0 -> mons0 !! m0 = Some mon0 ->
        Monitor_Stopped mon0 = false -> Monitor_Timeout mon0 = t ->
        m = m0 /\ mons1 = mons0 /\ reg1 = reg0).

(** The daemon's memory once the event [v] the store returned is decoded:
    its entity, if it has one, is a new object. *)
Definition with_decoded (v : EventV) (w : World S) : World S :=
  match Event_Entity v with
  | None => w
  | Some e => mkWorld (ext w) (trace w) (ents w ++ [e]) (mons w) (kd w)
  end.

Definition decoded_entity (v : EventV) (w : World S) : option loc :=
  match Event_Entity v with
  | None => None
  | Some _ => Some (length (ents w))
  end.

(** [quiet w w']: from [w] to [w'] the daemon has changed nothing of itself
    but the registry, and has started no goroutine. *)
Definition quiet (w w' : World S) : Prop :=
  kd w' = set_monitors (monitors (kd w')) (kd w)
  /\ exists acts, trace w' = trace w ++ acts /\ Forall (λ a, is_go a = false) acts.

Definition preserves {A} (c : M A) : Prop :=
  forall w a w', c w = Done a w' -> quiet w w'.

(** The world once the bus has granted subscription [s] and the daemon has
    recorded it. *)
Definition subscribed (w : World S) (s : Subscription) (s' : S) : World S :=
  mkWorld s' (trace w ++ [ASubscribe TopicKeepalive "keepalived"]) (ents w) (mons w)
    (set_subscription (Some s) (kd w)).

(** A daemon that is running: subscribed, its WaitGroup made, both of its
    channels open. *)
Definition running (k : Keepalived) : Prop :=
  is_Some (subscription k) /\ is_Some (wg k)
  /\ Chan_closed (keepaliveChan k) = false /\ Chan_closed (errChan k) = false.

(** The daemons on which [Start] has succeeded: [Start] returned nil on a
    daemon whose channels were open, as [New] makes them, and since then
    workers have processed messages, monitors have called back and the
    sweeper has swept. *)
Inductive Started : World S -> Prop :=
| Started_Start w0 w :
    Chan_closed (keepaliveChan (kd w0)) = false ->
    Chan_closed (errChan (kd w0)) = false ->
    Start w0 = Done None w ->
    Started w
| Started_processKeepalive w msg w' :
    Started w -> processKeepalive msg w = Done tt w' -> Started w'
| Started_HandleUpdate w e r w' :
    Started w -> HandleUpdate e w = Done r w' -> Started w'
| Started_HandleFailure w entity ev r w' :
    Started w -> HandleFailure entity ev w = Done r w' -> Started w'
| Started_sweep w w' :
    Started w -> sweep w = Done tt w' -> Started w'.

(** Whether the monitor at [m] in the heap [ms] is stopped. *)
Definition is_stopped (ms : list Monitor) (m : loc) : bool :=
  match ms !! m with
  | Some mon => Monitor_Stopped mon
  | None => false
  end.

(** The registry is sound: every entry points at a monitor in the heap,
    and no monitor is entered under two entity IDs. *)
Definition registry_ok (w : World S) : Prop :=
  (forall id m, monitors (kd w) !! id = Some m -> (m < length (mons w))%nat)
  /\ (forall id1 id2 m,
        monitors (kd w) !! id1 = Some m -> monitors (kd w) !! id2 = Some m -> id1 = id2).

(** No running monitor is lost: a monitor that is not stopped is in the
    registry. *)
Definition running_registered (w : World S) : Prop :=
  forall m mon, mons w !! m = Some mon -> Monitor_Stopped mon = false ->
    exists id, monitors (kd w) !! id = Some m.

(** The registry without the entries whose monitor is stopped. *)
Definition swept (ms : list Monitor) (reg : gmap string loc) : gmap string loc :=
  filter (λ km : string * loc, is_stopped ms km.2 = false) reg.

(** What the sweeper does with one entry of the registry. *)
Definition sweep_entry (ms : list Monitor) (reg : gmap string loc) (km : string * loc)
  : gmap string loc :=
  if is_stopped ms km.2 then delete km.1 reg else reg.

(** [emits ok c]: every call and runtime action a returning run of [c]
    adds to the trace is one that [ok] allows. *)
Definition emits (ok : Action -> bool) {A} (c : World S -> Res S A) : Prop :=
  forall w a w', c w = Done a w' ->
    exists acts, trace w' = trace w ++ acts /\ Forall (λ a, ok a = true) acts.

(** Anything but a publication on the keepalive topic, the topic the daemon
    itself is subscribed to. *)
Definition not_on_keepalive_topic (a : Action) : bool :=
  match a with
  | APublish TopicKeepalive _ => false
  | _ => true
  end.

(** What a worker may do: look an entity up, read the clock, publish on the
    event and raw-events topics, delete a failing-keepalive record, update
    an entity, log. *)
Definition worker_action (a : Action) : bool :=
  match a with
  | AGetEntityByID _ _ | ANow _ | ALog _
  | ADeleteFailingKeepalive _ _ | AUpdateEntity _ _
  | APublish TopicEvent _ | APublish TopicEventRaw _ => true
  | _ => false
  end.

(** What recovery may do: list the failing keepalives, look events up, read
    the clock. *)
Definition recovery_action (a : Action) : bool :=
  match a with
  | AGetFailingKeepalives _ | AGetEventByEntityCheck _ _ _ | ANow _ => true
  | _ => false
  end.

End Observations.

(** * Properties *)

Lemma wrap64_id (z : Z) : int64_range z -> wrap64 z = z.
Proof.
  unfold int64_range, wrap64. intros Hz.
  rewrite Z.mod_small by lia. lia.
Qed.

Lemma wrap64_range (z : Z) : int64_range (wrap64 z).
Proof.
  unfold int64_range, wrap64.
  pose proof (Z.mod_pos_bound (z + 2 ^ 63) (2 ^ 64)). lia.
Qed.

Lemma seconds_fit_int64 (n : Z) : uint32_range n -> int64_range (n * Second).
Proof. unfold uint32_range, int64_range, Second. lia. Qed.

Section Properties.
Context {S : Type} `{!Collaborators S}.

#[local] Existing Instance M_ret.
#[local] Existing Instance M_bind.
#[local] Abbreviation M := (@M S) (only parsing).
#[local] Abbreviation preserves := (@preserves S) (only parsing).
#[local] Abbreviation emits := (@emits S) (only parsing).

Lemma added_advance (w : World S) s acts : added w (advance w s acts) = acts.
Proof. unfold added, advance; simpl. by rewrite drop_app_length. Qed.

Lemma added_app (w w' : World S) acts :
  trace w' = trace w ++ acts -> added w w' = acts.
Proof. unfold added. intros ->. by rewrite drop_app_length. Qed.

Ltac unfold_monad :=
  unfold mbind, M_bind, mret, M_ret, call, log, emit, panic, getK, modifyK,
    Now_Unix, load_entity, store_entity, new_entity, snapshot in *.

Ltac unfold_store :=
  unfold Publish, GetEntityByID, UpdateEntity, DeleteFailingKeepalive,
    UpdateFailingKeepalive, GetFailingKeepalives, Deregister,
    createKeepaliveEvent, createRegistrationEvent, set_Check_Status in *.

Ltac tidy := simpl; rewrite <- ?app_assoc; simpl.

(** Closes [a ∉ l] for an explicit list [l] none of whose members has the
    constructor of [a]. *)
Ltac absent :=
  let Hin := fresh "Hin" in
  intros Hin; rewrite ?elem_of_cons, ?elem_of_nil in Hin;
  intuition discriminate.

(** ** The monitor callbacks *)

Lemma entity_after_store (w : World S) (l : loc) (ent ent' : Entity) :
  ents w !! l = Some ent -> <[l := ent']> (ents w) !! l = Some ent'.
Proof. intros Hl. apply list_lookup_insert_eq. by eapply lookup_lt_Some. Qed.

(** [HandleUpdate], run on an event whose entity is in memory: the three
    ways it can end, by what the store answers. *)
Lemma HandleUpdate_run (e : Event) (l : loc) (ent : Entity) (w : World S) :
  Event_Entity e = Some l ->
  ents w !! l = Some ent ->
  let ctx := SetContextFromResource ent in
  let ent' := Entity_set_LastSeen (Event_Timestamp e) ent in
  let del := store_DeleteFailingKeepalive ctx ent (ext w) in
  let upd := store_UpdateEntity ctx ent' del.2 in
  let now := time_Now_Unix upd.2 in
  let check :=
    mkCheck KeepaliveCheckName (Entity_KeepaliveTimeout ent) [KeepaliveHandlerName]
      (Entity_Environment ent) (Entity_Organization ent) 0 in
  let event := mkEvent now.1 (Some ent') (Some check) in
  let pub := bus_Publish TopicEventRaw event now.2 in
  HandleUpdate e w =
    match del.1, upd.1 with
    | Some err, _ =>
        Done (Some err) (advance w del.2 [ADeleteFailingKeepalive ctx ent])
    | None, Some err =>
        Done (Some err)
          (mkWorld upd.2
             (trace w ++ [ADeleteFailingKeepalive ctx ent; AUpdateEntity ctx ent';
                          ALog "error updating entity in store"])
             (<[l := ent']> (ents w)) (mons w) (kd w))
    | None, None =>
        Done pub.1
          (mkWorld pub.2
             (trace w ++ [ADeleteFailingKeepalive ctx ent; AUpdateEntity ctx ent';
                          ANow now.1; APublish TopicEventRaw event])
             (<[l := ent']> (ents w)) (mons w) (kd w))
    end.
Proof.
  intros He Hl. cbv zeta.
  pose proof (entity_after_store w l ent
                (Entity_set_LastSeen (Event_Timestamp e) ent) Hl) as Hl'.
  unfold HandleUpdate. unfold_store. unfold_monad.
  rewrite He; simpl. repeat (rewrite Hl; simpl).
  destruct (store_DeleteFailingKeepalive _ _ _).1 as [err|]; [done|].
  simpl. repeat (rewrite Hl'; simpl).
  destruct (store_UpdateEntity _ _ _).1 as [err|]; tidy; [done|].
  repeat (rewrite Hl'; tidy). done.
Qed.

(** [HandleFailure], run on an entity that is in memory. *)
Lemma HandleFailure_run (l : loc) (ent : Entity) (ev : option Event) (w : World S) :
  ents w !! l = Some ent ->
  let ctx := SetContextFromResource ent in
  let dereg := deregisterer_Deregister ent (ext w) in
  let now := time_Now_Unix (ext w) in
  let check :=
    mkCheck KeepaliveCheckName (Entity_KeepaliveTimeout ent) [KeepaliveHandlerName]
      (Entity_Environment ent) (Entity_Organization ent) 1 in
  let event := mkEvent now.1 (Some ent) (Some check) in
  let pub := bus_Publish TopicEventRaw event now.2 in
  let now' := time_Now_Unix pub.2 in
  let deadline := wrap64 (now'.1 + Entity_KeepaliveTimeout ent) in
  let upd := store_UpdateFailingKeepalive ctx ent deadline now'.2 in
  HandleFailure (Some l) ev w =
    if Entity_Deregister ent then Done dereg.1 (advance w dereg.2 [ADeregister ent])
    else match pub.1 with
         | Some err =>
             Done (Some err) (advance w pub.2 [ANow now.1; APublish TopicEventRaw event])
         | None =>
             Done upd.1
               (advance w upd.2
                  [ANow now.1; APublish TopicEventRaw event;
                   ALog "keepalive timed out, creating keepalive event for entity";
                   ANow now'.1; AUpdateFailingKeepalive ctx ent deadline])
         end.
Proof.
  intros Hl. cbv zeta.
  unfold HandleFailure. unfold_store. unfold_monad.
  simpl. rewrite Hl; simpl.
  destruct (Entity_Deregister ent); simpl.
  { by rewrite Hl. }
  repeat (rewrite Hl; simpl).
  destruct (bus_Publish _ _ _).1 as [err|]; tidy; [done|].
  repeat (rewrite Hl; tidy). done.
Qed.

(** C3.  [HandleFailure] on an entity that is to be deregistered makes one
    call, to the deregistrar, and returns what it returned: nothing is
    published on any topic and no failing-keepalive record is written. *)
Theorem HandleFailure_deregisters
    (l : loc) (ent : Entity) (ev : option Event) (w : World S) :
  ents w !! l = Some ent ->
  Entity_Deregister ent = true ->
  let dereg := deregisterer_Deregister ent (ext w) in
  exists w',
    HandleFailure (Some l) ev w = Done dereg.1 w'
    /\ w' = advance w dereg.2 [ADeregister ent]
    /\ length (filter (λ a, a = ADeregister ent) (added w w')) = 1%nat
    /\ (forall topic v, APublish topic v ∉ added w w')
    /\ (forall ctx e t, AUpdateFailingKeepalive ctx e t ∉ added w w').
Proof.
  intros Hl Hd dereg. eexists. split.
  { rewrite (HandleFailure_run l ent ev w Hl), Hd. reflexivity. }
  rewrite added_advance. split_and!; [done| |..].
  - rewrite filter_cons_True by done. done.
  - intros topic v. absent.
  - intros ctx e t. absent.
Qed.

(** C4.  [HandleUpdate] on an event with an entity deletes the entity's
    failing-keepalive record, sets [LastSeen] to the event's timestamp,
    persists the entity so updated and publishes a keepalive event of status
    0 on the raw-events topic, in this order; an error of the store ends it
    there and is what [HandleUpdate] returns. *)
Theorem HandleUpdate_marks_healthy (e : Event) (l : loc) (ent : Entity) (w : World S) :
  Event_Entity e = Some l ->
  ents w !! l = Some ent ->
  let ctx := SetContextFromResource ent in
  let ent' := Entity_set_LastSeen (Event_Timestamp e) ent in
  let del := store_DeleteFailingKeepalive ctx ent (ext w) in
  let upd := store_UpdateEntity ctx ent' del.2 in
  let now := time_Now_Unix upd.2 in
  let check :=
    mkCheck KeepaliveCheckName (Entity_KeepaliveTimeout ent) [KeepaliveHandlerName]
      (Entity_Environment ent) (Entity_Organization ent) 0 in
  let event := mkEvent now.1 (Some ent') (Some check) in
  let pub := bus_Publish TopicEventRaw event now.2 in
  exists r w',
    HandleUpdate e w = Done r w'
    /\ mons w' = mons w /\ kd w' = kd w
    /\ (forall err, del.1 = Some err ->
          r = Some err /\ added w w' = [ADeleteFailingKeepalive ctx ent])
    /\ (del.1 = None ->
          ents w' = <[l := ent']> (ents w)
          /\ ents w' !! l = Some ent'
          /\ Entity_LastSeen ent' = Event_Timestamp e
          /\ (forall err, upd.1 = Some err ->
                r = Some err
                /\ ext w' = upd.2
                /\ added w w' = [ADeleteFailingKeepalive ctx ent; AUpdateEntity ctx ent';
                                 ALog "error updating entity in store"])
          /\ (upd.1 = None ->
                r = pub.1
                /\ ext w' = pub.2
                /\ added w w' = [ADeleteFailingKeepalive ctx ent; AUpdateEntity ctx ent';
                                 ANow now.1; APublish TopicEventRaw event]
                /\ (Check_Status <$> Event_Check event) = Some 0)).
Proof.
  intros He Hl ctx ent' del upd now check event pub.
  pose proof (entity_after_store w l ent ent' Hl) as Hl'.
  rewrite (HandleUpdate_run e l ent w He Hl).
  fold ctx ent' del upd now check event pub.
  destruct del.1 as [derr|] eqn:Hdel.
  { do 2 eexists. split; [reflexivity|]. rewrite added_advance.
    split_and!; try done. }
  destruct upd.1 as [uerr|] eqn:Hupd.
  - do 2 eexists. split; [reflexivity|]. simpl.
    split_and!; try done. intros _. split_and!; try done.
    intros err [= ->]. split_and!; try done. by apply added_app.
  - do 2 eexists. split; [reflexivity|]. simpl.
    split_and!; try done. intros _. split_and!; try done.
    intros _. split_and!; try done. by apply added_app.
Qed.

(** C10.  When the store refuses to delete the failing-keepalive record,
    [HandleUpdate] returns that error and has done nothing else: the
    entity, [LastSeen] included, is as it was, no entity was written to the
    store and nothing was published. *)
Theorem HandleUpdate_delete_error
    (e : Event) (l : loc) (ent : Entity) (w : World S) (err : error) :
  Event_Entity e = Some l ->
  ents w !! l = Some ent ->
  (store_DeleteFailingKeepalive (SetContextFromResource ent) ent (ext w)).1 = Some err ->
  exists w',
    HandleUpdate e w = Done (Some err) w'
    /\ ents w' = ents w
    /\ ents w' !! l = Some ent
    /\ added w w' = [ADeleteFailingKeepalive (SetContextFromResource ent) ent]
    /\ (forall ctx e', AUpdateEntity ctx e' ∉ added w w')
    /\ (forall topic v, APublish topic v ∉ added w w').
Proof.
  intros He Hl Hdel.
  rewrite (HandleUpdate_run e l ent w He Hl), Hdel.
  eexists. split; [reflexivity|]. rewrite added_advance. simpl.
  split_and!; try done.
  - intros ctx e'. absent.
  - intros topic v. absent.
Qed.

(** C5.  [HandleFailure] on an entity that is not to be deregistered
    publishes a keepalive event (check "keepalive", status 1, handlers
    ["keepalive"], interval the entity's timeout) on the raw-events topic and
    then writes a failing-keepalive record whose deadline is the time then
    read plus the entity's timeout; if the publish fails its error is
    returned and no record is written.  The deadline is an [int64] sum: the
    hypothesis says it does not wrap around. *)
Theorem HandleFailure_publishes_then_records
    (l : loc) (ent : Entity) (ev : option Event) (w : World S) :
  ents w !! l = Some ent ->
  Entity_Deregister ent = false ->
  let ctx := SetContextFromResource ent in
  let now := time_Now_Unix (ext w) in
  let check := mkCheck "keepalive" (Entity_KeepaliveTimeout ent) ["keepalive"]
                 (Entity_Environment ent) (Entity_Organization ent) 1 in
  let event := mkEvent now.1 (Some ent) (Some check) in
  let pub := bus_Publish TopicEventRaw event now.2 in
  let now' := time_Now_Unix pub.2 in
  let deadline := now'.1 + Entity_KeepaliveTimeout ent in
  let upd := store_UpdateFailingKeepalive ctx ent deadline now'.2 in
  int64_range deadline ->
  exists r w',
    HandleFailure (Some l) ev w = Done r w'
    /\ ents w' = ents w /\ mons w' = mons w /\ kd w' = kd w
    /\ (forall err, pub.1 = Some err ->
          r = Some err
          /\ ext w' = pub.2
          /\ added w w' = [ANow now.1; APublish TopicEventRaw event]
          /\ (forall c e t, AUpdateFailingKeepalive c e t ∉ added w w'))
    /\ (pub.1 = None ->
          r = upd.1
          /\ ext w' = upd.2
          /\ added w w' =
               [ANow now.1; APublish TopicEventRaw event;
                ALog "keepalive timed out, creating keepalive event for entity";
                ANow now'.1; AUpdateFailingKeepalive ctx ent deadline]).
Proof.
  intros Hl Hd. cbv zeta. intros Hrange.
  pose proof (HandleFailure_run l ent ev w Hl) as Hrun.
  cbv zeta in Hrun. unfold KeepaliveCheckName, KeepaliveHandlerName in Hrun.
  rewrite Hd, (wrap64_id _ Hrange) in Hrun. rewrite Hrun.
  destruct (bus_Publish _ _ _).1 as [perr|].
  - do 2 eexists. split; [reflexivity|]. rewrite added_advance. simpl.
    split_and!; try done. intros err [= ->]. split_and!; try done.
    intros c e t. absent.
  - do 2 eexists. split; [reflexivity|]. rewrite added_advance. simpl.
    split_and!; try done.
Qed.

(** ** The worker *)

Lemma advance_nil (w : World S) : advance w (ext w) [] = w.
Proof. destruct w. unfold advance. simpl. by rewrite app_nil_r. Qed.

Lemma advance_advance (w : World S) s acts s' acts' :
  advance (advance w s acts) s' acts' = advance w s' (acts ++ acts').
Proof. unfold advance. simpl. by rewrite app_assoc. Qed.

Lemma Done_advance_inj {A} (r r' : A) (w : World S) s s' acts acts' :
  Done r (advance w s acts) = Done r' (advance w s' acts') ->
  r = r' /\ s = s' /\ acts = acts'.
Proof.
  unfold advance. intros [= -> -> Htrace]. by apply app_inv_head in Htrace.
Qed.

(** [handleEntityRegistration], run on an entity that is in memory. *)
Lemma handleEntityRegistration_run (l : loc) (ent : Entity) (w : World S) :
  ents w !! l = Some ent ->
  let ctx := SetContextFromResource ent in
  let get := store_GetEntityByID ctx (Entity_ID ent) (ext w) in
  let now := time_Now_Unix get.2 in
  let check :=
    mkCheck RegistrationCheckName (Entity_KeepaliveTimeout ent) [RegistrationHandlerName]
      (Entity_Environment ent) (Entity_Organization ent) 1 in
  let event := mkEvent now.1 (Some ent) (Some check) in
  let pub := bus_Publish TopicEvent event now.2 in
  handleEntityRegistration (Some l) w =
    if negb (String.eqb (Entity_Class ent) EntityAgentClass) then Done None w
    else match get.1 with
         | Err err => Done (Some err) (advance w get.2 [AGetEntityByID ctx (Entity_ID ent)])
         | Ok (Some _) => Done None (advance w get.2 [AGetEntityByID ctx (Entity_ID ent)])
         | Ok None =>
             Done pub.1
               (advance w pub.2
                  [AGetEntityByID ctx (Entity_ID ent); ANow now.1; APublish TopicEvent event])
         end.
Proof.
  intros Hl. cbv zeta.
  unfold handleEntityRegistration. unfold_store. unfold_monad.
  simpl. rewrite Hl; simpl.
  destruct (negb _); [done|]. simpl.
  destruct (store_GetEntityByID _ _ _).1 as [[?|]|err]; tidy; try done.
  repeat (rewrite Hl; tidy). done.
Qed.

(** Registration only talks to the store and the bus: the daemon's memory
    is as it was. *)
Lemma handleEntityRegistration_frame (l : loc) (ent : Entity) (w : World S) :
  ents w !! l = Some ent ->
  exists r s acts, handleEntityRegistration (Some l) w = Done r (advance w s acts).
Proof.
  intros Hl. rewrite (handleEntityRegistration_run l ent w Hl). cbv zeta.
  destruct (negb _).
  { exists None, (ext w), []. by rewrite advance_nil. }
  destruct (store_GetEntityByID _ _ _).1 as [[?|]|err]; eauto.
Qed.

(** [syncMonitor], run on an entity that is in memory. *)
Lemma syncMonitor_run (l : loc) (ent : Entity) (w : World S) :
  ents w !! l = Some ent ->
  let id := Entity_ID ent in
  let timeout := wrap64 (Entity_KeepaliveTimeout ent * Second) in
  syncMonitor (Some l) w =
    match monitors (kd w) !! id with
    | None => Done (length (mons w)) (installed w id l timeout (mons w))
    | Some m0 =>
        match mons w !! m0 with
        | None => Panic "dangling monitor pointer" w
        | Some mon0 =>
            if Monitor_Stopped mon0 then
              Done (length (mons w)) (installed w id l timeout (mons w))
            else if Monitor_Timeout mon0 =? timeout then Done m0 w
            else Done (length (mons w))
                   (installed w id l timeout (<[m0 := Monitor_set_Stopped mon0]> (mons w)))
        end
    end.
Proof.
  intros Hl. cbv zeta.
  assert (Hnew : forall (ms : list Monitor) (x : Monitor), (ms ++ [x]) !! length ms = Some x).
  { intros ms x. by rewrite list_lookup_middle. }
  unfold syncMonitor, Monitor_IsStopped, Monitor_GetTimeout, Monitor_Stop, set_registry,
    monitorFactory, load_monitor, store_monitor.
  unfold_monad. simpl. rewrite Hl; simpl.
  destruct (monitors (kd w) !! Entity_ID ent) as [m0|] eqn:Hreg; simpl.
  - destruct (mons w !! m0) as [mon0|] eqn:Hm0; simpl; [|done].
    destruct (Monitor_Stopped mon0) eqn:Hstopped; simpl.
    + rewrite Hnew; simpl. by rewrite Z.eqb_refl.
    + rewrite Hm0; simpl.
      destruct (Monitor_Timeout mon0 =? _) eqn:Heq; simpl; [by destruct w|].
      rewrite Hm0; simpl. unfold installed; simpl. by rewrite length_insert.
  - rewrite Hnew; simpl. by rewrite Z.eqb_refl.
Qed.

Lemma syncMonitor_post (l : loc) (ent : Entity) (w : World S) :
  ents w !! l = Some ent ->
  (forall m0, monitors (kd w) !! Entity_ID ent = Some m0 -> is_Some (mons w !! m0)) ->
  exists m w2,
    syncMonitor (Some l) w = Done m w2
    /\ ext w2 = ext w /\ trace w2 = trace w /\ ents w2 = ents w
    /\ kd w2 = set_monitors (monitors (kd w2)) (kd w)
    /\ synchronised (Entity_ID ent) l (wrap64 (Entity_KeepaliveTimeout ent * Second))
         (mons w) (monitors (kd w)) m (mons w2) (monitors (kd w2)).
Proof.
  intros Hl Hwf. rewrite (syncMonitor_run l ent w Hl). cbv zeta.
  set (id := Entity_ID ent) in *.
  set (t := wrap64 (Entity_KeepaliveTimeout ent * Second)).
  assert (Hinstall : forall mons0, length mons0 = length (mons w) ->
    let w2 := installed w id l t mons0 in
    monitors (kd w2) !! id = Some (length (mons w))
    /\ exists mon, mons w2 !! length (mons w) = Some mon
                   /\ Monitor_Timeout mon = t /\ Monitor_Stopped mon = false).
  { intros mons0 Hlen. simpl. rewrite Hlen, lookup_insert_eq. split; [done|].
    eexists. rewrite <- Hlen, list_lookup_middle by done. done. }
  destruct (monitors (kd w) !! id) as [m0|] eqn:Hreg.
  - destruct (Hwf m0 eq_refl) as [mon0 Hmon0]. rewrite Hmon0.
    destruct (Monitor_Stopped mon0) eqn:Hstopped.
    + do 2 eexists. split; [reflexivity|].
      destruct (Hinstall (mons w) eq_refl) as (Hr & Hm).
      split_and!; try done. unfold synchronised.
      split_and!; try done; intros; simplify_eq; congruence.
    + destruct (Monitor_Timeout mon0 =? t) eqn:Ht.
      * apply Z.eqb_eq in Ht.
        do 2 eexists. split; [reflexivity|]. split_and!; try done.
        { by destruct w as [? ? ? ? []]. }
        unfold synchronised. split_and!; try done; eauto.
        -- intros [?|(? & ? & ? & ? & ?)]; simplify_eq; congruence.
        -- intros; simplify_eq; congruence.
        -- intros; simplify_eq. split_and!; congruence.
      * apply Z.eqb_neq in Ht.
        assert (Hlen : length (<[m0 := Monitor_set_Stopped mon0]> (mons w)) = length (mons w))
          by apply length_insert.
        do 2 eexists. split; [reflexivity|].
        destruct (Hinstall _ Hlen) as (Hr & Hm).
        split_and!; try done. unfold synchronised.
        split_and!; try done.
        -- intros [?|(? & ? & ? & ? & ?)]; simplify_eq; congruence.
        -- intros ? ? ? ? _ _. simplify_eq. simpl. rewrite Hlen.
           split_and!; try done.
           rewrite lookup_app_l by (rewrite Hlen; by eapply lookup_lt_Some).
           apply list_lookup_insert_eq. by eapply lookup_lt_Some.
        -- intros; simplify_eq; congruence.
  - do 2 eexists. split; [reflexivity|].
    destruct (Hinstall (mons w) eq_refl) as (Hr & Hm).
    split_and!; try done. unfold synchronised.
    split_and!; try done; intros; simplify_eq; congruence.
Qed.

(** One valid keepalive event through the worker: registration, then
    synchronisation of the registry whatever registration returned, then the
    update through the chosen monitor. *)
Lemma processKeepalive_run (e : Event) (l : loc) (ent : Entity) (w : World S) :
  Event_Entity e = Some l ->
  ents w !! l = Some ent ->
  Entity_Validate ent = None ->
  (forall m0, monitors (kd w) !! Entity_ID ent = Some m0 -> is_Some (mons w !! m0)) ->
  exists r s acts m w2 r' w3,
    handleEntityRegistration (Some l) w = Done r (advance w s acts)
    /\ syncMonitor (Some l) (logged r "error handling entity registration" (advance w s acts))
       = Done m w2
    /\ synchronised (Entity_ID ent) l (wrap64 (Entity_KeepaliveTimeout ent * Second))
         (mons w) (monitors (kd w)) m (mons w2) (monitors (kd w2))
    /\ HandleUpdate e w2 = Done r' w3
    /\ mons w3 = mons w2 /\ kd w3 = kd w2
    /\ processKeepalive (MsgEvent (Some e)) w
       = Done tt (logged r' "error monitoring entity" w3).
Proof.
  intros He Hl Hvalid Hwf.
  destruct (handleEntityRegistration_frame l ent w Hl) as (r & s & acts & Hreg).
  set (w1 := logged r "error handling entity registration" (advance w s acts)).
  assert (Hw1 : ents w1 = ents w /\ mons w1 = mons w /\ kd w1 = kd w).
  { unfold w1, logged. by destruct r. }
  destruct Hw1 as (Hents1 & Hmons1 & Hkd1).
  assert (Hl1 : ents w1 !! l = Some ent) by by rewrite Hents1.
  destruct (syncMonitor_post l ent w1 Hl1) as (m & w2 & Hsync & _ & _ & Hents2 & _ & Hpost).
  { by rewrite Hkd1, Hmons1. }
  rewrite Hkd1, Hmons1 in Hpost.
  assert (Hl2 : ents w2 !! l = Some ent) by by rewrite Hents2.
  pose proof (HandleUpdate_run e l ent w2 He Hl2) as Hupd. cbv zeta in Hupd.
  assert (Hup : exists r' w3, HandleUpdate e w2 = Done r' w3
                  /\ mons w3 = mons w2 /\ kd w3 = kd w2).
  { rewrite Hupd.
    destruct (store_DeleteFailingKeepalive _ _ _).1; [eauto|].
    destruct (store_UpdateEntity _ _ _).1; eauto. }
  destruct Hup as (r' & w3 & Hup & Hmons3 & Hkd3).
  exists r, s, acts, m, w2, r', w3. split_and!; eauto.
  destruct Hpost as (_ & (mon & Hmon & _) & _).
  unfold processKeepalive. rewrite He.
  unfold Monitor_HandleUpdate, load_monitor. unfold_monad.
  rewrite Hl, Hvalid, Hreg.
  clear Hupd. unfold w1, logged in Hsync.
  destruct r; simpl.
  - unfold advance in Hsync; simpl in Hsync.
    rewrite Hsync, Hmon, Hup; by destruct r'.
  - rewrite Hsync, Hmon, Hup; by destruct r'.
Qed.

(** C1.  A valid keepalive event processed by a worker leaves the registry
    mapping the entity's ID to a monitor whose timeout is the entity's
    [KeepaliveTimeout] in seconds: a new monitor if there was none or the one
    there was stopped, a new one in place of the old one, which is stopped,
    if the timeouts differed, and the old one, untouched, otherwise. *)
Theorem processKeepalive_timeout_convergence
    (e : Event) (l : loc) (ent : Entity) (w : World S) :
  Event_Entity e = Some l ->
  ents w !! l = Some ent ->
  Entity_Validate ent = None ->
  uint32_range (Entity_KeepaliveTimeout ent) ->
  (forall m0, monitors (kd w) !! Entity_ID ent = Some m0 -> is_Some (mons w !! m0)) ->
  let id := Entity_ID ent in
  let timeout : Duration := Entity_KeepaliveTimeout ent * Second in
  let fresh := mkMonitor (Some l) timeout false in
  let reg0 := monitors (kd w) in
  exists w' m,
    processKeepalive (MsgEvent (Some e)) w = Done tt w'
    /\ monitors (kd w') !! id = Some m
    /\ (exists mon, mons w' !! m = Some mon
                    /\ Monitor_Timeout mon = timeout /\ Monitor_Stopped mon = false)
    /\ ((reg0 !! id = None
         \/ exists m0 mon0, reg0 !! id = Some m0 /\ mons w !! m0 = Some mon0
                            /\ Monitor_Stopped mon0 = true) ->
        m = length (mons w)
        /\ mons w' = mons w ++ [fresh]
        /\ monitors (kd w') = <[id := m]> reg0)
    /\ (forall m0 mon0,
          reg0 !! id = Some m0 -> mons w !! m0 = Some mon0 ->
          Monitor_Stopped mon0 = false -> Monitor_Timeout mon0 <> timeout ->
          m = length (mons w)
          /\ mons w' = <[m0 := Monitor_set_Stopped mon0]> (mons w) ++ [fresh]
          /\ mons w' !! m0 = Some (Monitor_set_Stopped mon0)
          /\ monitors (kd w') = <[id := m]> reg0)
    /\ (forall m0 mon0,
          reg0 !! id = Some m0 -> mons w !! m0 = Some mon0 ->
          Monitor_Stopped mon0 = false -> Monitor_Timeout mon0 = timeout ->
          m = m0 /\ mons w' = mons w /\ monitors (kd w') = reg0).
Proof.
  intros He Hl Hvalid Hrange Hwf. cbv zeta.
  destruct (processKeepalive_run e l ent w He Hl Hvalid Hwf)
    as (r & s & acts & m & w2 & r' & w3 & _ & _ & Hpost & _ & Hmons3 & Hkd3 & Hrun).
  rewrite (wrap64_id _ (seconds_fit_int64 _ Hrange)) in Hpost.
  exists (logged r' "error monitoring entity" w3), m.
  split; [exact Hrun|].
  assert (Hmons : mons (logged r' "error monitoring entity" w3) = mons w2)
    by (by destruct r').
  assert (Hkd : kd (logged r' "error monitoring entity" w3) = kd w2)
    by (by destruct r').
  rewrite Hmons, Hkd. exact Hpost.
Qed.

(** C9.  For an agent entity the store does not know, registration
    publishes one registration event (check "registration", status 1,
    handlers ["registration"], interval the entity's timeout) on the event
    topic; for an entity of another class it neither asks the store nor
    publishes; and whatever registration returns, an error of the lookup or
    of the publish included, the worker goes on to synchronise the registry
    for the event. *)
Theorem registration_side_effect (e : Event) (l : loc) (ent : Entity) (w : World S) :
  Event_Entity e = Some l ->
  ents w !! l = Some ent ->
  Entity_Validate ent = None ->
  (forall m0, monitors (kd w) !! Entity_ID ent = Some m0 -> is_Some (mons w !! m0)) ->
  let ctx := SetContextFromResource ent in
  let get := store_GetEntityByID ctx (Entity_ID ent) (ext w) in
  let now := time_Now_Unix get.2 in
  let check := mkCheck "registration" (Entity_KeepaliveTimeout ent) ["registration"]
                 (Entity_Environment ent) (Entity_Organization ent) 1 in
  let event := mkEvent now.1 (Some ent) (Some check) in
  let pub := bus_Publish TopicEvent event now.2 in
  exists r w1,
    handleEntityRegistration (Some l) w = Done r w1
    /\ (Entity_Class ent = "agent" -> get.1 = Ok None ->
          r = pub.1
          /\ w1 = advance w pub.2
                    [AGetEntityByID ctx (Entity_ID ent); ANow now.1; APublish TopicEvent event]
          /\ filter (λ a, is_publish a) (added w w1) = [APublish TopicEvent event])
    /\ (Entity_Class ent <> "agent" -> r = None /\ w1 = w /\ added w w1 = [])
    /\ (Entity_Class ent = "agent" -> forall err, get.1 = Err err ->
          r = Some err /\ added w w1 = [AGetEntityByID ctx (Entity_ID ent)])
    /\ (Entity_Class ent = "agent" -> get.1 = Ok None ->
          forall err, pub.1 = Some err -> r = Some err)
    /\ exists m w2 w',
         syncMonitor (Some l) (logged r "error handling entity registration" w1) = Done m w2
         /\ processKeepalive (MsgEvent (Some e)) w = Done tt w'
         /\ monitors (kd w') !! Entity_ID ent = Some m
         /\ exists mon, mons w' !! m = Some mon
                        /\ Monitor_Timeout mon = wrap64 (Entity_KeepaliveTimeout ent * Second)
                        /\ Monitor_Stopped mon = false.
Proof.
  intros He Hl Hvalid Hwf. cbv zeta.
  destruct (processKeepalive_run e l ent w He Hl Hvalid Hwf)
    as (r & s & acts & m & w2 & r' & w3 & Hreg & Hsync & Hpost & _ & Hmons3 & Hkd3 & Hrun).
  exists r, (advance w s acts). split; [exact Hreg|].
  pose proof (handleEntityRegistration_run l ent w Hl) as Hreg'. cbv zeta in Hreg'.
  rewrite Hreg in Hreg'. unfold EntityAgentClass in Hreg'.
  unfold RegistrationCheckName, RegistrationHandlerName in Hreg'.
  split_and!.
  - intros Hclass Hget. apply String.eqb_eq in Hclass.
    rewrite Hclass, Hget in Hreg'. simpl in Hreg'.
    apply Done_advance_inj in Hreg' as (-> & -> & ->).
    split_and!; try done. by rewrite added_advance.
  - intros Hclass. apply String.eqb_neq in Hclass.
    rewrite Hclass in Hreg'. simpl in Hreg'. injection Hreg' as -> Hw.
    rewrite Hw. split_and!; try done. unfold added. by rewrite drop_all.
  - intros Hclass err Hget. apply String.eqb_eq in Hclass.
    rewrite Hclass, Hget in Hreg'. simpl in Hreg'.
    apply Done_advance_inj in Hreg' as (-> & -> & ->).
    split; [done|]. by rewrite added_advance.
  - intros Hclass Hget err Hpub. apply String.eqb_eq in Hclass.
    rewrite Hclass, Hget in Hreg'. simpl in Hreg'.
    apply Done_advance_inj in Hreg' as (-> & _). exact Hpub.
  - exists m, w2, (logged r' "error monitoring entity" w3).
    split; [exact Hsync|]. split; [exact Hrun|].
    assert (Hmons : mons (logged r' "error monitoring entity" w3) = mons w2)
      by (by destruct r').
    assert (Hkd : kd (logged r' "error monitoring entity" w3) = kd w2)
      by (by destruct r').
    rewrite Hmons, Hkd. destruct Hpost as (Hr & Hm & _). done.
Qed.

(** ** Recovery *)

(** One turn of the loop of [initFromStore]. *)
Lemma initFromStore_loop_cons (keepalive : KeepaliveRecord) (rest : list KeepaliveRecord)
    (w : World S) :
  let ctx := mkCtx (Some (Record_Organization keepalive))
                   (Some (Record_Environment keepalive)) in
  let id := Record_EntityID keepalive in
  let get := store_GetEventByEntityCheck ctx id "keepalive" (ext w) in
  let w1 := advance w get.2 [AGetEventByEntityCheck ctx id "keepalive"] in
  initFromStore_loop (keepalive :: rest) w =
    match get.1 with
    | Err err => Done (Some err) w1
    | Ok None => initFromStore_loop rest w1
    | Ok (Some v) =>
        let w2 := with_decoded v w1 in
        match Event_Check v with
        | None => Panic "nil pointer dereference" w2
        | Some check =>
            if Check_Status check =? 0 then initFromStore_loop rest w2
            else
              let now := time_Now_Unix get.2 in
              let d := wrap64 (Record_Time keepalive - now.1) in
              let d := if d <? 0 then 0 else d in
              initFromStore_loop rest
                (mkWorld now.2 (trace w1 ++ [ANow now.1]) (ents w2)
                   (mons w ++ [mkMonitor (decoded_entity v w) d false])
                   (set_monitors (<[id := length (mons w)]> (monitors (kd w))) (kd w)))
        end
    end.
Proof.
  cbv zeta. simpl.
  unfold GetEventByEntityCheck, monitorFactory, set_registry. unfold_monad. simpl.
  destruct (store_GetEventByEntityCheck _ _ _ _).1 as [[v|]|err]; simpl; try done.
  unfold with_decoded, decoded_entity.
  destruct (Event_Entity v) as [e|]; simpl.
  - destruct (Event_Check v) as [check|]; simpl; [|done].
    destruct (Check_Status check =? 0); simpl; done.
  - destruct (Event_Check v) as [check|]; simpl; [|done].
    destruct (Check_Status check =? 0); simpl; done.
Qed.

(** C6.  A failing-keepalive record whose entity has no keepalive event in
    the store, or has one of status 0, is skipped: when recovery goes on to
    the next record the registry and the monitors are as they were. *)
Theorem initFromStore_skips (keepalive : KeepaliveRecord) (rest : list KeepaliveRecord)
    (w : World S) :
  let ctx := mkCtx (Some (Record_Organization keepalive))
                   (Some (Record_Environment keepalive)) in
  let id := Record_EntityID keepalive in
  let get := store_GetEventByEntityCheck ctx id "keepalive" (ext w) in
  (get.1 = Ok None
   \/ exists v check, get.1 = Ok (Some v) /\ Event_Check v = Some check
                      /\ Check_Status check = 0) ->
  exists w1,
    initFromStore_loop (keepalive :: rest) w = initFromStore_loop rest w1
    /\ kd w1 = kd w
    /\ monitors (kd w1) !! id = monitors (kd w) !! id
    /\ mons w1 = mons w
    /\ ext w1 = get.2
    /\ added w w1 = [AGetEventByEntityCheck ctx id "keepalive"].
Proof.
  cbv zeta. intros Hskip.
  pose proof (initFromStore_loop_cons keepalive rest w) as Hloop. cbv zeta in Hloop.
  destruct Hskip as [Hnone|(v & check & Hsome & Hcheck & Hstatus)].
  - rewrite Hnone in Hloop. eexists. split; [exact Hloop|].
    rewrite added_advance. done.
  - rewrite Hsome, Hcheck, Hstatus in Hloop. simpl in Hloop.
    eexists. split; [exact Hloop|].
    unfold with_decoded. destruct (Event_Entity v); simpl; split_and!; try done.
    + by apply added_app.
    + by rewrite added_advance.
Qed.

(** A record whose entity has a keepalive event of non-zero status gets a
    monitor again.  Its timeout is the difference of the two Unix times
    taken as a [time.Duration], that is as so many nanoseconds: whenever the
    deadline is still ahead this is not the number of seconds that remain. *)
Lemma initFromStore_recreates (keepalive : KeepaliveRecord) (rest : list KeepaliveRecord)
    (w : World S) (v : EventV) (check : Check) :
  let ctx := mkCtx (Some (Record_Organization keepalive))
                   (Some (Record_Environment keepalive)) in
  let id := Record_EntityID keepalive in
  let get := store_GetEventByEntityCheck ctx id "keepalive" (ext w) in
  let now := time_Now_Unix get.2 in
  let remaining := Record_Time keepalive - now.1 in
  let d : Duration := Z.max 0 (wrap64 remaining) in
  get.1 = Ok (Some v) ->
  Event_Check v = Some check ->
  Check_Status check <> 0 ->
  exists w1,
    initFromStore_loop (keepalive :: rest) w = initFromStore_loop rest w1
    /\ monitors (kd w1) !! id = Some (length (mons w))
    /\ mons w1 = mons w ++ [mkMonitor (decoded_entity v w) d false]
    /\ (0 < remaining < 2 ^ 63 ->
          d = remaining * Nanosecond /\ d <> Z.max 0 remaining * Second).
Proof.
  cbv zeta. intros Hget Hcheck Hstatus.
  pose proof (initFromStore_loop_cons keepalive rest w) as Hloop. cbv zeta in Hloop.
  rewrite Hget, Hcheck in Hloop. apply Z.eqb_neq in Hstatus. rewrite Hstatus in Hloop.
  eexists. split; [exact Hloop|]. simpl. rewrite lookup_insert_eq.
  split; [done|]. split.
  - do 3 f_equal. destruct (Z.ltb_spec (wrap64 (Record_Time keepalive -
      (time_Now_Unix (store_GetEventByEntityCheck
         (mkCtx (Some (Record_Organization keepalive)) (Some (Record_Environment keepalive)))
         (Record_EntityID keepalive) "keepalive" (ext w)).2).1)) 0); lia.
  - intros Hremaining. rewrite wrap64_id by (unfold int64_range; lia).
    unfold Nanosecond, Second. lia.
Qed.

(** ** Life cycle *)

Lemma quiet_refl (w : World S) : quiet w w.
Proof.
  split; [by destruct (kd w)|]. exists []. by rewrite app_nil_r.
Qed.

Lemma quiet_trans (w1 w2 w3 : World S) : quiet w1 w2 -> quiet w2 w3 -> quiet w1 w3.
Proof.
  intros (Hk1 & acts1 & Ht1 & Hg1) (Hk2 & acts2 & Ht2 & Hg2). split.
  - rewrite Hk2, Hk1. done.
  - exists (acts1 ++ acts2). rewrite Ht2, Ht1, app_assoc. split; [done|].
    by apply Forall_app.
Qed.

Lemma preserves_ret {A} (a : A) : preserves (mret a : M A).
Proof. intros w a' w' [= <- <-]. apply quiet_refl. Qed.

Lemma preserves_bind {A B} (c : M A) (k : A -> M B) :
  preserves c -> (forall a, preserves (k a)) -> preserves (c ≫= k).
Proof.
  intros Hc Hk w b w'. unfold mbind, M_bind.
  destruct (c w) as [a w1|] eqn:Hcw; [|done].
  intros Hkw. eapply quiet_trans; [by eapply Hc|by eapply Hk].
Qed.

Lemma preserves_panic {A} msg : preserves (panic msg : M A).
Proof. intros w a w'. done. Qed.

Lemma preserves_emit (a : Action) : is_go a = false -> preserves (emit a).
Proof.
  intros Ha w r w' [= <- <-]. split; [by destruct (kd w)|].
  exists [a]. split; [done|]. by apply Forall_singleton.
Qed.

Lemma preserves_call {A} (a : Action) (f : S -> A * S) :
  is_go a = false -> preserves (call a f).
Proof.
  intros Ha w r w' [= <- <-]. split; [by destruct (kd w)|].
  exists [a]. split; [done|]. by apply Forall_singleton.
Qed.

Lemma preserves_Now_Unix : preserves Now_Unix.
Proof.
  intros w r w' [= <- <-]. split; [by destruct (kd w)|].
  eexists [_]. split; [done|]. by apply Forall_singleton.
Qed.

Lemma preserves_getK : preserves getK.
Proof. intros w k w' [= <- <-]. apply quiet_refl. Qed.

Lemma preserves_memory {A} (c : M A) :
  (forall w a w', c w = Done a w' -> kd w' = kd w /\ trace w' = trace w) ->
  preserves c.
Proof.
  intros Hc w a w' Hrun. destruct (Hc w a w' Hrun) as [Hk Ht]. split.
  - rewrite Hk. by destruct (kd w).
  - exists []. by rewrite app_nil_r.
Qed.

Lemma preserves_load_entity p : preserves (load_entity p).
Proof.
  apply preserves_memory. unfold load_entity. intros w a w' Hrun.
  destruct p as [l|]; [|done]. destruct (ents w !! l); by simplify_eq.
Qed.

Lemma preserves_store_entity l e : preserves (store_entity l e).
Proof. apply preserves_memory. by intros w a w' [= <- <-]. Qed.

Lemma preserves_new_entity e : preserves (new_entity e).
Proof. apply preserves_memory. by intros w a w' [= <- <-]. Qed.

Lemma preserves_snapshot ev : preserves (snapshot ev).
Proof.
  apply preserves_memory. unfold snapshot. intros w a w' Hrun.
  destruct (Event_Entity ev) as [l|]; [|by simplify_eq].
  destruct (ents w !! l); by simplify_eq.
Qed.

Lemma preserves_monitorFactory entity t : preserves (monitorFactory entity t).
Proof. apply preserves_memory. by intros w a w' [= <- <-]. Qed.

Lemma preserves_load_monitor m : preserves (load_monitor m).
Proof.
  apply preserves_memory. unfold load_monitor. intros w a w' Hrun.
  destruct (mons w !! m); by simplify_eq.
Qed.

Lemma preserves_store_monitor m mon : preserves (store_monitor m mon).
Proof. apply preserves_memory. by intros w a w' [= <- <-]. Qed.

Lemma preserves_registry (f : gmap string loc -> gmap string loc) :
  preserves (modifyK (λ k, set_monitors (f (monitors k)) k)).
Proof.
  intros w a w' [= <- <-]. split; [done|]. exists []. by rewrite app_nil_r.
Qed.

Lemma preserves_forM_ {A} (f : A -> M unit) (l : list A) :
  (forall x, preserves (f x)) -> preserves (forM_ f l).
Proof.
  intros Hf. induction l as [|x l IH]; simpl.
  - apply preserves_ret.
  - apply preserves_bind; [apply Hf|]. intros _. apply IH.
Qed.

Create HintDb quiet.
#[local] Hint Resolve preserves_ret preserves_panic preserves_Now_Unix preserves_getK
  preserves_load_entity preserves_store_entity preserves_new_entity preserves_snapshot
  preserves_monitorFactory preserves_load_monitor preserves_store_monitor
  preserves_registry : quiet.
#[local] Hint Extern 1 (preserves (emit _)) => apply preserves_emit; reflexivity : quiet.
#[local] Hint Extern 1 (preserves (log _)) => apply preserves_emit; reflexivity : quiet.
#[local] Hint Extern 1 (preserves (call _ _)) => apply preserves_call; reflexivity : quiet.

(** Takes a monadic program apart: binds, then the branches of its
    matches, until the calls it is made of are left. *)
Ltac quiet_step :=
  lazymatch goal with
  | |- preserves (_ ≫= _) => apply preserves_bind; [|intros ?]
  | |- preserves (match ?x with _ => _ end) => destruct x
  | |- preserves (if ?x then _ else _) => destruct x
  | |- _ => solve [eauto with quiet]
  end.

Ltac quiet := repeat quiet_step.

Lemma preserves_Publish topic ev : preserves (Publish topic ev).
Proof. unfold Publish. quiet. Qed.

Lemma preserves_createKeepaliveEvent entity : preserves (createKeepaliveEvent entity).
Proof. unfold createKeepaliveEvent. quiet. Qed.

Lemma preserves_createRegistrationEvent entity :
  preserves (createRegistrationEvent entity).
Proof. unfold createRegistrationEvent. quiet. Qed.

Lemma preserves_set_Check_Status s ev : preserves (set_Check_Status s ev).
Proof. unfold set_Check_Status. quiet. Qed.

#[local] Hint Resolve preserves_Publish preserves_createKeepaliveEvent
  preserves_createRegistrationEvent preserves_set_Check_Status : quiet.

Lemma preserves_HandleUpdate e : preserves (HandleUpdate e).
Proof.
  unfold HandleUpdate, DeleteFailingKeepalive, UpdateEntity. quiet.
Qed.

Lemma preserves_HandleFailure entity ev : preserves (HandleFailure entity ev).
Proof.
  unfold HandleFailure, Deregister, UpdateFailingKeepalive. quiet.
Qed.

Lemma preserves_handleEntityRegistration entity :
  preserves (handleEntityRegistration entity).
Proof. unfold handleEntityRegistration, GetEntityByID. quiet. Qed.

Lemma preserves_syncMonitor entity : preserves (syncMonitor entity).
Proof.
  unfold syncMonitor, Monitor_IsStopped, Monitor_GetTimeout, Monitor_Stop, set_registry.
  quiet.
Qed.

#[local] Hint Resolve preserves_HandleUpdate preserves_HandleFailure
  preserves_handleEntityRegistration preserves_syncMonitor : quiet.

Lemma preserves_processKeepalive msg : preserves (processKeepalive msg).
Proof. unfold processKeepalive, Monitor_HandleUpdate. quiet. Qed.

Lemma preserves_sweep : preserves sweep.
Proof.
  unfold sweep. apply preserves_bind; [quiet|]. intros k.
  apply preserves_forM_. intros [key m]. unfold Monitor_IsStopped. quiet.
Qed.

Lemma preserves_initFromStore_loop keepalives : preserves (initFromStore_loop keepalives).
Proof.
  induction keepalives as [|keepalive rest IH]; simpl.
  - apply preserves_ret.
  - unfold GetEventByEntityCheck, set_registry. quiet.
Qed.

Lemma preserves_initFromStore : preserves initFromStore.
Proof.
  unfold initFromStore, GetFailingKeepalives.
  apply preserves_bind; [quiet|]. intros [keepalives|err]; [|quiet].
  apply preserves_initFromStore_loop.
Qed.

Lemma forM__go {A} (f : A -> Task) (l : list A) (w : World S) :
  forM_ (λ x, go (f x)) l w = Done tt (advance w (ext w) ((λ x, AGo (f x)) <$> l)).
Proof.
  revert w. induction l as [|x l IH]; intros w; simpl.
  - unfold_monad. by rewrite advance_nil.
  - unfold mbind, M_bind, go, emit at 1. rewrite IH.
    unfold advance; simpl. by rewrite <- app_assoc.
Qed.

Lemma startWorkers_run (w : World S) :
  let n := handlerCount (kd w) in
  startWorkers w =
    if 0 + n <? 0 then
      Panic "sync: negative WaitGroup counter"
        (mkWorld (ext w) (trace w) (ents w) (mons w) (set_wg (Some 0) (kd w)))
    else
      Done tt (mkWorld (ext w) (trace w ++ replicate (Z.to_nat n) (AGo TaskWorker))
                 (ents w) (mons w) (set_wg (Some (0 + n)) (kd w))).
Proof.
  cbv zeta. unfold startWorkers, wg_Add.
  unfold mbind, M_bind, mret, M_ret, getK, modifyK, panic; simpl.
  destruct (0 + handlerCount (kd w) <? 0); [done|].
  rewrite forM__go. unfold advance; simpl.
  by rewrite fmap_replicate.
Qed.

(** What a successful [Start] leaves of the daemon. *)
Lemma Start_success (w w' : World S) :
  Start w = Done None w' ->
  is_Some (subscription (kd w')) /\ is_Some (wg (kd w'))
  /\ keepaliveChan (kd w') = keepaliveChan (kd w)
  /\ errChan (kd w') = errChan (kd w).
Proof.
  unfold Start, Cancel, startMonitorSweeper, go.
  unfold mbind at 1, M_bind at 1, call at 1.
  destruct (bus_Subscribe _ _ _).1 as [s|err].
  2:{ unfold mret, M_ret. done. }
  unfold mbind at 1, M_bind at 1, modifyK at 1.
  unfold mbind at 1, M_bind at 1.
  match goal with |- context [initFromStore ?w1] => set (w1' := w1) end.
  destruct (initFromStore w1') as [[err|] w2|] eqn:Hinit; [| |done].
  - unfold_monad. destruct (subscription (kd w2)); [|done]. simpl.
    by destruct (sub_Cancel _ _).1.
  - destruct (preserves_initFromStore _ _ _ Hinit) as [Hkd _].
    unfold mbind at 1, M_bind at 1. rewrite startWorkers_run. cbv zeta.
    destruct (0 + handlerCount (kd w2) <? 0); [done|].
    unfold_monad. intros [= <-]. simpl. rewrite Hkd. simpl. eauto.
Qed.

Lemma quiet_running (w w' : World S) : quiet w w' -> running (kd w) -> running (kd w').
Proof. intros [Hkd _]. unfold running. rewrite Hkd. done. Qed.

Lemma Started_running (w : World S) : Started w -> running (kd w).
Proof.
  induction 1 as [w0 w Hk He Hstart|w msg w' _ IH Hrun|w e r w' _ IH Hrun
                  |w entity ev r w' _ IH Hrun|w w' _ IH Hrun].
  - destruct (Start_success w0 w Hstart) as (Hs & Hwg & Hkc & Hec).
    unfold running. by rewrite Hkc, Hec.
  - eapply quiet_running; [|exact IH]. by eapply preserves_processKeepalive.
  - eapply quiet_running; [|exact IH]. by eapply preserves_HandleUpdate.
  - eapply quiet_running; [|exact IH]. by eapply preserves_HandleFailure.
  - eapply quiet_running; [|exact IH]. by eapply preserves_sweep.
Qed.

(** [Stop], on a daemon that is running. *)
Lemma Stop_run (w : World S) (s : Subscription) :
  subscription (kd w) = Some s ->
  is_Some (wg (kd w)) ->
  Chan_closed (keepaliveChan (kd w)) = false ->
  Chan_closed (errChan (kd w)) = false ->
  let c := sub_Cancel s (ext w) in
  Stop w =
    Done c.1
      (mkWorld c.2
         (trace w ++ [ACancel s; AClose KeepaliveChan; AWait]
            ++ ((λ km : string * loc, AGo (TaskMonitorStop km.2))
                  <$> map_to_list (monitors (kd w)))
            ++ [AClose ErrChan])
         (ents w) (mons w)
         (set_errChan (mkChan true) (set_keepaliveChan (mkChan true) (kd w)))).
Proof.
  intros Hsub [n Hwg] Hkc Hec. cbv zeta.
  unfold Stop, Cancel, close, wg_Wait.
  unfold mbind, M_bind, mret, M_ret, call, emit, getK, modifyK, panic; simpl.
  rewrite Hsub; simpl. rewrite Hkc; simpl. rewrite Hwg; simpl.
  rewrite forM__go. unfold advance; simpl. rewrite Hec; simpl.
  by rewrite <- !app_assoc.
Qed.

(** C7.  [Start] returns the error of a failed subscription, and the error
    of a failed recovery; in the second case the subscription just obtained
    is cancelled as the last thing before [Start] returns, and neither the
    workers nor the sweeper are started: no goroutine is launched and no
    WaitGroup is made. *)
Theorem Start_failure_unwinds (w : World S) :
  let sub := bus_Subscribe TopicKeepalive "keepalived" (ext w) in
  (forall err, sub.1 = Err err ->
     Start w = Done (Some err) (advance w sub.2 [ASubscribe TopicKeepalive "keepalived"]))
  /\ (forall s err w2,
        sub.1 = Ok s ->
        initFromStore (subscribed w s sub.2) = Done (Some err) w2 ->
        let c := sub_Cancel s (ext w2) in
        exists w3,
          Start w = Done (Some err) w3
          /\ w3 = logged c.1 "unable to unsubscribe from message bus"
                    (advance w2 c.2 [ACancel s])
          /\ (exists acts, added w w3
                = ASubscribe TopicKeepalive "keepalived" :: acts ++ ACancel s
                    :: (if c.1 is Some _
                        then [ALog "unable to unsubscribe from message bus"] else []))
          /\ (forall t, AGo t ∉ added w w3)
          /\ wg (kd w3) = wg (kd w)).
Proof.
  cbv zeta. split.
  - intros err Hsub. unfold Start. unfold_monad. by rewrite Hsub.
  - intros s err w2 Hsub Hinit.
    destruct (preserves_initFromStore _ _ _ Hinit) as (Hkd & acts & Htrace & Hgo).
    simpl in Hkd, Htrace.
    assert (Hs2 : subscription (kd w2) = Some s) by (by rewrite Hkd).
    assert (Hstart : Start w = Done (Some err)
              (logged (sub_Cancel s (ext w2)).1 "unable to unsubscribe from message bus"
                 (advance w2 (sub_Cancel s (ext w2)).2 [ACancel s]))).
    { unfold Start, Cancel. unfold mbind at 1, M_bind at 1, call at 1. rewrite Hsub.
      unfold mbind at 1, M_bind at 1, modifyK at 1.
      unfold mbind at 1, M_bind at 1.
      unfold subscribed in Hinit. cbn [ext trace ents mons kd]. rewrite Hinit.
      unfold_monad. rewrite Hs2. simpl.
      by destruct (sub_Cancel s (ext w2)).1. }
    eexists. split; [exact Hstart|]. split; [done|].
    assert (Hadded : added w (logged (sub_Cancel s (ext w2)).1
                                "unable to unsubscribe from message bus"
                                (advance w2 (sub_Cancel s (ext w2)).2 [ACancel s]))
              = ASubscribe TopicKeepalive "keepalived" :: acts ++ ACancel s
                  :: (if (sub_Cancel s (ext w2)).1 is Some _
                      then [ALog "unable to unsubscribe from message bus"] else [])).
    { apply added_app. unfold logged, advance.
      destruct (sub_Cancel s (ext w2)).1; simpl; rewrite Htrace;
        rewrite <- !app_assoc; done. }
    split_and!.
    + eauto.
    + intros t. rewrite Hadded. intros Hin.
      apply elem_of_cons in Hin as [Hin|Hin]; [done|].
      apply elem_of_app in Hin as [Hin|Hin].
      * rewrite Forall_forall in Hgo. by apply Hgo in Hin.
      * apply elem_of_cons in Hin as [Hin|Hin]; [done|].
        destruct (sub_Cancel s (ext w2)).1; revert Hin; absent.
    + unfold logged. destruct (sub_Cancel s (ext w2)).1; simpl; by rewrite Hkd.
Qed.

(** C8.  On a daemon on which [Start] has succeeded, [Stop] cancels the
    subscription, closes the keepalive channel, waits for the workers,
    starts a goroutine that stops it for each monitor in the registry (it
    stops none itself), closes the error channel, and returns what the
    cancellation returned, an error included, after all of that. *)
Theorem Stop_shuts_down (w : World S) :
  Started w ->
  exists s stops w',
    subscription (kd w) = Some s
    /\ Stop w = Done (sub_Cancel s (ext w)).1 w'
    /\ ext w' = (sub_Cancel s (ext w)).2
    /\ added w w' = [ACancel s; AClose KeepaliveChan; AWait]
                      ++ ((λ m, AGo (TaskMonitorStop m)) <$> stops)
                      ++ [AClose ErrChan]
    /\ stops ≡ₚ (map_to_list (monitors (kd w))).*2
    /\ (forall m, m ∈ stops <-> exists id, monitors (kd w) !! id = Some m)
    /\ mons w' = mons w
    /\ monitors (kd w') = monitors (kd w)
    /\ Chan_closed (keepaliveChan (kd w')) = true
    /\ Chan_closed (errChan (kd w')) = true.
Proof.
  intros Hstarted.
  destruct (Started_running w Hstarted) as ([s Hsub] & Hwg & Hkc & Hec).
  exists s, ((map_to_list (monitors (kd w))).*2). eexists.
  split; [exact Hsub|].
  split; [exact (Stop_run w s Hsub Hwg Hkc Hec)|]. simpl.
  split_and!; try done.
  - apply added_app. simpl. by rewrite <- list_fmap_compose.
  - intros m. rewrite list_elem_of_fmap. split.
    + intros ([id m'] & -> & Hin). exists id. by apply elem_of_map_to_list.
    + intros [id Hid]. exists (id, m). split; [done|]. by apply elem_of_map_to_list.
Qed.

(** * Further properties of the daemon *)

(** ** The worker, message by message *)

(** X1.  A message that is not an event, an event without entity and an
    event whose entity does not validate are dropped: the worker logs one
    line and does nothing else, to the collaborators or to itself. *)
Theorem processKeepalive_drops_invalid (msg : Msg) (w : World S) :
  (msg = MsgOther
   \/ (exists e, msg = MsgEvent (Some e) /\ Event_Entity e = None)
   \/ (exists e l ent err,
         msg = MsgEvent (Some e) /\ Event_Entity e = Some l
         /\ ents w !! l = Some ent /\ Entity_Validate ent = Some err)) ->
  exists text, processKeepalive msg w = Done tt (advance w (ext w) [ALog text]).
Proof.
  intros [->|[(e & -> & He)|(e & l & ent & err & -> & He & Hl & Hvalid)]].
  - eexists. reflexivity.
  - eexists. unfold processKeepalive. rewrite He. reflexivity.
  - eexists. unfold processKeepalive. rewrite He. unfold_monad.
    rewrite Hl, Hvalid. reflexivity.
Qed.

(** Registration of an agent the store already knows is one lookup:
    nothing is published and nil is returned. *)
Theorem handleEntityRegistration_known_agent
    (l : loc) (ent known : Entity) (w : World S) :
  ents w !! l = Some ent ->
  Entity_Class ent = "agent" ->
  let ctx := SetContextFromResource ent in
  let get := store_GetEntityByID ctx (Entity_ID ent) (ext w) in
  get.1 = Ok (Some known) ->
  handleEntityRegistration (Some l) w
  = Done None (advance w get.2 [AGetEntityByID ctx (Entity_ID ent)]).
Proof.
  intros Hl Hclass. cbv zeta. intros Hget.
  pose proof (handleEntityRegistration_run l ent w Hl) as Hrun. cbv zeta in Hrun.
  apply String.eqb_eq in Hclass. unfold EntityAgentClass in Hrun.
  by rewrite Hclass, Hget in Hrun.
Qed.


(** A valid keepalive event through the worker, with everything that
    happens on the way: [w1] is the world after registration and its log
    line, [w2] after synchronisation, [w3] after the update. *)
Lemma processKeepalive_valid (e : Event) (l : loc) (ent : Entity) (w : World S) :
  Event_Entity e = Some l ->
  ents w !! l = Some ent ->
  Entity_Validate ent = None ->
  (forall m0, monitors (kd w) !! Entity_ID ent = Some m0 -> is_Some (mons w !! m0)) ->
  exists acts w1 m w2 r' w3,
    ents w1 = ents w /\ mons w1 = mons w /\ kd w1 = kd w /\ trace w1 = trace w ++ acts
    /\ syncMonitor (Some l) w1 = Done m w2
    /\ ext w2 = ext w1 /\ trace w2 = trace w1 /\ ents w2 = ents w
    /\ kd w2 = set_monitors (monitors (kd w2)) (kd w)
    /\ synchronised (Entity_ID ent) l (wrap64 (Entity_KeepaliveTimeout ent * Second))
         (mons w) (monitors (kd w)) m (mons w2) (monitors (kd w2))
    /\ HandleUpdate e w2 = Done r' w3
    /\ processKeepalive (MsgEvent (Some e)) w
       = Done tt (logged r' "error monitoring entity" w3).
Proof.
  intros He Hl Hvalid Hwf.
  destruct (processKeepalive_run e l ent w He Hl Hvalid Hwf)
    as (r & s & acts & m & w2 & r' & w3 & Hreg & Hsync & Hpost & Hup & _ & _ & Hrun).
  set (w1 := logged r "error handling entity registration" (advance w s acts)) in *.
  assert (Hw1 : ents w1 = ents w /\ mons w1 = mons w /\ kd w1 = kd w
                /\ exists acts', trace w1 = trace w ++ acts').
  { unfold w1, logged. destruct r; simpl; split_and!; try done.
    - exists (acts ++ [ALog "error handling entity registration"]).
      by rewrite app_assoc.
    - by exists acts. }
  destruct Hw1 as (Hents1 & Hmons1 & Hkd1 & acts' & Htrace1).
  destruct (syncMonitor_post l ent w1) as (m' & w2' & Hsync' & Hext2 & Htrace2 & Hents2 & Hkd2 & _).
  { by rewrite Hents1. }
  { by rewrite Hkd1, Hmons1. }
  rewrite Hsync in Hsync'. injection Hsync' as <- <-.
  exists acts', w1, m, w2, r', w3. rewrite Hkd1 in Hkd2. rewrite Hents1 in Hents2.
  split_and!; done.
Qed.

(** What [HandleUpdate] comes to, for its callers: it starts with the
    delete, and if it returns nil it has ended with the publication of the
    passing keepalive event. *)
Lemma HandleUpdate_outcome (e : Event) (l : loc) (ent : Entity) (w : World S) :
  Event_Entity e = Some l ->
  ents w !! l = Some ent ->
  let ent' := Entity_set_LastSeen (Event_Timestamp e) ent in
  exists r w' acts,
    HandleUpdate e w = Done r w'
    /\ mons w' = mons w /\ kd w' = kd w
    /\ (ents w' = ents w \/ ents w' = <[l := ent']> (ents w))
    /\ trace w' = trace w ++ ADeleteFailingKeepalive (SetContextFromResource ent) ent :: acts
    /\ (r = None ->
        exists acts' ev check,
          acts = acts' ++ [APublish TopicEventRaw ev]
          /\ Event_Entity ev = Some ent'
          /\ Event_Check ev = Some check
          /\ Check_Name check = "keepalive" /\ Check_Status check = 0).
Proof.
  intros He Hl. cbv zeta. rewrite (HandleUpdate_run e l ent w He Hl). cbv zeta.
  destruct (store_DeleteFailingKeepalive _ _ _).1 as [derr|].
  { exists (Some derr). eexists _, []. split; [reflexivity|]. simpl.
    split_and!; try done. by left. }
  destruct (store_UpdateEntity _ _ _).1 as [uerr|].
  { exists (Some uerr). eexists _, [_; _]. split; [reflexivity|]. simpl.
    split_and!; try done. by right. }
  eexists _, _, [_; _; _]. split; [reflexivity|]. simpl.
  split_and!; try done; [by right|].
  intros _. eexists [_; _], _, _. split; [reflexivity|]. done.
Qed.

(** X3.  A valid keepalive never goes unanswered: the worker asks the
    store to delete the entity's failing-keepalive record, and the last
    thing it does is either to publish the passing keepalive event (status
    0, the entity with its new [LastSeen]) on the raw-events topic or, if
    any step of the update failed, to log the error; the registry is
    synchronised in both cases. *)
Theorem processKeepalive_answers (e : Event) (l : loc) (ent : Entity) (w : World S) :
  Event_Entity e = Some l ->
  ents w !! l = Some ent ->
  Entity_Validate ent = None ->
  (forall m0, monitors (kd w) !! Entity_ID ent = Some m0 -> is_Some (mons w !! m0)) ->
  exists w',
    processKeepalive (MsgEvent (Some e)) w = Done tt w'
    /\ is_Some (monitors (kd w') !! Entity_ID ent)
    /\ ADeleteFailingKeepalive (SetContextFromResource ent) ent ∈ added w w'
    /\ (last (added w w') = Some (ALog "error monitoring entity")
        \/ exists ev check,
             last (added w w') = Some (APublish TopicEventRaw ev)
             /\ Event_Entity ev = Some (Entity_set_LastSeen (Event_Timestamp e) ent)
             /\ Event_Check ev = Some check
             /\ Check_Name check = "keepalive" /\ Check_Status check = 0).
Proof.
  intros He Hl Hvalid Hwf.
  destruct (processKeepalive_valid e l ent w He Hl Hvalid Hwf)
    as (acts & w1 & m & w2 & r' & w3 & _ & _ & _ & Htrace1 & _ & _ & Htrace2 & Hents2
        & _ & Hpost & Hup & Hrun).
  assert (Hl2 : ents w2 !! l = Some ent) by by rewrite Hents2.
  destruct (HandleUpdate_outcome e l ent w2 He Hl2)
    as (r & w3' & hacts & Hup' & _ & Hkd3 & _ & Htrace3 & Hnil).
  rewrite Hup in Hup'. injection Hup' as <- <-.
  rewrite Htrace2, Htrace1 in Htrace3.
  destruct Hpost as (Hreg & _).
  eexists. split; [exact Hrun|].
  set (del := ADeleteFailingKeepalive (SetContextFromResource ent) ent) in *.
  destruct r' as [err|]; simpl.
  - rewrite Hkd3, Hreg. split; [eauto|].
    rewrite (added_app w _ ((acts ++ del :: hacts) ++ [ALog "error monitoring entity"])).
    2:{ simpl. by rewrite Htrace3, <- !app_assoc. }
    split.
    + apply elem_of_app. left. apply elem_of_app. right. apply elem_of_cons. by left.
    + left. by rewrite last_snoc.
  - rewrite Hkd3, Hreg. split; [eauto|].
    destruct (Hnil eq_refl) as (acts' & ev & check & -> & Hev & Hcheck & Hname & Hstatus).
    rewrite (added_app w _ ((acts ++ del :: acts') ++ [APublish TopicEventRaw ev])).
    2:{ by rewrite Htrace3, <- !app_assoc. }
    split.
    + apply elem_of_app. left. apply elem_of_app. right. apply elem_of_cons. by left.
    + right. exists ev, check. by rewrite last_snoc.
Qed.

(** Every message either is dropped with a log line or is a valid
    keepalive event. *)
Lemma processKeepalive_cases (msg : Msg) (w w' : World S) :
  processKeepalive msg w = Done tt w' ->
  (exists text, w' = advance w (ext w) [ALog text])
  \/ (exists e l ent, msg = MsgEvent (Some e) /\ Event_Entity e = Some l
                      /\ ents w !! l = Some ent /\ Entity_Validate ent = None).
Proof.
  destruct msg as [[e|]|]; simpl.
  - destruct (Event_Entity e) as [l|] eqn:He.
    + unfold mbind at 1, M_bind at 1, load_entity.
      destruct (ents w !! l) as [ent|] eqn:Hl; [|done].
      destruct (Entity_Validate ent) eqn:Hvalid.
      * intros [= <-]. left. eauto.
      * intros _. right. exists e, l, ent. done.
    + intros [= <-]. left. eauto.
  - done.
  - intros [= <-]. left. eauto.
Qed.

(** What a valid keepalive event does to the daemon's memory. *)
Lemma processKeepalive_effect (e : Event) (l : loc) (ent : Entity) (w : World S) :
  Event_Entity e = Some l ->
  ents w !! l = Some ent ->
  Entity_Validate ent = None ->
  (forall m0, monitors (kd w) !! Entity_ID ent = Some m0 -> is_Some (mons w !! m0)) ->
  exists w' m,
    processKeepalive (MsgEvent (Some e)) w = Done tt w'
    /\ synchronised (Entity_ID ent) l (wrap64 (Entity_KeepaliveTimeout ent * Second))
         (mons w) (monitors (kd w)) m (mons w') (monitors (kd w'))
    /\ kd w' = set_monitors (monitors (kd w')) (kd w)
    /\ (ents w' = ents w
        \/ ents w' = <[l := Entity_set_LastSeen (Event_Timestamp e) ent]> (ents w)).
Proof.
  intros He Hl Hvalid Hwf.
  destruct (processKeepalive_valid e l ent w He Hl Hvalid Hwf)
    as (acts & w1 & m & w2 & r' & w3 & _ & _ & _ & _ & _ & _ & _ & Hents2
        & Hkd2 & Hpost & Hup & Hrun).
  assert (Hl2 : ents w2 !! l = Some ent) by by rewrite Hents2.
  destruct (HandleUpdate_outcome e l ent w2 He Hl2)
    as (r & w3' & hacts & Hup' & Hmons3 & Hkd3 & Hents3 & _).
  rewrite Hup in Hup'. injection Hup' as <- <-.
  exists (logged r' "error monitoring entity" w3), m. split; [exact Hrun|].
  assert (Hsame : mons (logged r' "error monitoring entity" w3) = mons w3
                  /\ kd (logged r' "error monitoring entity" w3) = kd w3
                  /\ ents (logged r' "error monitoring entity" w3) = ents w3)
    by (by destruct r').
  destruct Hsame as (-> & -> & ->).
  rewrite Hmons3, Hkd3. rewrite Hents2 in Hents3. done.
Qed.

(** The two ways synchronisation can go: the old monitor is kept and
    nothing changes, or a new monitor is put at the end of the heap and
    entered under the entity's ID, the old one, if it was running, having
    been stopped. *)
Lemma synchronised_cases (id : string) (l : loc) (t : Duration)
    (mons0 : list Monitor) (reg0 : gmap string loc)
    (m : loc) (mons1 : list Monitor) (reg1 : gmap string loc) :
  (forall m0, reg0 !! id = Some m0 -> is_Some (mons0 !! m0)) ->
  synchronised id l t mons0 reg0 m mons1 reg1 ->
  (reg0 !! id = Some m /\ mons1 = mons0 /\ reg1 = reg0)
  \/ (m = length mons0 /\ reg1 = <[id := m]> reg0
      /\ exists mons0',
           mons1 = mons0' ++ [mkMonitor (Some l) t false]
           /\ length mons0' = length mons0
           /\ (forall m', (forall m0, reg0 !! id = Some m0 -> m' <> m0) ->
                 mons0' !! m' = mons0 !! m')
           /\ (forall m0, reg0 !! id = Some m0 -> is_stopped mons0' m0 = true)).
Proof.
  intros Hwf (Hreg & Hmon & Hinstall & Hreplace & Hreuse).
  destruct (reg0 !! id) as [m0|] eqn:Hreg0.
  - destruct (Hwf m0 eq_refl) as [mon0 Hmon0].
    destruct (Monitor_Stopped mon0) eqn:Hstopped.
    + destruct Hinstall as (-> & -> & ->); [right; eauto 10|].
      right. split_and!; try done. exists mons0. split_and!; try done.
      intros ? [= <-]. unfold is_stopped. by rewrite Hmon0.
    + destruct (decide (Monitor_Timeout mon0 = t)) as [Ht|Ht].
      * destruct (Hreuse m0 mon0 eq_refl Hmon0 Hstopped Ht) as (-> & -> & ->). by left.
      * destruct (Hreplace m0 mon0 eq_refl Hmon0 Hstopped Ht) as (-> & -> & Hm0 & ->).
        right. split_and!; try done.
        exists (<[m0 := Monitor_set_Stopped mon0]> mons0).
        split_and!; try done.
        -- apply length_insert.
        -- intros m' Hm'. apply list_lookup_insert_ne. intros ->. by eapply Hm'.
        -- intros ? [= <-]. unfold is_stopped.
           rewrite list_lookup_insert_eq by (by eapply lookup_lt_Some). done.
  - destruct Hinstall as (-> & -> & ->); [by left|].
    right. split_and!; try done. exists mons0. split_and!; done.
Qed.

(** X4.  The registry stays sound under any message a worker processes:
    its entries point at monitors that exist, and no monitor is entered
    under two entity IDs. *)
Theorem processKeepalive_keeps_registry_ok (msg : Msg) (w w' : World S) :
  registry_ok w ->
  processKeepalive msg w = Done tt w' ->
  registry_ok w'.
Proof.
  intros [Hin Hinj] Hrun.
  destruct (processKeepalive_cases msg w w' Hrun)
    as [[text ->]|(e & l & ent & -> & He & Hl & Hvalid)]; [done|].
  assert (Hwf : forall m0, monitors (kd w) !! Entity_ID ent = Some m0 ->
                  is_Some (mons w !! m0)).
  { intros m0 Hm0. apply lookup_lt_is_Some. by eapply Hin. }
  destruct (processKeepalive_effect e l ent w He Hl Hvalid Hwf)
    as (w'' & m & Hrun' & Hsync & _ & _).
  rewrite Hrun in Hrun'. injection Hrun' as <-. unfold registry_ok.
  destruct (synchronised_cases _ _ _ _ _ _ _ _ Hwf Hsync)
    as [(_ & -> & ->)|(-> & -> & mons0' & -> & Hlen & _ & _)]; [done|].
  split.
  - intros id m Hm. rewrite length_app, Hlen. simpl.
    apply lookup_insert_Some in Hm as [[_ <-]|[_ Hm]]; [lia|].
    apply Hin in Hm. lia.
  - intros id1 id2 m Hm1 Hm2.
    apply lookup_insert_Some in Hm1 as [[<- <-]|[Hne1 Hm1]];
      apply lookup_insert_Some in Hm2 as [[<- Heq]|[Hne2 Hm2]]; try done.
    + apply Hin in Hm2. lia.
    + apply Hin in Hm1. lia.
    + by eapply Hinj.
Qed.

(** X5.  A worker loses no running monitor: if every monitor that is not
    stopped was in the registry before a message, so it is after it.  When
    the worker takes a monitor out of the registry, that monitor is
    stopped. *)
Theorem processKeepalive_keeps_running_registered (msg : Msg) (w w' : World S) :
  registry_ok w ->
  running_registered w ->
  processKeepalive msg w = Done tt w' ->
  running_registered w'.
Proof.
  intros [Hin Hinj] Hrr Hrun.
  destruct (processKeepalive_cases msg w w' Hrun)
    as [[text ->]|(e & l & ent & -> & He & Hl & Hvalid)]; [done|].
  assert (Hwf : forall m0, monitors (kd w) !! Entity_ID ent = Some m0 ->
                  is_Some (mons w !! m0)).
  { intros m0 Hm0. apply lookup_lt_is_Some. by eapply Hin. }
  destruct (processKeepalive_effect e l ent w He Hl Hvalid Hwf)
    as (w'' & m & Hrun' & Hsync & _ & _).
  rewrite Hrun in Hrun'. injection Hrun' as <-.
  destruct (synchronised_cases _ _ _ _ _ _ _ _ Hwf Hsync)
    as [(_ & Hmons & Hreg)|(-> & Hreg & mons0' & Hmons & Hlen & Hother & Hold)].
  { unfold running_registered. rewrite Hmons, Hreg. exact Hrr. }
  intros m' mon' Hm' Hrunning. rewrite Hreg. rewrite Hmons in Hm'.
  destruct (decide (m' = length (mons w))) as [->|Hne].
  { exists (Entity_ID ent). apply lookup_insert_eq. }
  assert (Hlt : (m' < length mons0')%nat).
  { apply lookup_lt_Some in Hm'. rewrite length_app in Hm'. simpl in Hm'. lia. }
  rewrite lookup_app_l in Hm' by done.
  assert (Hnot_old : forall m0, monitors (kd w) !! Entity_ID ent = Some m0 -> m' <> m0).
  { intros m0 Hm0 Heq. subst m0. apply Hold in Hm0. unfold is_stopped, loc in Hm0.
    rewrite Hm' in Hm0. congruence. }
  pose proof (Hother m' Hnot_old) as Hsame. unfold loc in Hsame. rewrite Hsame in Hm'.
  destruct (Hrr m' mon' Hm' Hrunning) as [id Hid].
  exists id. rewrite lookup_insert_ne; [done|].
  intros <-. by eapply Hnot_old.
Qed.

(** X6.  A second keepalive with the same timeout changes nothing in the
    registry: after a valid keepalive of an entity, a keepalive carrying
    another object for the same entity ID with the same timeout is served by
    the monitor that is there, and no monitor is created or stopped. *)
Theorem processKeepalive_again_reuses
    (e e2 : Event) (l l2 : loc) (ent ent2 : Entity) (w : World S) :
  Event_Entity e = Some l ->
  ents w !! l = Some ent ->
  Entity_Validate ent = None ->
  Event_Entity e2 = Some l2 ->
  ents w !! l2 = Some ent2 ->
  Entity_Validate ent2 = None ->
  l2 <> l ->
  Entity_ID ent2 = Entity_ID ent ->
  Entity_KeepaliveTimeout ent2 = Entity_KeepaliveTimeout ent ->
  (forall m0, monitors (kd w) !! Entity_ID ent = Some m0 -> is_Some (mons w !! m0)) ->
  exists w1 w2,
    processKeepalive (MsgEvent (Some e)) w = Done tt w1
    /\ processKeepalive (MsgEvent (Some e2)) w1 = Done tt w2
    /\ monitors (kd w2) = monitors (kd w1)
    /\ mons w2 = mons w1.
Proof.
  intros He Hl Hvalid He2 Hl2 Hvalid2 Hne Hid Ht Hwf.
  destruct (processKeepalive_effect e l ent w He Hl Hvalid Hwf)
    as (w1 & m & Hrun1 & Hsync1 & _ & Hents1).
  destruct Hsync1 as (Hreg1 & (mon & Hmon & Htimeout & Hrunning) & _).
  assert (Hl2' : ents w1 !! l2 = Some ent2).
  { destruct Hents1 as [->| ->]; [done|]. by rewrite list_lookup_insert_ne. }
  assert (Hwf1 : forall m0, monitors (kd w1) !! Entity_ID ent2 = Some m0 ->
                   is_Some (mons w1 !! m0)).
  { intros m0. rewrite Hid, Hreg1. intros [= <-]. eauto. }
  destruct (processKeepalive_effect e2 l2 ent2 w1 He2 Hl2' Hvalid2 Hwf1)
    as (w2 & m2 & Hrun2 & Hsync2 & _ & _).
  exists w1, w2. split; [exact Hrun1|]. split; [exact Hrun2|].
  destruct Hsync2 as (_ & _ & _ & _ & Hreuse).
  rewrite Hid, Ht in Hreuse.
  destruct (Hreuse m mon Hreg1 Hmon Hrunning Htimeout) as (_ & -> & ->). done.
Qed.

(** ** The worker and the WaitGroup *)

Lemma processKeepalives_run (msgs : list Msg) (w w' : World S) (c : Z) :
  wg (kd w) = Some c ->
  processKeepalives msgs w = Done tt w' ->
  1 <= c
  /\ kd w' = set_wg (Some (c - 1)) (set_monitors (monitors (kd w')) (kd w))
  /\ exists acts, trace w' = trace w ++ acts /\ Forall (λ a, is_go a = false) acts.
Proof.
  intros Hwg. unfold processKeepalives, wg_Done, wg_Add.
  unfold mbind at 1, M_bind at 1.
  destruct (forM_ processKeepalive msgs w) as [[] w1|] eqn:Hloop; [|done].
  destruct (preserves_forM_ processKeepalive msgs preserves_processKeepalive _ _ _ Hloop)
    as (Hkd & acts & Htrace & Hgo).
  unfold_monad. rewrite Hkd. simpl. rewrite Hwg.
  destruct (Z.ltb_spec (c + -1) 0); [done|].
  intros [= <-]. simpl. split; [lia|]. split; [|eauto].
  replace (c + -1) with (c - 1) by lia. by rewrite Hkd at 1.
Qed.

Lemma workers_run (batches : list (list Msg)) (w w' : World S) (c : Z) :
  wg (kd w) = Some c ->
  forM_ processKeepalives batches w = Done tt w' ->
  (0 <= c -> Z.of_nat (length batches) <= c)
  /\ kd w' = set_wg (Some (c - Z.of_nat (length batches)))
               (set_monitors (monitors (kd w')) (kd w))
  /\ exists acts, trace w' = trace w ++ acts /\ Forall (λ a, is_go a = false) acts.
Proof.
  revert w c. induction batches as [|msgs batches IH]; intros w c Hwg.
  - intros [= <-]. simpl. rewrite Z.sub_0_r, <- Hwg. split; [lia|]. split.
    + by destruct (kd w).
    + exists []. by rewrite app_nil_r.
  - cbn [forM_]. unfold mbind at 1, M_bind at 1.
    destruct (processKeepalives msgs w) as [[] w1|] eqn:Hone; [|done].
    destruct (processKeepalives_run msgs w w1 c Hwg Hone)
      as (Hc & Hkd1 & acts1 & Ht1 & Hgo1).
    intros Hrest.
    assert (Hwg1 : wg (kd w1) = Some (c - 1)) by (by rewrite Hkd1).
    destruct (IH w1 (c - 1) Hwg1 Hrest) as (Hlen & Hkd' & acts & Ht' & Hgo').
    split; [cbn [length]; lia|]. split.
    + rewrite Hkd' at 1. rewrite Hkd1 at 1. cbn [length]. unfold set_wg, set_monitors.
      simpl. do 2 f_equal. lia.
    + exists (acts1 ++ acts). rewrite Ht', Ht1, app_assoc. split; [done|].
      by apply Forall_app.
Qed.

(** X7.  Workers that return give their share of the WaitGroup back: when
    [n] workers have processed their messages and returned, the counter is
    down by exactly [n], whatever the messages were, and on the way no
    worker has touched the subscription or a channel or started a
    goroutine.  So the counter [Start] set to the number of workers is zero
    when all of them are done. *)
Theorem workers_give_back_the_counter
    (batches : list (list Msg)) (w w' : World S) (c : Z) :
  wg (kd w) = Some c ->
  forM_ processKeepalives batches w = Done tt w' ->
  wg (kd w') = Some (c - Z.of_nat (length batches))
  /\ (0 <= c -> Z.of_nat (length batches) <= c)
  /\ subscription (kd w') = subscription (kd w)
  /\ keepaliveChan (kd w') = keepaliveChan (kd w)
  /\ errChan (kd w') = errChan (kd w)
  /\ (forall t, AGo t ∉ added w w').
Proof.
  intros Hwg Hrun.
  destruct (workers_run batches w w' c Hwg Hrun) as (Hlen & Hkd & acts & Htrace & Hgo).
  rewrite Hkd. simpl. split_and!; try done.
  intros t. rewrite (added_app w w' acts Htrace). intros Hin.
  rewrite Forall_forall in Hgo. by apply Hgo in Hin.
Qed.

(** ** The sweeper *)

Lemma sweep_entries_None (ms : list Monitor) (l : list (string * loc))
    (reg : gmap string loc) (id : string) :
  reg !! id = None -> foldl (sweep_entry ms) reg l !! id = None.
Proof.
  revert reg. induction l as [|km l IH]; intros reg Hreg; [done|].
  simpl. apply IH. unfold sweep_entry. destruct (is_stopped ms km.2); [|done].
  destruct (decide (km.1 = id)) as [->|Hne].
  - apply lookup_delete_eq.
  - by rewrite lookup_delete_ne.
Qed.

Lemma sweep_entries_stopped (ms : list Monitor) (l : list (string * loc))
    (reg : gmap string loc) (id : string) (m : loc) :
  (id, m) ∈ l -> is_stopped ms m = true ->
  foldl (sweep_entry ms) reg l !! id = None.
Proof.
  revert reg. induction l as [|km l IH]; intros reg Hin Hstopped.
  { by apply elem_of_nil in Hin. }
  apply elem_of_cons in Hin as [<-|Hin]; simpl.
  - apply sweep_entries_None. unfold sweep_entry. simpl. rewrite Hstopped.
    apply lookup_delete_eq.
  - by apply IH.
Qed.

Lemma sweep_entries_running (ms : list Monitor) (l : list (string * loc))
    (reg : gmap string loc) (id : string) :
  (forall m, (id, m) ∈ l -> is_stopped ms m = false) ->
  foldl (sweep_entry ms) reg l !! id = reg !! id.
Proof.
  revert reg. induction l as [|km l IH]; intros reg Hrunning; [done|].
  simpl. rewrite IH.
  - unfold sweep_entry. destruct (is_stopped ms km.2) eqn:Hstopped; [|done].
    destruct km as [key m]. simpl in *.
    destruct (decide (key = id)) as [->|Hne]; [|by rewrite lookup_delete_ne].
    rewrite Hrunning in Hstopped; [done|]. apply elem_of_cons. by left.
  - intros m Hin. apply Hrunning. apply elem_of_cons. by right.
Qed.

Lemma sweep_entries_swept (ms : list Monitor) (reg : gmap string loc) :
  foldl (sweep_entry ms) reg (map_to_list reg) = swept ms reg.
Proof.
  apply map_eq. intros id. unfold swept.
  destruct (reg !! id) as [m|] eqn:Hreg.
  - destruct (is_stopped ms m) eqn:Hstopped.
    + rewrite (sweep_entries_stopped ms _ reg id m); [|by apply elem_of_map_to_list|done].
      symmetry. apply map_lookup_filter_None. right. intros m' Hm'. simpl.
      rewrite Hreg in Hm'. injection Hm' as <-. congruence.
    + rewrite sweep_entries_running.
      * rewrite Hreg. symmetry. by apply map_lookup_filter_Some.
      * intros m' Hin. apply elem_of_map_to_list in Hin. congruence.
  - rewrite sweep_entries_None by done. symmetry.
    apply map_lookup_filter_None. by left.
Qed.

Lemma sweep_loop (l : list (string * loc)) (w : World S) :
  (forall km, km ∈ l -> is_Some (mons w !! km.2)) ->
  forM_ (λ '(key, m),
           stopped ← Monitor_IsStopped m;
           if (stopped : bool)
           then modifyK (λ k, set_monitors (delete key (monitors k)) k)
           else mret tt) l w
  = Done tt (mkWorld (ext w) (trace w) (ents w) (mons w)
               (set_monitors (foldl (sweep_entry (mons w)) (monitors (kd w)) l) (kd w))).
Proof.
  revert w. induction l as [|[key m] l IH]; intros w Hwf.
  - simpl. unfold_monad. by destruct w as [? ? ? ? []].
  - cbn [forM_]. unfold mbind at 1, M_bind at 1.
    destruct (Hwf (key, m)) as [mon Hmon]; [apply elem_of_cons; by left|].
    simpl in Hmon.
    unfold Monitor_IsStopped, load_monitor. unfold_monad. rewrite Hmon.
    assert (Hentry : sweep_entry (mons w) (monitors (kd w)) (key, m)
                     = if Monitor_Stopped mon then delete key (monitors (kd w))
                       else monitors (kd w)).
    { unfold sweep_entry, is_stopped. simpl. by rewrite Hmon. }
    destruct (Monitor_Stopped mon); simpl; rewrite IH; simpl.
    + by rewrite Hentry.
    + intros km Hin. apply Hwf. apply elem_of_cons. by right.
    + by rewrite Hentry.
    + intros km Hin. apply Hwf. apply elem_of_cons. by right.
Qed.

(** One tick of the sweeper, on a registry whose entries point at
    monitors that exist. *)
Lemma sweep_run (w : World S) :
  (forall id m, monitors (kd w) !! id = Some m -> is_Some (mons w !! m)) ->
  sweep w = Done tt (mkWorld (ext w) (trace w) (ents w) (mons w)
                       (set_monitors (swept (mons w) (monitors (kd w))) (kd w))).
Proof.
  intros Hwf. unfold sweep. unfold mbind at 1, M_bind at 1, getK at 1.
  rewrite sweep_loop.
  - by rewrite sweep_entries_swept.
  - intros [id m] Hin. apply elem_of_map_to_list in Hin. by eapply Hwf.
Qed.

(** X8.  A tick of the sweeper removes from the registry exactly the
    entries whose monitor is stopped: an entry is there afterwards if and
    only if it was there before and its monitor is not stopped.  The sweeper
    calls neither store nor bus and changes no monitor and no entity. *)
Theorem sweep_removes_stopped (w : World S) :
  (forall id m, monitors (kd w) !! id = Some m -> is_Some (mons w !! m)) ->
  exists w',
    sweep w = Done tt w'
    /\ ext w' = ext w /\ trace w' = trace w /\ ents w' = ents w /\ mons w' = mons w
    /\ kd w' = set_monitors (monitors (kd w')) (kd w)
    /\ (forall id m,
          monitors (kd w') !! id = Some m
          <-> monitors (kd w) !! id = Some m /\ is_stopped (mons w) m = false).
Proof.
  intros Hwf. eexists. split; [exact (sweep_run w Hwf)|]. simpl.
  split_and!; try done.
  intros id m. unfold swept. by rewrite map_lookup_filter_Some.
Qed.

(** X9.  After a tick of the sweeper every monitor in the registry is
    running, and a second tick changes nothing. *)
Theorem sweep_twice (w : World S) :
  (forall id m, monitors (kd w) !! id = Some m -> is_Some (mons w !! m)) ->
  exists w',
    sweep w = Done tt w'
    /\ (forall id m, monitors (kd w') !! id = Some m -> is_stopped (mons w') m = false)
    /\ sweep w' = Done tt w'.
Proof.
  intros Hwf. eexists. split; [exact (sweep_run w Hwf)|]. split.
  - simpl. intros id m Hm. unfold swept in Hm.
    by apply map_lookup_filter_Some in Hm as [_ Hm].
  - rewrite sweep_run.
    2:{ simpl. intros id m Hm. unfold swept in Hm.
        apply map_lookup_filter_Some in Hm as [Hm _]. by eapply Hwf. }
    simpl. do 2 f_equal. unfold set_monitors. simpl. f_equal.
    unfold swept. apply map_eq. intros id.
    apply option_eq. intros m. rewrite !map_lookup_filter_Some. tauto.
Qed.

(** X10.  The sweeper keeps the registry sound and loses no running
    monitor. *)
Theorem sweep_keeps_invariants (w w' : World S) :
  registry_ok w ->
  running_registered w ->
  sweep w = Done tt w' ->
  registry_ok w' /\ running_registered w'.
Proof.
  intros [Hin Hinj] Hrr Hrun.
  assert (Hwf : forall id m, monitors (kd w) !! id = Some m -> is_Some (mons w !! m)).
  { intros id m Hm. apply lookup_lt_is_Some. by eapply Hin. }
  rewrite (sweep_run w Hwf) in Hrun. injection Hrun as <-.
  unfold registry_ok, running_registered, swept. simpl. split_and!.
  - intros id m Hm. apply map_lookup_filter_Some in Hm as [Hm _]. by eapply Hin.
  - intros id1 id2 m Hm1 Hm2.
    apply map_lookup_filter_Some in Hm1 as [Hm1 _].
    apply map_lookup_filter_Some in Hm2 as [Hm2 _]. by eapply Hinj.
  - intros m mon Hm Hrunning. destruct (Hrr m mon Hm Hrunning) as [id Hid].
    exists id. apply map_lookup_filter_Some. split; [done|]. simpl.
    unfold is_stopped, loc in *. by rewrite Hm.
Qed.

(** ** Recovery, record after record *)

(** X11.  Recovery goes through the records in order and stops at the
    first error: recovering [l1 ++ l2] is recovering [l1] and then, if that
    returned nil, recovering [l2] from where it ended; when [l1] ends with
    an error, [l2] is not looked at. *)
Theorem initFromStore_loop_app (l1 l2 : list KeepaliveRecord) (w : World S) :
  initFromStore_loop (l1 ++ l2) w =
    match initFromStore_loop l1 w with
    | Done None w1 => initFromStore_loop l2 w1
    | Done (Some err) w1 => Done (Some err) w1
    | Panic msg w1 => Panic msg w1
    end.
Proof.
  revert w. induction l1 as [|keepalive l1 IH]; intros w; [done|].
  rewrite <- app_comm_cons, !initFromStore_loop_cons. cbv zeta.
  destruct (store_GetEventByEntityCheck _ _ _ _).1 as [[v|]|err]; [|apply IH|done].
  destruct (Event_Check v) as [check|]; [|done].
  destruct (Check_Status check =? 0); apply IH.
Qed.

(** What recovery has done when it returns, with or without an error. *)
Lemma initFromStore_loop_effect (keepalives : list KeepaliveRecord)
    (w w' : World S) (r : option error) :
  initFromStore_loop keepalives w = Done r w' ->
  exists new,
    mons w' = mons w ++ new
    /\ (length new <= length keepalives)%nat
    /\ Forall (λ mon, 0 <= Monitor_Timeout mon < 2 ^ 63 /\ Monitor_Stopped mon = false) new
    /\ (forall id, id ∉ Record_EntityID <$> keepalives ->
          monitors (kd w') !! id = monitors (kd w) !! id)
    /\ (forall id m, monitors (kd w') !! id = Some m ->
          monitors (kd w) !! id = Some m
          \/ (length (mons w) <= m < length (mons w'))%nat)
    /\ (forall id, is_Some (monitors (kd w) !! id) -> is_Some (monitors (kd w') !! id)).
Proof.
  revert w. induction keepalives as [|keepalive rest IH]; intros w.
  - intros [= <- <-]. exists []. rewrite app_nil_r. split_and!; try done; eauto.
  - rewrite initFromStore_loop_cons. cbv zeta.
    set (id0 := Record_EntityID keepalive).
    assert (Hskip : forall w1, mons w1 = mons w -> kd w1 = kd w ->
              initFromStore_loop rest w1 = Done r w' ->
              exists new,
                mons w' = mons w ++ new
                /\ (length new <= length (keepalive :: rest))%nat
                /\ Forall (λ mon, 0 <= Monitor_Timeout mon < 2 ^ 63
                                  /\ Monitor_Stopped mon = false) new
                /\ (forall id, id ∉ Record_EntityID <$> keepalive :: rest ->
                      monitors (kd w') !! id = monitors (kd w) !! id)
                /\ (forall id m, monitors (kd w') !! id = Some m ->
                      monitors (kd w) !! id = Some m
                      \/ (length (mons w) <= m < length (mons w'))%nat)
                /\ (forall id, is_Some (monitors (kd w) !! id) ->
                      is_Some (monitors (kd w') !! id))).
    { intros w1 Hmons Hkd Hrest.
      destruct (IH w1 Hrest) as (new & Hnew & Hlen & Hall & Hother & Hfrom & Hkeep).
      rewrite Hmons, Hkd in *. exists new. split_and!; try done.
      - simpl. lia.
      - intros id Hid. apply Hother. intros Hin. apply Hid.
        rewrite fmap_cons. apply elem_of_cons. by right. }
    destruct (store_GetEventByEntityCheck _ _ _ _).1 as [[v|]|err].
    + destruct (Event_Check v) as [check|]; [|done].
      destruct (Check_Status check =? 0).
      { apply Hskip; unfold with_decoded; by destruct (Event_Entity v). }
      intros Hrest.
      destruct (IH _ Hrest) as (new & Hnew & Hlen & Hall & Hother & Hfrom & Hkeep).
      simpl in Hnew, Hother, Hfrom, Hkeep.
      eexists (_ :: new). rewrite Hnew, <- app_assoc. split; [reflexivity|].
      split_and!.
      * simpl. lia.
      * apply Forall_cons. split; [|done]. simpl. split; [|done].
        match goal with
        | |- context [wrap64 ?z] => pose proof (wrap64_range z) as Hr
        end.
        unfold int64_range in Hr. destruct (_ <? 0) eqn:Hneg; [lia|].
        apply Z.ltb_ge in Hneg. lia.
      * intros id Hid. rewrite Hother.
        -- apply lookup_insert_ne. intros <-. apply Hid.
           rewrite fmap_cons. apply elem_of_cons. by left.
        -- intros Hin. apply Hid. rewrite fmap_cons. apply elem_of_cons. by right.
      * intros id m Hm. rewrite !length_app. simpl.
        destruct (Hfrom id m Hm) as [Hold|Hnew'].
        -- apply lookup_insert_Some in Hold as [[_ <-]|[_ Hold]]; [right; lia|by left].
        -- right. rewrite Hnew, !length_app in Hnew'. simpl in Hnew'. lia.
      * intros id [m Hm]. apply Hkeep.
        destruct (decide (id0 = id)) as [<-|Hne].
        -- rewrite lookup_insert_eq. eauto.
        -- rewrite lookup_insert_ne by done. eauto.
    + by apply Hskip.
    + intros [= <- <-]. exists []. rewrite app_nil_r. simpl.
      split_and!; try done; eauto. lia.
Qed.

(** X12.  Recovery only ever adds: whether it ends with nil or with an
    error, the monitors there were are all still there and unchanged, no
    entity ID has lost its registry entry, the entries of entity IDs that
    are not among the records are what they were, and at most one monitor
    per record has been created, each running and with a timeout that is not
    negative. *)
Theorem initFromStore_only_adds (keepalives : list KeepaliveRecord)
    (w w' : World S) (r : option error) :
  initFromStore_loop keepalives w = Done r w' ->
  exists new,
    mons w' = mons w ++ new
    /\ (length new <= length keepalives)%nat
    /\ Forall (λ mon, 0 <= Monitor_Timeout mon < 2 ^ 63 /\ Monitor_Stopped mon = false) new
    /\ (forall m mon, mons w !! m = Some mon -> mons w' !! m = Some mon)
    /\ (forall id, id ∉ Record_EntityID <$> keepalives ->
          monitors (kd w') !! id = monitors (kd w) !! id)
    /\ (forall id, is_Some (monitors (kd w) !! id) -> is_Some (monitors (kd w') !! id)).
Proof.
  intros Hrun.
  destruct (initFromStore_loop_effect keepalives w w' r Hrun)
    as (new & Hnew & Hlen & Hall & Hother & _ & Hkeep).
  exists new. split_and!; try done.
  intros m mon Hm. rewrite Hnew. by apply lookup_app_l_Some.
Qed.


(** X14.  A failing record whose deadline has passed gets a monitor of
    timeout zero, which fires at once. *)
Theorem initFromStore_expired_deadline
    (keepalive : KeepaliveRecord) (rest : list KeepaliveRecord)
    (w : World S) (v : EventV) (check : Check) :
  let ctx := mkCtx (Some (Record_Organization keepalive))
                   (Some (Record_Environment keepalive)) in
  let id := Record_EntityID keepalive in
  let get := store_GetEventByEntityCheck ctx id "keepalive" (ext w) in
  let now := time_Now_Unix get.2 in
  get.1 = Ok (Some v) ->
  Event_Check v = Some check ->
  Check_Status check <> 0 ->
  - 2 ^ 63 <= Record_Time keepalive - now.1 <= 0 ->
  exists w1 m mon,
    initFromStore_loop (keepalive :: rest) w = initFromStore_loop rest w1
    /\ monitors (kd w1) !! id = Some m
    /\ mons w1 !! m = Some mon
    /\ Monitor_Timeout mon = 0
    /\ Monitor_Stopped mon = false.
Proof.
  cbv zeta. intros Hget Hcheck Hstatus Hpast.
  destruct (initFromStore_recreates keepalive rest w v check Hget Hcheck Hstatus)
    as (w1 & Hloop & Hreg & Hmons & _).
  exists w1, (length (mons w)). eexists. split; [exact Hloop|]. split; [exact Hreg|].
  rewrite Hmons, list_lookup_middle by done. split; [reflexivity|]. simpl.
  rewrite wrap64_id by (unfold int64_range; lia). split; [lia|done].
Qed.

(** X15.  Recovery enters the new monitor under the record's entity ID in
    place of whatever was there, and does not stop what was there: if the
    registry, sound, had a running monitor under that ID, that monitor is
    afterwards running and in the registry no more. *)
Theorem initFromStore_overwrites_without_stopping
    (keepalive : KeepaliveRecord) (rest : list KeepaliveRecord)
    (w : World S) (v : EventV) (check : Check) (m0 : loc) (mon0 : Monitor) :
  let ctx := mkCtx (Some (Record_Organization keepalive))
                   (Some (Record_Environment keepalive)) in
  let id := Record_EntityID keepalive in
  let get := store_GetEventByEntityCheck ctx id "keepalive" (ext w) in
  get.1 = Ok (Some v) ->
  Event_Check v = Some check ->
  Check_Status check <> 0 ->
  registry_ok w ->
  monitors (kd w) !! id = Some m0 ->
  mons w !! m0 = Some mon0 ->
  Monitor_Stopped mon0 = false ->
  exists w1,
    initFromStore_loop (keepalive :: rest) w = initFromStore_loop rest w1
    /\ mons w1 !! m0 = Some mon0
    /\ (forall id', monitors (kd w1) !! id' <> Some m0)
    /\ ~ running_registered w1.
Proof.
  cbv zeta. intros Hget Hcheck Hstatus [Hin Hinj] Hreg Hmon Hrunning.
  pose proof (initFromStore_loop_cons keepalive rest w) as Hloop. cbv zeta in Hloop.
  rewrite Hget, Hcheck in Hloop. apply Z.eqb_neq in Hstatus. rewrite Hstatus in Hloop.
  eexists. split; [exact Hloop|]. simpl.
  assert (Hlt : (m0 < length (mons w))%nat) by by eapply Hin.
  assert (Hm0 : (mons w ++ [mkMonitor (decoded_entity v w)
                   (if wrap64 (Record_Time keepalive - (time_Now_Unix
                        (store_GetEventByEntityCheck
                           (mkCtx (Some (Record_Organization keepalive))
                              (Some (Record_Environment keepalive)))
                           (Record_EntityID keepalive) "keepalive" (ext w)).2).1) <? 0
                    then 0
                    else wrap64 (Record_Time keepalive - (time_Now_Unix
                        (store_GetEventByEntityCheck
                           (mkCtx (Some (Record_Organization keepalive))
                              (Some (Record_Environment keepalive)))
                           (Record_EntityID keepalive) "keepalive" (ext w)).2).1))
                   false]) !! m0 = Some mon0).
  { by rewrite lookup_app_l. }
  assert (Hgone : forall id', <[Record_EntityID keepalive := length (mons w)]>
                                (monitors (kd w)) !! id' <> Some m0).
  { intros id' Hid'. apply lookup_insert_Some in Hid' as [[_ Heq]|[Hne Hid']]; [lia|].
    apply Hne. by eapply Hinj. }
  split; [exact Hm0|]. split; [exact Hgone|].
  intros Hrr. destruct (Hrr m0 mon0 Hm0 Hrunning) as [id' Hid']. simpl in Hid'.
  by eapply Hgone.
Qed.

Lemma registry_ok_install (w w2 : World S) (id : string) (new : Monitor) :
  registry_ok w ->
  mons w2 = mons w ++ [new] ->
  monitors (kd w2) = <[id := length (mons w)]> (monitors (kd w)) ->
  registry_ok w2.
Proof.
  intros [Hin Hinj] Hmons Hreg. unfold registry_ok. rewrite Hmons, Hreg. split.
  - intros id' m Hm. rewrite length_app. simpl.
    apply lookup_insert_Some in Hm as [[_ <-]|[_ Hm]]; [lia|].
    apply Hin in Hm. lia.
  - intros id1 id2 m Hm1 Hm2.
    apply lookup_insert_Some in Hm1 as [[<- <-]|[Hne1 Hm1]];
      apply lookup_insert_Some in Hm2 as [[<- Heq]|[Hne2 Hm2]]; try done.
    + apply Hin in Hm2. lia.
    + apply Hin in Hm1. lia.
    + by eapply Hinj.
Qed.

Lemma initFromStore_loop_keeps_registry_ok (keepalives : list KeepaliveRecord)
    (w w' : World S) (r : option error) :
  registry_ok w ->
  initFromStore_loop keepalives w = Done r w' ->
  registry_ok w'.
Proof.
  revert w. induction keepalives as [|keepalive rest IH]; intros w Hok.
  - by intros [= <- <-].
  - rewrite initFromStore_loop_cons. cbv zeta.
    destruct (store_GetEventByEntityCheck _ _ _ _).1 as [[v|]|err].
    + destruct (Event_Check v) as [check|]; [|done].
      destruct (Check_Status check =? 0).
      * apply IH. unfold with_decoded. by destruct (Event_Entity v).
      * apply IH. by eapply (registry_ok_install w).
    + by apply IH.
    + by intros [= <- <-].
Qed.

(** X16.  Recovery keeps the registry sound, whether it ends with nil or
    with an error: entries point at monitors that exist and no monitor is
    entered under two entity IDs. *)
Theorem initFromStore_keeps_registry_ok (w w' : World S) (r : option error) :
  registry_ok w ->
  initFromStore w = Done r w' ->
  registry_ok w'.
Proof.
  intros Hok. unfold initFromStore, GetFailingKeepalives.
  unfold mbind at 1, M_bind at 1, call at 1.
  destruct (store_GetFailingKeepalives _ _).1 as [keepalives|err].
  - by apply initFromStore_loop_keeps_registry_ok.
  - by intros [= <- <-].
Qed.

(** ** Start and Stop *)

(** X17.  When [Start] returns nil it has, in this order, subscribed to the
    keepalive topic under the name "keepalived", recovered from the store
    without error, and started as many workers as the handler count says
    and then one sweeper; the WaitGroup counter is the handler count, which
    is then not negative, and the subscription is the one the bus gave. *)
Theorem Start_success_launches (w w' : World S) :
  Start w = Done None w' ->
  let sub := bus_Subscribe TopicKeepalive "keepalived" (ext w) in
  let n := handlerCount (kd w) in
  exists s w2 acts,
    sub.1 = Ok s
    /\ initFromStore (subscribed w s sub.2) = Done None w2
    /\ subscription (kd w') = Some s
    /\ 0 <= n
    /\ wg (kd w') = Some n
    /\ monitors (kd w') = monitors (kd w2) /\ mons w' = mons w2
    /\ Forall (λ a, is_go a = false) acts
    /\ added w w' = ASubscribe TopicKeepalive "keepalived" :: acts
                      ++ replicate (Z.to_nat n) (AGo TaskWorker) ++ [AGo TaskSweeper].
Proof.
  cbv zeta. unfold Start, startMonitorSweeper, go.
  unfold mbind at 1, M_bind at 1, call at 1.
  destruct (bus_Subscribe _ _ _).1 as [s|err] eqn:Hsub; [|done].
  unfold mbind at 1, M_bind at 1, modifyK at 1.
  unfold mbind at 1, M_bind at 1. cbn [ext trace ents mons kd].
  fold (subscribed w s (bus_Subscribe TopicKeepalive "keepalived" (ext w)).2).
  destruct (initFromStore _) as [[err|] w2|] eqn:Hinit; [| |done].
  { unfold Cancel. unfold_monad. destruct (subscription (kd w2)); [|done]. simpl.
    by destruct (sub_Cancel _ _).1. }
  destruct (preserves_initFromStore _ _ _ Hinit) as (Hkd & acts & Htrace & Hgo).
  simpl in Hkd, Htrace.
  unfold mbind at 1, M_bind at 1. rewrite startWorkers_run. cbv zeta.
  assert (Hn : handlerCount (kd w2) = handlerCount (kd w)) by (by rewrite Hkd).
  rewrite Hn. destruct (Z.ltb_spec (0 + handlerCount (kd w)) 0); [done|].
  unfold_monad. intros [= <-]. simpl.
  exists s, w2, acts. split_and!; try done; try lia.
  - by rewrite Hkd.
  - apply added_app. simpl. rewrite Htrace, <- !app_assoc. done.
Qed.

(** [Stop], on a daemon whose keepalive channel is closed already. *)
Lemma Stop_closed (w : World S) (s : Subscription) :
  subscription (kd w) = Some s ->
  Chan_closed (keepaliveChan (kd w)) = true ->
  Stop w = Panic "close of closed channel"
             (advance w (sub_Cancel s (ext w)).2 [ACancel s]).
Proof.
  intros Hsub Hclosed. unfold Stop, Cancel, close.
  unfold mbind, M_bind, mret, M_ret, call, emit, getK, modifyK, panic; simpl.
  rewrite Hsub; simpl. by rewrite Hclosed.
Qed.

(** X18.  [Stop] cannot be repeated: on a daemon that [Stop] has shut down,
    a second [Stop] cancels the subscription once more and then panics,
    closing the keepalive channel that is closed already. *)
Theorem Stop_again_panics (w w' : World S) (r : option error) :
  Started w ->
  Stop w = Done r w' ->
  exists s,
    subscription (kd w') = Some s
    /\ Stop w' = Panic "close of closed channel"
                   (advance w' (sub_Cancel s (ext w')).2 [ACancel s]).
Proof.
  intros Hstarted Hstop.
  destruct (Started_running w Hstarted) as ([s Hsub] & Hwg & Hkc & Hec).
  rewrite (Stop_run w s Hsub Hwg Hkc Hec) in Hstop. injection Hstop as <- <-.
  exists s. split; [done|]. by apply Stop_closed.
Qed.

(** ** What the daemon never does *)

Section Emits.
Variable ok : Action -> bool.

Lemma emits_ret {A} (a : A) : emits ok (mret a : M A).
Proof. intros w a' w' [= <- <-]. exists []. by rewrite app_nil_r. Qed.

Lemma emits_bind {A B} (c : M A) (k : A -> M B) :
  emits ok c -> (forall a, emits ok (k a)) -> emits ok (c ≫= k).
Proof.
  intros Hc Hk w b w'. unfold mbind, M_bind.
  destruct (c w) as [a w1|] eqn:Hcw; [|done].
  intros Hkw. destruct (Hc _ _ _ Hcw) as (acts1 & Ht1 & Hok1).
  destruct (Hk _ _ _ _ Hkw) as (acts2 & Ht2 & Hok2).
  exists (acts1 ++ acts2). rewrite Ht2, Ht1, app_assoc. split; [done|].
  by apply Forall_app.
Qed.

Lemma emits_panic {A} msg : emits ok (panic msg : M A).
Proof. intros w a w'. done. Qed.

Lemma emits_emit (a : Action) : ok a = true -> emits ok (emit a).
Proof.
  intros Ha w r w' [= <- <-]. exists [a]. split; [done|]. by apply Forall_singleton.
Qed.

Lemma emits_call {A} (a : Action) (f : S -> A * S) : ok a = true -> emits ok (call a f).
Proof.
  intros Ha w r w' [= <- <-]. exists [a]. split; [done|]. by apply Forall_singleton.
Qed.

Lemma emits_Now_Unix : (forall t, ok (ANow t) = true) -> emits ok Now_Unix.
Proof.
  intros Ha w r w' [= <- <-]. eexists [_]. split; [done|]. by apply Forall_singleton.
Qed.

Lemma emits_silent {A} (c : M A) :
  (forall w a w', c w = Done a w' -> trace w' = trace w) -> emits ok c.
Proof.
  intros Hc w a w' Hrun. exists []. rewrite app_nil_r. split; [by eapply Hc|done].
Qed.

Lemma emits_forM_ {A} (f : A -> M unit) (l : list A) :
  (forall x, emits ok (f x)) -> emits ok (forM_ f l).
Proof.
  intros Hf. induction l as [|x l IH]; simpl.
  - apply emits_ret.
  - apply emits_bind; [apply Hf|]. intros _. apply IH.
Qed.

Lemma emits_load_entity p : emits ok (load_entity p).
Proof.
  apply emits_silent. unfold load_entity. intros w a w' Hrun.
  destruct p as [l|]; [|done]. destruct (ents w !! l); by simplify_eq.
Qed.

Lemma emits_snapshot ev : emits ok (snapshot ev).
Proof.
  apply emits_silent. unfold snapshot. intros w a w' Hrun.
  destruct (Event_Entity ev) as [l|]; [|by simplify_eq].
  destruct (ents w !! l); by simplify_eq.
Qed.

Lemma emits_load_monitor m : emits ok (load_monitor m).
Proof.
  apply emits_silent. unfold load_monitor. intros w a w' Hrun.
  destruct (mons w !! m); by simplify_eq.
Qed.

Lemma emits_getK : emits ok getK.
Proof. apply emits_silent. by intros w a w' [= <- <-]. Qed.

Lemma emits_modifyK f : emits ok (modifyK f).
Proof. apply emits_silent. by intros w a w' [= <- <-]. Qed.

Lemma emits_store_entity l e : emits ok (store_entity l e).
Proof. apply emits_silent. by intros w a w' [= <- <-]. Qed.

Lemma emits_new_entity e : emits ok (new_entity e).
Proof. apply emits_silent. by intros w a w' [= <- <-]. Qed.

Lemma emits_monitorFactory entity t : emits ok (monitorFactory entity t).
Proof. apply emits_silent. by intros w a w' [= <- <-]. Qed.

Lemma emits_store_monitor m mon : emits ok (store_monitor m mon).
Proof. apply emits_silent. by intros w a w' [= <- <-]. Qed.

End Emits.

Create HintDb emits.
#[local] Hint Resolve emits_ret emits_panic emits_load_entity emits_snapshot
  emits_load_monitor emits_getK emits_modifyK emits_store_entity emits_new_entity
  emits_monitorFactory emits_store_monitor : emits.
#[local] Hint Extern 1 (emits _ (emit _)) => apply emits_emit; reflexivity : emits.
#[local] Hint Extern 1 (emits _ (log _)) => apply emits_emit; reflexivity : emits.
#[local] Hint Extern 1 (emits _ (go _)) => apply emits_emit; reflexivity : emits.
#[local] Hint Extern 1 (emits _ (call _ _)) => apply emits_call; reflexivity : emits.
#[local] Hint Extern 1 (emits _ Now_Unix) => apply emits_Now_Unix; reflexivity : emits.

(** Takes a program apart as [quiet] does, for [emits]. *)
Ltac emits_step :=
  lazymatch goal with
  | |- emits _ (_ ≫= _) => apply emits_bind; [|intros ?]
  | |- emits _ (forM_ _ _) => apply emits_forM_; intros ?
  | |- emits _ (match ?x with _ => _ end) => destruct x
  | |- emits _ (if ?x then _ else _) => destruct x
  | |- _ => solve [eauto with emits]
  end.

Ltac emits_unfold :=
  unfold HandleUpdate, HandleFailure, handleEntityRegistration, syncMonitor,
    processKeepalive, processKeepalives, sweep, Start, Stop, Cancel, close,
    startWorkers, startMonitorSweeper, initFromStore, wg_Add, wg_Done, wg_Wait,
    Monitor_HandleUpdate, Monitor_IsStopped, Monitor_GetTimeout, Monitor_Stop,
    set_registry, Publish, GetEntityByID, UpdateEntity, DeleteFailingKeepalive,
    UpdateFailingKeepalive, GetFailingKeepalives, GetEventByEntityCheck, Deregister,
    createKeepaliveEvent, createRegistrationEvent, set_Check_Status.

Ltac emits_all := repeat (emits_unfold; emits_step).

Lemma emits_initFromStore_loop ok keepalives :
  (forall ctx id check, ok (AGetEventByEntityCheck ctx id check) = true) ->
  (forall t, ok (ANow t) = true) ->
  emits ok (initFromStore_loop keepalives).
Proof.
  intros Hget Hnow. induction keepalives as [|keepalive rest IH]; simpl.
  - apply emits_ret.
  - unfold GetEventByEntityCheck, set_registry.
    apply emits_bind.
    { apply emits_bind; [by apply emits_call|]. intros ?. repeat emits_step. }
    intros [[event|]|err]; [|exact IH|apply emits_ret].
    destruct (Event_Check event); [|apply emits_panic].
    destruct (_ =? 0); [exact IH|].
    apply emits_bind; [by apply emits_Now_Unix|]. intros ?.
    apply emits_bind; [apply emits_monitorFactory|]. intros ?.
    apply emits_bind; [apply emits_modifyK|]. intros _. exact IH.
Qed.

(** X24.  The daemon never publishes on the keepalive topic, the one it
    consumes: not when it starts or stops, not in a worker, not in a
    monitor callback, not in the sweeper. *)
Theorem never_publishes_on_keepalive_topic :
  emits not_on_keepalive_topic Start
  /\ emits not_on_keepalive_topic Stop
  /\ (forall msgs, emits not_on_keepalive_topic (processKeepalives msgs))
  /\ (forall e, emits not_on_keepalive_topic (HandleUpdate e))
  /\ (forall entity ev, emits not_on_keepalive_topic (HandleFailure entity ev))
  /\ emits not_on_keepalive_topic sweep.
Proof.
  assert (Hinit : emits not_on_keepalive_topic initFromStore).
  { unfold initFromStore, GetFailingKeepalives.
    apply emits_bind; [by apply emits_call|].
    intros [keepalives|err]; [|apply emits_ret].
    by apply emits_initFromStore_loop. }
  split_and!.
  - unfold Start. apply emits_bind; [by apply emits_call|].
    intros [sub|err]; [|apply emits_ret].
    apply emits_bind; [apply emits_modifyK|]. intros _.
    apply emits_bind; [exact Hinit|]. intros [err|]; emits_all.
  - emits_all.
  - intros msgs. emits_all.
  - intros e. emits_all.
  - intros entity ev. emits_all.
  - unfold sweep. apply emits_bind; [apply emits_getK|]. intros k.
    apply emits_forM_. intros [key m]. emits_all.
Qed.

(** X25.  A worker only ever looks entities up, reads the clock, publishes
    on the event and raw-events topics, deletes failing-keepalive records,
    updates entities and logs.  It never writes a failing-keepalive record,
    never deregisters an entity, never lists or recovers failing keepalives,
    and leaves subscription, channels and goroutines alone. *)
Theorem worker_actions (msgs : list Msg) (w w' : World S) :
  processKeepalives msgs w = Done tt w' ->
  Forall (λ a, worker_action a = true) (added w w')
  /\ (forall ctx e t, AUpdateFailingKeepalive ctx e t ∉ added w w')
  /\ (forall e, ADeregister e ∉ added w w').
Proof.
  intros Hrun.
  assert (Hemits : emits worker_action (processKeepalives msgs)) by emits_all.
  destruct (Hemits _ _ _ Hrun) as (acts & Htrace & Hok).
  rewrite (added_app w w' acts Htrace). split; [exact Hok|].
  rewrite Forall_forall in Hok. split.
  - intros ctx e t Hin. by apply Hok in Hin.
  - intros e Hin. by apply Hok in Hin.
Qed.

(** X26.  Recovery only reads: it lists the failing keepalives, looks
    keepalive events up and reads the clock.  It publishes nothing, writes
    nothing to the store and logs nothing, whether it ends with nil or with
    an error. *)
Theorem recovery_only_reads (w w' : World S) (r : option error) :
  initFromStore w = Done r w' ->
  Forall (λ a, recovery_action a = true) (added w w')
  /\ (forall topic v, APublish topic v ∉ added w w')
  /\ (forall ctx e, AUpdateEntity ctx e ∉ added w w')
  /\ (forall ctx e, ADeleteFailingKeepalive ctx e ∉ added w w')
  /\ (forall ctx e t, AUpdateFailingKeepalive ctx e t ∉ added w w').
Proof.
  intros Hrun.
  assert (Hemits : emits recovery_action initFromStore).
  { unfold initFromStore, GetFailingKeepalives.
    apply emits_bind; [by apply emits_call|].
    intros [keepalives|err]; [|apply emits_ret].
    by apply emits_initFromStore_loop. }
  destruct (Hemits _ _ _ Hrun) as (acts & Htrace & Hok).
  rewrite (added_app w w' acts Htrace). split; [exact Hok|].
  rewrite Forall_forall in Hok.
  split_and!; intros; intros Hin; by apply Hok in Hin.
Qed.

(** X27.  The monitor callbacks leave the registry and the monitors alone.
    [HandleFailure] changes nothing in the daemon's memory: after a timeout,
    and after a deregistration too, the entity's monitor is in the registry
    as before, neither removed nor stopped by the daemon.  [HandleUpdate]
    changes no entity but the one of its event. *)
Theorem callbacks_leave_registry :
  (forall entity ev (w w' : World S) r,
     HandleFailure entity ev w = Done r w' ->
     ents w' = ents w /\ mons w' = mons w /\ kd w' = kd w)
  /\ (forall e (w w' : World S) r,
        HandleUpdate e w = Done r w' ->
        mons w' = mons w /\ kd w' = kd w
        /\ forall l', Event_Entity e <> Some l' -> ents w' !! l' = ents w !! l').
Proof.
  split.
  - intros [l|] ev w w' r; [|done].
    destruct (ents w !! l) as [ent|] eqn:Hl.
    2:{ unfold HandleFailure. unfold_monad. by rewrite Hl. }
    rewrite (HandleFailure_run l ent ev w Hl). cbv zeta.
    destruct (Entity_Deregister ent); [by intros [= <- <-]|].
    destruct (bus_Publish _ _ _).1; by intros [= <- <-].
  - intros e w w' r.
    destruct (Event_Entity e) as [l|] eqn:He.
    2:{ unfold HandleUpdate. rewrite He. done. }
    destruct (ents w !! l) as [ent|] eqn:Hl.
    2:{ unfold HandleUpdate. rewrite He. unfold_monad. by rewrite Hl. }
    intros Hrun.
    destruct (HandleUpdate_outcome e l ent w He Hl)
      as (r0 & w0 & acts & Hrun' & Hmons & Hkd & Hents & _).
    rewrite Hrun in Hrun'. injection Hrun' as <- <-.
    split; [done|]. split; [done|].
    intros l' Hne. destruct Hents as [->| ->]; [done|].
    apply list_lookup_insert_ne. congruence.
Qed.

End Properties.

(** * Properties of package types *)

Section EnvironmentProperties.
Variable ValidateName : string -> option error.

(** X19.  An environment validates exactly when its name passes
    [ValidateName] and its organization is not empty.  The name is checked
    first: an invalid name is reported, with the prefix "environment name ",
    whatever the organization is. *)
Theorem Environment_Validate_spec (e : Types.Environment) :
  (Types.Validate ValidateName e = None
   <-> ValidateName (Types.Environment_Name e) = None
       /\ Types.Environment_Organization e <> "")
  /\ (forall err, ValidateName (Types.Environment_Name e) = Some err ->
        Types.Validate ValidateName e = Some ("environment name " +:+ err))
  /\ (ValidateName (Types.Environment_Name e) = None ->
      Types.Environment_Organization e = "" ->
      Types.Validate ValidateName e = Some "environment organization must be set").
Proof.
  unfold Types.Validate. destruct e as [name org]. simpl.
  destruct (ValidateName name) as [err|].
  - split_and!; [|by intros ? [= ->]|done]. split; [done|]. by intros [? _].
  - destruct org as [|c org]; simpl.
    + split_and!; try done. split; [done|]. by intros [_ ?].
    + split_and!; try done.
Qed.

(** X20.  The fixture environment belongs to the organization "default"
    and carries the name it was given; it validates exactly when that name
    does. *)
Theorem FixtureEnvironment_spec (name : string) :
  Types.GetOrg (Types.FixtureEnvironment name) = "default"
  /\ Types.GetEnv (Types.FixtureEnvironment name) = name
  /\ (Types.Validate ValidateName (Types.FixtureEnvironment name) = None
      <-> ValidateName name = None).
Proof.
  split; [done|]. split; [done|].
  unfold Types.Validate, Types.FixtureEnvironment. simpl.
  destruct (ValidateName name); done.
Qed.

End EnvironmentProperties.

(** * Properties of the command that lists silenced entries *)

Ltac not_called :=
  let Hin := fresh "Hin" in
  intros ? ? Hin; rewrite ?elem_of_cons, ?elem_of_nil in Hin;
  repeat (destruct Hin as [Hin|Hin]; [discriminate Hin|]); destruct Hin.

Section SilencedListProperties.
Variable AllOrgs : string.
Variable Duration_String : Duration -> string.
Variable BooleanStyleP : bool -> string.
Variable R : Type.

(** X21.  The command succeeds exactly when the three flags can be read
    and the client answers; it has then called the client once and printed,
    once and afterwards, what the client returned, in the configured
    format. *)
Theorem RunE_success (Organization Format : string) (flg : SilencedList.FlagSet)
    (ListSilenceds : string -> string -> string -> result R) :
  (SilencedList.RunE AllOrgs R Organization Format flg ListSilenceds).2 = None
  <-> exists all sub check results,
        SilencedList.GetBool flg AllOrgs = Ok all
        /\ SilencedList.GetString flg "subscription" = Ok sub
        /\ SilencedList.GetString flg "check" = Ok check
        /\ ListSilenceds (if all then "*" else Organization) sub check = Ok results
        /\ (SilencedList.RunE AllOrgs R Organization Format flg ListSilenceds).1
           = [SilencedList.CallListSilenceds (if all then "*" else Organization) sub check;
              SilencedList.CallPrint Format results].
Proof.
  unfold SilencedList.RunE.
  destruct (SilencedList.GetBool flg AllOrgs) as [all|err]; simpl.
  2:{ split; [done|]. by intros (? & ? & ? & ? & ? & _). }
  destruct (SilencedList.GetString flg "subscription") as [sub|err]; simpl.
  2:{ split; [done|]. by intros (? & ? & ? & ? & _ & ? & _). }
  destruct (SilencedList.GetString flg "check") as [check|err]; simpl.
  2:{ split; [done|]. by intros (? & ? & ? & ? & _ & _ & ? & _). }
  destruct (ListSilenceds _ sub check) as [results|err] eqn:Hlist; simpl.
  - split; [|done]. intros _. exists all, sub, check, results. done.
  - split; [done|]. intros (? & ? & ? & ? & ? & ? & ? & Hlist' & _). simplify_eq.
    congruence.
Qed.

(** X22.  When the command fails it prints nothing, and it calls the
    client only if all three flags could be read; the flags are read in the
    order all-organizations, subscription, check, and the first error is the
    one returned. *)
Theorem RunE_failure (Organization Format : string) (flg : SilencedList.FlagSet)
    (ListSilenceds : string -> string -> string -> result R) (err : error) :
  (SilencedList.RunE AllOrgs R Organization Format flg ListSilenceds).2 = Some err ->
  (forall format results,
     SilencedList.CallPrint format results
     ∉ (SilencedList.RunE AllOrgs R Organization Format flg ListSilenceds).1)
  /\ (SilencedList.GetBool flg AllOrgs = Err err
      /\ (SilencedList.RunE AllOrgs R Organization Format flg ListSilenceds).1 = []
      \/ (exists all,
            SilencedList.GetBool flg AllOrgs = Ok all
            /\ (SilencedList.GetString flg "subscription" = Err err
                /\ (SilencedList.RunE AllOrgs R Organization Format flg ListSilenceds).1 = []
                \/ exists sub,
                     SilencedList.GetString flg "subscription" = Ok sub
                     /\ (SilencedList.GetString flg "check" = Err err
                         /\ (SilencedList.RunE AllOrgs R Organization Format flg
                               ListSilenceds).1 = []
                         \/ exists check,
                              SilencedList.GetString flg "check" = Ok check
                              /\ ListSilenceds (if all then "*" else Organization) sub check
                                 = Err err)))).
Proof using AllOrgs R.
  unfold SilencedList.RunE.
  destruct (SilencedList.GetBool flg AllOrgs) as [all|err0]; simpl.
  2:{ intros [= ->]. split; [not_called|]. by left. }
  destruct (SilencedList.GetString flg "subscription") as [sub|err0]; simpl.
  2:{ intros [= ->]. split; [not_called|]. right. exists all. split; [done|]. by left. }
  destruct (SilencedList.GetString flg "check") as [check|err0]; simpl.
  2:{ intros [= ->]. split; [not_called|]. right. exists all. split; [done|].
      right. exists sub. split; [done|]. by left. }
  destruct (ListSilenceds _ sub check) as [results|err0] eqn:Hlist; simpl; [done|].
  intros [= ->]. split; [not_called|]. right. exists all. split; [done|].
  right. exists sub. split; [done|]. right. exists check. done.
Qed.

(** X23.  The Expire cell shows the duration of so many seconds as long
    as the number of seconds, an [int64], is at most 9223372036 in absolute
    value (some 292 years), and only then: beyond that the product with
    [time.Second] wraps around and another duration is shown. *)
Theorem Expire_cell_wraps (s : SilencedList.Silenced) :
  int64_range (SilencedList.Silenced_Expire s) ->
  let expire := SilencedList.Silenced_Expire s in
  (exists cell,
     SilencedList.columns Duration_String BooleanStyleP !! 1%nat = Some ("Expire", cell)
     /\ cell (SilencedList.DataSilenced s) = Duration_String (wrap64 (expire * Second)))
  /\ (wrap64 (expire * Second) = expire * Second
      <-> - 9223372036 <= expire <= 9223372036).
Proof.
  intros Hrange. cbv zeta. split; [eexists; split; reflexivity|]. split.
  - intros Heq. pose proof (wrap64_range (SilencedList.Silenced_Expire s * Second)) as Hr.
    rewrite Heq in Hr. unfold int64_range, Second in Hr. lia.
  - intros Hbound. apply wrap64_id. unfold int64_range, Second. lia.
Qed.

End SilencedListProperties.

(** * The in-memory collaborators: scenarios *)

(** C2.  Restart recovery at time 1000 of a failing record with deadline
    1005: the monitor put into the registry has the timeout
    [time.Duration(1005 - 1000)], which is 5 nanoseconds and not the 5
    seconds that remain until the deadline. *)
Theorem initFromStore_timeout_in_nanoseconds :
  exists w' m mon,
    initFromStore Mock.w_recovery = Done None w'
    /\ monitors (kd w') !! "a1" = Some m
    /\ mons w' !! m = Some mon
    /\ Monitor_Timeout mon = 5 * Nanosecond
    /\ Monitor_Timeout mon <> Z.max 0 (1005 - 1000) * Second.
Proof.
  eexists _, 0%nat, _. split; [vm_compute; reflexivity|].
  split; [vm_compute; reflexivity|]. split; [reflexivity|].
  split; [reflexivity|]. vm_compute. discriminate.
Qed.

(** The first keepalive of a new agent: a registration event on the event
    topic, a monitor of 30 seconds, then a keepalive event of status 0 on the
    raw-events topic. *)
Example first_keepalive_of_new_agent :
  exists w',
    processKeepalive (MsgEvent (Some (Mock.keepalive_of 1000 0%nat))) Mock.w_a1 = Done tt w'
    /\ omap (λ a, match a with
                  | APublish topic ev =>
                      Some (topic, Check_Name <$> Event_Check ev,
                            Check_Status <$> Event_Check ev)
                  | _ => None
                  end) (trace w')
       = [(TopicEvent, Some "registration", Some 1);
          (TopicEventRaw, Some "keepalive", Some 0)]
    /\ monitors (kd w') !! "a1" = Some 0%nat
    /\ mons w' = [mkMonitor (Some 0%nat) (30 * Second) false].
Proof. eexists. split; [vm_compute; reflexivity|]. by vm_compute. Qed.

(** When the bus refuses the keepalive event, [HandleFailure] returns the
    error of the bus and the store is not told of the failure. *)
Example HandleFailure_publish_error :
  exists w',
    HandleFailure (Some 0%nat) None Mock.w_publish_fails = Done (Some "bus unavailable") w'
    /\ Mock.failing (ext w') = [].
Proof. eexists. split; [vm_compute; reflexivity|]. reflexivity. Qed.

(** Restart recovery skips the entity whose keepalive event is passing. *)
Example recovery_skips_healthy :
  exists w',
    initFromStore Mock.w_recovery = Done None w'
    /\ dom (monitors (kd w')) = {[ "a1" ]}.
Proof. eexists. split; [vm_compute; reflexivity|]. by vm_compute. Qed.

(** [Stop] is for a running daemon: before [Start] there is no
    subscription to cancel, and after a first [Stop] the keepalive channel
    is closed already. *)
Example Stop_before_Start_panics :
  Stop Mock.w_recovery = Panic "nil pointer dereference" Mock.w_recovery.
Proof. reflexivity. Qed.

Example Stop_twice_panics :
  exists w', Stop (Mock.world_of (Stop Mock.w_started))
             = Panic "close of closed channel" w'.
Proof. eexists. vm_compute. reflexivity. Qed.

Lemma HandleFailure_deregisters_witness :
  ents Mock.w_a2 !! 0%nat = Some Mock.a2
  /\ Entity_Deregister Mock.a2 = true
  /\ exists w', HandleFailure (Some 0%nat) None Mock.w_a2 = Done None w'
                /\ added Mock.w_a2 w' = [ADeregister Mock.a2].
Proof.
  split; [reflexivity|]. split; [reflexivity|].
  destruct (HandleFailure_deregisters 0%nat Mock.a2 None Mock.w_a2 eq_refl eq_refl)
    as (w' & Hrun & Hw' & _).
  exists w'. split; [exact Hrun|]. rewrite Hw'. reflexivity.
Defined.

Lemma HandleUpdate_marks_healthy_witness :
  Event_Entity (Mock.keepalive_of 1000 0%nat) = Some 0%nat
  /\ ents Mock.w_a1 !! 0%nat = Some Mock.a1
  /\ exists r w', HandleUpdate (Mock.keepalive_of 1000 0%nat) Mock.w_a1 = Done r w'
                  /\ mons w' = mons Mock.w_a1.
Proof.
  split; [reflexivity|]. split; [reflexivity|].
  destruct (HandleUpdate_marks_healthy (Mock.keepalive_of 1000 0%nat) 0%nat Mock.a1
              Mock.w_a1 eq_refl eq_refl) as (r & w' & Hrun & Hmons & _).
  exists r, w'. split; [exact Hrun|exact Hmons].
Defined.

Lemma HandleUpdate_delete_error_witness :
  Event_Entity (Mock.keepalive_of 1000 0%nat) = Some 0%nat
  /\ ents Mock.w_delete_fails !! 0%nat = Some Mock.a1
  /\ (store_DeleteFailingKeepalive (SetContextFromResource Mock.a1) Mock.a1
        (ext Mock.w_delete_fails)).1 = Some "store unavailable"
  /\ exists w', HandleUpdate (Mock.keepalive_of 1000 0%nat) Mock.w_delete_fails
                = Done (Some "store unavailable") w'
                /\ ents w' = ents Mock.w_delete_fails.
Proof.
  assert (Hdel : (store_DeleteFailingKeepalive (SetContextFromResource Mock.a1) Mock.a1
                    (ext Mock.w_delete_fails)).1 = Some "store unavailable")
    by reflexivity.
  split; [reflexivity|]. split; [reflexivity|]. split; [exact Hdel|].
  destruct (HandleUpdate_delete_error (Mock.keepalive_of 1000 0%nat) 0%nat Mock.a1
              Mock.w_delete_fails "store unavailable" eq_refl eq_refl Hdel)
    as (w' & Hrun & Hents & _).
  exists w'. split; [exact Hrun|exact Hents].
Defined.

Lemma HandleFailure_publishes_then_records_witness :
  ents Mock.w_a1 !! 0%nat = Some Mock.a1
  /\ Entity_Deregister Mock.a1 = false
  /\ int64_range (1001 + 30)
  /\ exists r w', HandleFailure (Some 0%nat) None Mock.w_a1 = Done r w'
                  /\ kd w' = kd Mock.w_a1.
Proof.
  assert (Hrange : int64_range (1001 + 30)) by (unfold int64_range; lia).
  split; [reflexivity|]. split; [reflexivity|]. split; [exact Hrange|].
  pose proof (HandleFailure_publishes_then_records 0%nat Mock.a1 None Mock.w_a1
                eq_refl eq_refl) as Hpost.
  cbv zeta in Hpost.
  match type of Hpost with
  | ?P -> _ => assert (Hrange' : P) by exact Hrange; specialize (Hpost Hrange')
  end.
  destruct Hpost as (r & w' & Hrun & _ & _ & Hkd & _).
  exists r, w'. split; [exact Hrun|exact Hkd].
Defined.

Lemma processKeepalive_timeout_convergence_witness :
  Event_Entity (Mock.keepalive_of 1000 1%nat) = Some 1%nat
  /\ ents Mock.w_timeout_change !! 1%nat = Some Mock.a1_60
  /\ Entity_Validate Mock.a1_60 = None
  /\ uint32_range (Entity_KeepaliveTimeout Mock.a1_60)
  /\ (forall m0, monitors (kd Mock.w_timeout_change) !! "a1" = Some m0 ->
        is_Some (mons Mock.w_timeout_change !! m0))
  /\ exists w' m,
       processKeepalive (MsgEvent (Some (Mock.keepalive_of 1000 1%nat))) Mock.w_timeout_change
       = Done tt w'
       /\ monitors (kd w') !! "a1" = Some m.
Proof.
  assert (Hrange : uint32_range (Entity_KeepaliveTimeout Mock.a1_60))
    by (unfold uint32_range; simpl; lia).
  assert (Hwf : forall m0, monitors (kd Mock.w_timeout_change) !! "a1" = Some m0 ->
                  is_Some (mons Mock.w_timeout_change !! m0)).
  { intros m0 Hm0. vm_compute in Hm0. injection Hm0 as <-. eexists. reflexivity. }
  assert (Hvalid : Entity_Validate Mock.a1_60 = None) by reflexivity.
  split; [reflexivity|]. split; [reflexivity|]. split; [exact Hvalid|].
  split; [exact Hrange|]. split; [exact Hwf|].
  destruct (processKeepalive_timeout_convergence (Mock.keepalive_of 1000 1%nat) 1%nat
              Mock.a1_60 Mock.w_timeout_change eq_refl eq_refl Hvalid Hrange Hwf)
    as (w' & m & Hrun & Hreg & _).
  exists w', m. split; [exact Hrun|exact Hreg].
Defined.

Lemma registration_side_effect_witness :
  Event_Entity (Mock.keepalive_of 1000 0%nat) = Some 0%nat
  /\ ents Mock.w_a1 !! 0%nat = Some Mock.a1
  /\ Entity_Validate Mock.a1 = None
  /\ (forall m0, monitors (kd Mock.w_a1) !! "a1" = Some m0 -> is_Some (mons Mock.w_a1 !! m0))
  /\ exists r w1, handleEntityRegistration (Some 0%nat) Mock.w_a1 = Done r w1.
Proof.
  assert (Hwf : forall m0, monitors (kd Mock.w_a1) !! "a1" = Some m0 ->
                  is_Some (mons Mock.w_a1 !! m0)).
  { intros m0 Hm0. vm_compute in Hm0. discriminate Hm0. }
  assert (Hvalid : Entity_Validate Mock.a1 = None) by reflexivity.
  split; [reflexivity|]. split; [reflexivity|]. split; [exact Hvalid|].
  split; [exact Hwf|].
  destruct (registration_side_effect (Mock.keepalive_of 1000 0%nat) 0%nat Mock.a1
              Mock.w_a1 eq_refl eq_refl Hvalid Hwf) as (r & w1 & Hrun & _).
  exists r, w1. exact Hrun.
Defined.

Lemma initFromStore_skips_witness :
  (exists v check,
     (store_GetEventByEntityCheck (mkCtx (Some "o") (Some "e")) "a2" "keepalive"
        (ext Mock.w_recovery)).1 = Ok (Some v)
     /\ Event_Check v = Some check /\ Check_Status check = 0)
  /\ exists w1, initFromStore_loop [Mock.record_a2] Mock.w_recovery = initFromStore_loop [] w1
                /\ kd w1 = kd Mock.w_recovery.
Proof.
  assert (Hskip : exists v check,
     (store_GetEventByEntityCheck (mkCtx (Some "o") (Some "e")) "a2" "keepalive"
        (ext Mock.w_recovery)).1 = Ok (Some v)
     /\ Event_Check v = Some check /\ Check_Status check = 0).
  { eexists _, _. split; [vm_compute; reflexivity|]. split; reflexivity. }
  split; [exact Hskip|].
  destruct (initFromStore_skips Mock.record_a2 [] Mock.w_recovery (or_intror Hskip))
    as (w1 & Hrun & Hkd & _).
  exists w1. split; [exact Hrun|exact Hkd].
Defined.

Lemma Start_failure_unwinds_witness :
  (bus_Subscribe TopicKeepalive "keepalived" (ext Mock.w_recovery_fails)).1 = Ok 1%nat
  /\ exists w2 w3,
       initFromStore
         (subscribed Mock.w_recovery_fails 1%nat
            (bus_Subscribe TopicKeepalive "keepalived" (ext Mock.w_recovery_fails)).2)
       = Done (Some "store unavailable") w2
       /\ Start Mock.w_recovery_fails = Done (Some "store unavailable") w3
       /\ wg (kd w3) = None.
Proof.
  split; [reflexivity|].
  eexists. 
  assert (Hinit : initFromStore
            (subscribed Mock.w_recovery_fails 1%nat
               (bus_Subscribe TopicKeepalive "keepalived" (ext Mock.w_recovery_fails)).2)
          = Done (Some "store unavailable")
              (Mock.world_of (initFromStore
                 (subscribed Mock.w_recovery_fails 1%nat
                    (bus_Subscribe TopicKeepalive "keepalived"
                       (ext Mock.w_recovery_fails)).2)))).
  { vm_compute. reflexivity. }
  destruct (Start_failure_unwinds Mock.w_recovery_fails) as [_ Hsecond].
  destruct (Hsecond 1%nat "store unavailable" _ eq_refl Hinit)
    as (w3 & Hrun & _ & _ & _ & Hwg).
  exists w3. split; [exact Hinit|]. split; [exact Hrun|exact Hwg].
Defined.

Lemma Stop_shuts_down_witness :
  Started Mock.w_started
  /\ exists r w', Stop Mock.w_started = Done r w'
                  /\ Chan_closed (errChan (kd w')) = true.
Proof.
  assert (Hstarted : Started Mock.w_started).
  { apply (Started_Start Mock.w_recovery); [reflexivity|reflexivity|].
    vm_compute. reflexivity. }
  split; [exact Hstarted|].
  destruct (Stop_shuts_down Mock.w_started Hstarted)
    as (s & stops & w' & _ & Hrun & _ & _ & _ & _ & _ & _ & _ & Hclosed).
  eexists _, w'. split; [exact Hrun|exact Hclosed].
Defined.

(** ** Witnesses of the further properties *)

Lemma processKeepalive_drops_invalid_witness :
  exists text, processKeepalive MsgOther Mock.w_a1
               = Done tt (advance Mock.w_a1 (ext Mock.w_a1) [ALog text]).
Proof.
  apply (processKeepalive_drops_invalid MsgOther Mock.w_a1). left. reflexivity.
Defined.

Lemma handleEntityRegistration_known_agent_witness :
  ents Mock.w_known !! 0%nat = Some Mock.a1
  /\ Entity_Class Mock.a1 = "agent"
  /\ (store_GetEntityByID (SetContextFromResource Mock.a1) "a1" (ext Mock.w_known)).1
     = Ok (Some Mock.a1)
  /\ exists w', handleEntityRegistration (Some 0%nat) Mock.w_known = Done None w'.
Proof.
  assert (Hget : (store_GetEntityByID (SetContextFromResource Mock.a1) (Entity_ID Mock.a1)
                    (ext Mock.w_known)).1 = Ok (Some Mock.a1)) by reflexivity.
  split; [reflexivity|]. split; [reflexivity|]. split; [exact Hget|].
  eexists.
  exact (handleEntityRegistration_known_agent 0%nat Mock.a1 Mock.a1 Mock.w_known
           eq_refl eq_refl Hget).
Defined.


Lemma w_a1_registry_empty :
  forall m0, monitors (kd Mock.w_a1) !! Entity_ID Mock.a1 = Some m0 ->
    is_Some (mons Mock.w_a1 !! m0).
Proof. intros m0 Hm0. vm_compute in Hm0. discriminate Hm0. Defined.

Lemma processKeepalive_answers_witness :
  Event_Entity (Mock.keepalive_of 1000 0%nat) = Some 0%nat
  /\ ents Mock.w_a1 !! 0%nat = Some Mock.a1
  /\ Entity_Validate Mock.a1 = None
  /\ exists w', processKeepalive (MsgEvent (Some (Mock.keepalive_of 1000 0%nat))) Mock.w_a1
                = Done tt w'
                /\ is_Some (monitors (kd w') !! "a1").
Proof.
  assert (Hvalid : Entity_Validate Mock.a1 = None) by reflexivity.
  split; [reflexivity|]. split; [reflexivity|]. split; [exact Hvalid|].
  destruct (processKeepalive_answers (Mock.keepalive_of 1000 0%nat) 0%nat Mock.a1
              Mock.w_a1 eq_refl eq_refl Hvalid w_a1_registry_empty)
    as (w' & Hrun & Hreg & _).
  exists w'. split; [exact Hrun|exact Hreg].
Defined.

Lemma w_a1_registry_ok : registry_ok Mock.w_a1.
Proof.
  split.
  - intros id m Hm. simpl in Hm. rewrite lookup_empty in Hm. discriminate Hm.
  - intros id1 id2 m Hm. simpl in Hm. rewrite lookup_empty in Hm. discriminate Hm.
Defined.

Lemma w_a1_running_registered : running_registered Mock.w_a1.
Proof. intros m mon Hm. simpl in Hm. rewrite lookup_nil in Hm. discriminate Hm. Defined.

Lemma w_a1_processed :
  processKeepalive (MsgEvent (Some (Mock.keepalive_of 1000 0%nat))) Mock.w_a1
  = Done tt (Mock.world_of
               (processKeepalive (MsgEvent (Some (Mock.keepalive_of 1000 0%nat))) Mock.w_a1)).
Proof. vm_compute. reflexivity. Defined.

Lemma processKeepalive_keeps_registry_ok_witness :
  registry_ok Mock.w_a1
  /\ registry_ok
       (Mock.world_of
          (processKeepalive (MsgEvent (Some (Mock.keepalive_of 1000 0%nat))) Mock.w_a1)).
Proof.
  split; [exact w_a1_registry_ok|].
  exact (processKeepalive_keeps_registry_ok _ _ _ w_a1_registry_ok w_a1_processed).
Defined.

Lemma processKeepalive_keeps_running_registered_witness :
  running_registered Mock.w_a1
  /\ running_registered
       (Mock.world_of
          (processKeepalive (MsgEvent (Some (Mock.keepalive_of 1000 0%nat))) Mock.w_a1)).
Proof.
  split; [exact w_a1_running_registered|].
  exact (processKeepalive_keeps_running_registered _ _ _ w_a1_registry_ok
           w_a1_running_registered w_a1_processed).
Defined.

Lemma processKeepalive_again_reuses_witness :
  ents Mock.w_two_objects !! 0%nat = Some Mock.a1
  /\ ents Mock.w_two_objects !! 1%nat = Some Mock.a1
  /\ exists w1 w2,
       processKeepalive (MsgEvent (Some (Mock.keepalive_of 1000 0%nat))) Mock.w_two_objects
       = Done tt w1
       /\ processKeepalive (MsgEvent (Some (Mock.keepalive_of 1010 1%nat))) w1 = Done tt w2
       /\ mons w2 = mons w1.
Proof.
  assert (Hvalid : Entity_Validate Mock.a1 = None) by reflexivity.
  assert (Hwf : forall m0, monitors (kd Mock.w_two_objects) !! Entity_ID Mock.a1 = Some m0 ->
                  is_Some (mons Mock.w_two_objects !! m0)).
  { intros m0 Hm0. vm_compute in Hm0. discriminate Hm0. }
  assert (Hne : 1%nat <> 0%nat) by discriminate.
  split; [reflexivity|]. split; [reflexivity|].
  destruct (processKeepalive_again_reuses
              (Mock.keepalive_of 1000 0%nat) (Mock.keepalive_of 1010 1%nat)
              0%nat 1%nat Mock.a1 Mock.a1 Mock.w_two_objects
              eq_refl eq_refl Hvalid eq_refl eq_refl Hvalid Hne eq_refl eq_refl Hwf)
    as (w1 & w2 & Hrun1 & Hrun2 & _ & Hmons).
  exists w1, w2. split; [exact Hrun1|]. split; [exact Hrun2|exact Hmons].
Defined.

Lemma workers_give_back_the_counter_witness :
  wg (kd Mock.w_started) = Some 10
  /\ wg (kd (Mock.world_of (forM_ processKeepalives [[MsgOther]; []] Mock.w_started)))
     = Some 8.
Proof.
  assert (Hwg : wg (kd Mock.w_started) = Some 10) by (vm_compute; reflexivity).
  assert (Hrun : forM_ processKeepalives [[MsgOther]; []] Mock.w_started
                 = Done tt (Mock.world_of
                              (forM_ processKeepalives [[MsgOther]; []] Mock.w_started)))
    by (vm_compute; reflexivity).
  split; [exact Hwg|].
  destruct (workers_give_back_the_counter [[MsgOther]; []] _ _ 10 Hwg Hrun) as (Hwg' & _).
  exact Hwg'.
Defined.

Lemma w_stopped_wf :
  forall id m, monitors (kd Mock.w_stopped) !! id = Some m ->
    is_Some (mons Mock.w_stopped !! m).
Proof.
  intros id m Hm. simpl in Hm. apply lookup_singleton_Some in Hm as [_ <-].
  eexists. reflexivity.
Defined.

Lemma sweep_removes_stopped_witness :
  exists w', sweep Mock.w_stopped = Done tt w' /\ mons w' = mons Mock.w_stopped.
Proof.
  destruct (sweep_removes_stopped Mock.w_stopped w_stopped_wf)
    as (w' & Hrun & _ & _ & _ & Hmons & _).
  exists w'. split; [exact Hrun|exact Hmons].
Defined.

Lemma sweep_twice_witness :
  exists w', sweep Mock.w_stopped = Done tt w' /\ sweep w' = Done tt w'.
Proof.
  destruct (sweep_twice Mock.w_stopped w_stopped_wf) as (w' & Hrun & _ & Hagain).
  exists w'. split; [exact Hrun|exact Hagain].
Defined.

Lemma sweep_keeps_invariants_witness :
  registry_ok Mock.w_stopped
  /\ running_registered Mock.w_stopped
  /\ registry_ok (Mock.world_of (sweep Mock.w_stopped)).
Proof.
  assert (Hok : registry_ok Mock.w_stopped).
  { split.
    - intros id m Hm. simpl in Hm. apply lookup_singleton_Some in Hm as [_ <-].
      simpl. lia.
    - intros id1 id2 m Hm1 Hm2. simpl in Hm1, Hm2.
      apply lookup_singleton_Some in Hm1 as [<- _].
      apply lookup_singleton_Some in Hm2 as [<- _]. reflexivity. }
  assert (Hrr : running_registered Mock.w_stopped).
  { intros m mon Hm Hrunning. exists "a1". destruct m as [|m]; simpl in Hm.
    - injection Hm as <-. discriminate Hrunning.
    - discriminate Hm. }
  assert (Hrun : sweep Mock.w_stopped = Done tt (Mock.world_of (sweep Mock.w_stopped)))
    by (vm_compute; reflexivity).
  split; [exact Hok|]. split; [exact Hrr|].
  exact (proj1 (sweep_keeps_invariants _ _ Hok Hrr Hrun)).
Defined.

Lemma w_recovery_loop_run :
  initFromStore_loop [Mock.record_a1; Mock.record_a2] Mock.w_recovery
  = Done None (Mock.world_of
                 (initFromStore_loop [Mock.record_a1; Mock.record_a2] Mock.w_recovery)).
Proof. vm_compute. reflexivity. Defined.

Lemma initFromStore_only_adds_witness :
  exists new,
    mons (Mock.world_of
            (initFromStore_loop [Mock.record_a1; Mock.record_a2] Mock.w_recovery))
    = mons Mock.w_recovery ++ new
    /\ (length new <= 2)%nat.
Proof.
  destruct (initFromStore_only_adds _ _ _ _ w_recovery_loop_run)
    as (new & Hnew & Hlen & _).
  exists new. split; [exact Hnew|exact Hlen].
Defined.


Lemma initFromStore_expired_deadline_witness :
  exists w1 m mon,
    initFromStore_loop [Mock.record_a1_past] Mock.w_recovery = initFromStore_loop [] w1
    /\ monitors (kd w1) !! "a1" = Some m
    /\ mons w1 !! m = Some mon
    /\ Monitor_Timeout mon = 0.
Proof.
  assert (Hget : (store_GetEventByEntityCheck
                    (mkCtx (Some (Record_Organization Mock.record_a1_past))
                       (Some (Record_Environment Mock.record_a1_past)))
                    (Record_EntityID Mock.record_a1_past) "keepalive"
                    (ext Mock.w_recovery)).1 = Ok (Some (Mock.keepalive_event Mock.a1 1)))
    by reflexivity.
  assert (Hstatus : Check_Status
                      (mkCheck "keepalive" 30 ["keepalive"] "e" "o" 1) <> 0)
    by discriminate.
  pose proof (initFromStore_expired_deadline Mock.record_a1_past [] Mock.w_recovery
                (Mock.keepalive_event Mock.a1 1)
                (mkCheck "keepalive" 30 ["keepalive"] "e" "o" 1)) as Hpost.
  cbv zeta in Hpost. specialize (Hpost Hget eq_refl Hstatus).
  match type of Hpost with
  | ?P -> _ => assert (Hpast : P) by (vm_compute; split; discriminate)
  end.
  destruct (Hpost Hpast) as (w1 & m & mon & Hrun & Hreg & Hmon & Htimeout & _).
  exists w1, m, mon. split; [exact Hrun|]. split; [exact Hreg|].
  split; [exact Hmon|exact Htimeout].
Defined.

Lemma initFromStore_overwrites_without_stopping_witness :
  exists w1,
    initFromStore_loop [Mock.record_a1] Mock.w_recovery_registered
    = initFromStore_loop [] w1
    /\ ~ running_registered w1.
Proof.
  assert (Hget : (store_GetEventByEntityCheck
                    (mkCtx (Some (Record_Organization Mock.record_a1))
                       (Some (Record_Environment Mock.record_a1)))
                    (Record_EntityID Mock.record_a1) "keepalive"
                    (ext Mock.w_recovery_registered)).1
                 = Ok (Some (Mock.keepalive_event Mock.a1 1)))
    by reflexivity.
  assert (Hstatus : Check_Status
                      (mkCheck "keepalive" 30 ["keepalive"] "e" "o" 1) <> 0)
    by discriminate.
  assert (Hok : registry_ok Mock.w_recovery_registered).
  { split.
    - intros id m Hm. simpl in Hm. apply lookup_singleton_Some in Hm as [_ <-].
      simpl. lia.
    - intros id1 id2 m Hm1 Hm2. simpl in Hm1, Hm2.
      apply lookup_singleton_Some in Hm1 as [<- _].
      apply lookup_singleton_Some in Hm2 as [<- _]. reflexivity. }
  assert (Hreg : monitors (kd Mock.w_recovery_registered)
                 !! Record_EntityID Mock.record_a1 = Some 0%nat)
    by (vm_compute; reflexivity).
  destruct (initFromStore_overwrites_without_stopping Mock.record_a1 []
              Mock.w_recovery_registered (Mock.keepalive_event Mock.a1 1)
              (mkCheck "keepalive" 30 ["keepalive"] "e" "o" 1) 0%nat
              (mkMonitor (Some 0%nat) (30 * Second) false)
              Hget eq_refl Hstatus Hok Hreg eq_refl eq_refl)
    as (w1 & Hrun & _ & _ & Hleak).
  exists w1. split; [exact Hrun|exact Hleak].
Defined.

Lemma initFromStore_keeps_registry_ok_witness :
  registry_ok Mock.w_recovery
  /\ registry_ok (Mock.world_of (initFromStore Mock.w_recovery)).
Proof.
  assert (Hok : registry_ok Mock.w_recovery).
  { split.
    - intros id m Hm. simpl in Hm. rewrite lookup_empty in Hm. discriminate Hm.
    - intros id1 id2 m Hm. simpl in Hm. rewrite lookup_empty in Hm. discriminate Hm. }
  assert (Hrun : initFromStore Mock.w_recovery
                 = Done None (Mock.world_of (initFromStore Mock.w_recovery)))
    by (vm_compute; reflexivity).
  split; [exact Hok|].
  exact (initFromStore_keeps_registry_ok _ _ _ Hok Hrun).
Defined.

Lemma w_recovery_started : Start Mock.w_recovery = Done None Mock.w_started.
Proof. vm_compute. reflexivity. Defined.

Lemma Start_success_launches_witness :
  Start Mock.w_recovery = Done None Mock.w_started
  /\ wg (kd Mock.w_started) = Some (handlerCount (kd Mock.w_recovery)).
Proof.
  split; [exact w_recovery_started|].
  destruct (Start_success_launches _ _ w_recovery_started)
    as (s & w2 & acts & _ & _ & _ & _ & Hwg & _).
  exact Hwg.
Defined.

Lemma Stop_again_panics_witness :
  Started Mock.w_started
  /\ exists w' s,
       Stop Mock.w_started = Done None w'
       /\ Stop w' = Panic "close of closed channel"
                      (advance w' (sub_Cancel s (ext w')).2 [ACancel s]).
Proof.
  assert (Hstarted : Started Mock.w_started).
  { apply (Started_Start Mock.w_recovery); [reflexivity|reflexivity|].
    exact w_recovery_started. }
  assert (Hstop : Stop Mock.w_started = Done None (Mock.world_of (Stop Mock.w_started)))
    by (vm_compute; reflexivity).
  split; [exact Hstarted|].
  destruct (Stop_again_panics _ _ _ Hstarted Hstop) as (s & _ & Hagain).
  exists (Mock.world_of (Stop Mock.w_started)), s.
  split; [exact Hstop|exact Hagain].
Defined.

(** The flags of a command line on which the subscription flag cannot be
    read. *)
Lemma RunE_failure_witness :
  exists calls,
    SilencedList.RunE "all-organizations" unit "default" "tabular"
      (SilencedList.mkFlagSet (λ _, Ok false) (λ _, Err "flag accessed but not defined"))
      (λ _ _ _, Ok tt)
    = (calls, Some "flag accessed but not defined")
    /\ calls = [].
Proof.
  assert (Hfail : (SilencedList.RunE "all-organizations" unit "default" "tabular"
                     (SilencedList.mkFlagSet (λ _, Ok false)
                        (λ _, Err "flag accessed but not defined"))
                     (λ _ _ _, Ok tt)).2 = Some "flag accessed but not defined")
    by reflexivity.
  destruct (RunE_failure "all-organizations" unit "default" "tabular" _ _ _ Hfail)
    as (Hprint & _).
  exists []. split; reflexivity.
Defined.

Lemma Expire_cell_wraps_witness :
  int64_range 60
  /\ wrap64 (60 * Second) = 60 * Second.
Proof.
  assert (Hrange : int64_range
                     (SilencedList.Silenced_Expire
                        (SilencedList.mkSilenced "s" 60 false "" "" "" "" "" "")))
    by (unfold int64_range; simpl; lia).
  split; [exact Hrange|].
  destruct (Expire_cell_wraps (λ d, "") (λ b, "")
              (SilencedList.mkSilenced "s" 60 false "" "" "" "" "" "") Hrange)
    as (_ & Hiff).
  apply Hiff. simpl. lia.
Defined.

Lemma worker_actions_witness :
  Forall (λ a, worker_action a = true)
    (added Mock.w_started
       (Mock.world_of (processKeepalives [MsgOther] Mock.w_started))).
Proof.
  assert (Hrun : processKeepalives [MsgOther] Mock.w_started
                 = Done tt (Mock.world_of (processKeepalives [MsgOther] Mock.w_started)))
    by (vm_compute; reflexivity).
  exact (proj1 (worker_actions _ _ _ Hrun)).
Defined.

Lemma recovery_only_reads_witness :
  Forall (λ a, recovery_action a = true)
    (added Mock.w_recovery (Mock.world_of (initFromStore Mock.w_recovery))).
Proof.
  assert (Hrun : initFromStore Mock.w_recovery
                 = Done None (Mock.world_of (initFromStore Mock.w_recovery)))
    by (vm_compute; reflexivity).
  exact (proj1 (recovery_only_reads _ _ _ Hrun)).
Defined.

Lemma callbacks_leave_registry_witness :
  kd (Mock.world_of (HandleFailure (Some 0%nat) None Mock.w_a2)) = kd Mock.w_a2.
Proof.
  assert (Hrun : HandleFailure (Some 0%nat) None Mock.w_a2
                 = Done None (Mock.world_of (HandleFailure (Some 0%nat) None Mock.w_a2)))
    by (vm_compute; reflexivity).
  destruct callbacks_leave_registry as [Hfailure _].
  destruct (Hfailure _ _ _ _ _ Hrun) as (_ & _ & Hkd). exact Hkd.
Defined.
